(** * DNS load balancer: health checks, server selection and zone synthesis

    A shallow embedding of the health-check service
    ([DNSLoadBalancerService]) and of the BIND9 zone synchronisation module
    ([syncBind9], [createZoneFile], [reloadBind9]).

    Conventions of the embedding:
    - JavaScript strings are [string]; [===] on strings is [String.eqb].
    - Integer columns ([responseTime], [weight], [port], [priority]) are [Z];
      double-precision columns and [Math.random] are given as rationals [Q].
      The health score that decides the health-based selection is computed
      in IEEE-754 double precision (module [Double]).
    - The outside world (the clock, [Math.random], the outcome of [exec],
      of [fetch] and of every Prisma call) is passed in explicitly; the
      database, the files written and the commands issued to the resolver
      ([rndc], [service named]) are threaded as state.  The [ping] of a
      probe is answered by [Health.ProbeEnv] and is not in that list. *)

From Stdlib Require Import ZArith QArith Qround Qminmax Lqa Lia.
From Stdlib Require Import Bool List String Ascii DecimalString Permutation Sorted.
From Corelib Require Import PrimFloat SpecFloat FloatOps FloatAxioms.
Import ListNotations.

Local Open Scope Z_scope.

(** ** JavaScript string primitives used by the sources *)

Module Js.

Local Open Scope string_scope.

(** [s.startsWith(p)] *)
Definition startsWith (s p : string) : bool := String.prefix p s.

(** [s.endsWith(suf)]: [suf] is one of the suffixes of [s]. *)
Fixpoint endsWith (s suf : string) : bool :=
  if String.eqb s suf then true
  else match s with
       | EmptyString => false
       | String _ s' => endsWith s' suf
       end.

(** [s.includes(p)]: [p] starts at some position of [s]. *)
Fixpoint includes (s p : string) : bool :=
  if startsWith s p then true
  else match s with
       | EmptyString => false
       | String _ s' => includes s' p
       end.

Fixpoint drop (n : nat) (s : string) : string :=
  match n, s with
  | O, _ => s
  | S _, EmptyString => EmptyString
  | S n', String _ s' => drop n' s'
  end.

(** [s.replace(p, r)] with a string pattern: only the first occurrence is
    replaced.  The sources only call it with [r = ''], so the [$]-patterns
    of the replacement text play no role. *)
Fixpoint replace (s p r : string) : string :=
  if startsWith s p then r ++ drop (String.length p) s
  else match s with
       | EmptyString => EmptyString
       | String c s' => String c (replace s' p r)
       end.

(** An integer interpolated in a template literal. *)
Definition numToString (z : Z) : string :=
  NilEmpty.string_of_int (Z.to_int z).

(** Truthiness of [number | null | undefined]. *)
Definition truthy (o : option Z) : bool :=
  match o with
  | Some z => negb (z =? 0)%Z
  | None => false
  end.

(** [o || d] on [number | null | undefined]. *)
Definition orDefault (o : option Z) (d : Z) : Z :=
  match o with
  | Some z => if (z =? 0)%Z then d else z
  | None => d
  end.

End Js.

(** ** Health evaluation ([checkServerHealth] and its probes) *)

Module Health.

Local Open Scope string_scope.

(** [{ status: string; responseTime: number }] *)
Record ProbeResult := mkProbe { status : string; responseTime : Z }.

(** [getSystemMetrics] result. *)
Record Metrics := mkMetrics {
  m_uptime : Q; m_load : Q; m_memoryUsage : Q; m_diskUsage : Q }.

(** What the outside world answers during one [checkServerHealth] call.
    [None] stands for a rejected promise ([exec] or [fetch] throwing). *)
Record ProbeEnv := mkEnv {
  ping_stdout : option string;   (* [execAsync(`ping -c 1 -W 5 ip`)] *)
  ping_elapsed : Z;              (* [Date.now() - startTime] in [pingTest] *)
  dns_elapsed : Z;               (* [Date.now() - startTime] in [dnsHealthCheck] *)
  fetch_ok : option bool;        (* [response.ok] of the [fetch] *)
  http_elapsed : Z;              (* [Date.now() - startTime] in [httpHealthCheck] *)
  metrics : Metrics              (* the four [Math.random] based samples *)
}.

Definition pingTest (e : ProbeEnv) : ProbeResult :=
  match ping_stdout e with
  | Some stdout =>
      if Js.includes stdout "1 packets transmitted, 1 received"
      then mkProbe "healthy" (ping_elapsed e)
      else mkProbe "unhealthy" (-1)
  | None => mkProbe "unhealthy" (-1)
  end.

(** The [try] block of [dnsHealthCheck] reads the clock twice and logs; it
    issues no request, so its [catch] branch is never taken. *)
Definition dnsHealthCheck (e : ProbeEnv) : ProbeResult :=
  mkProbe "healthy" (dns_elapsed e).

Definition httpHealthCheck (e : ProbeEnv) : ProbeResult :=
  match fetch_ok e with
  | Some true => mkProbe "healthy" (http_elapsed e)
  | Some false => mkProbe "unhealthy" (-1)
  | None => mkProbe "unhealthy" (-1)
  end.

Definition getSystemMetrics (e : ProbeEnv) : Metrics := metrics e.

Definition determineOverallStatus (pingResult portResult : ProbeResult) : string :=
  if status pingResult =? "healthy" then
    if (status portResult =? "healthy") || (status portResult =? "unknown")
    then "healthy"
    else "degraded"
  else if status portResult =? "healthy" then "degraded"
  else "unhealthy".

(** The object returned by [checkServerHealth]. *)
Record HealthData := mkHealthData {
  hd_status : string;
  hd_responseTime : Z;
  hd_uptime : Q;
  hd_load : Q;
  hd_memoryUsage : Q;
  hd_diskUsage : Q }.

(** The port dispatch of [checkServerHealth]. *)
Definition portCheck (e : ProbeEnv) (port : Z) (pingResult : ProbeResult) : ProbeResult :=
  if (port =? 53)%Z then dnsHealthCheck e
  else if ((port =? 80) || (port =? 443))%Z then httpHealthCheck e
  else pingResult.

(** [checkServerHealth]: every probe catches its own errors, so the body of
    the [try] always runs to its [return]. *)
Definition checkServerHealth (e : ProbeEnv) (port : Z) : HealthData :=
  let pingResult := pingTest e in
  let portResult := portCheck e port pingResult in
  let systemMetrics := getSystemMetrics e in
  let finalStatus := determineOverallStatus pingResult portResult in
  mkHealthData finalStatus (responseTime portResult)
    (m_uptime systemMetrics) (m_load systemMetrics)
    (m_memoryUsage systemMetrics) (m_diskUsage systemMetrics).

(** The spec's reading of a probe outcome. *)
Definition reachable (r : ProbeResult) : Prop := status r = "healthy".
Definition inapplicable (r : ProbeResult) : Prop := status r = "unknown".

End Health.

(** ** Data model shared by the service and the zone synchronisation *)

Module Model.

Local Open Scope string_scope.

(** Row of [DNSServerHealth]. *)
Record ServerHealth := mkHealth {
  h_status : string;
  h_responseTime : Z;
  h_uptime : Q;
  h_load : Q;
  h_memoryUsage : Q;
  h_diskUsage : Q }.

(** Row of [DNSServer] with its optional health row ([include: health]). *)
Record DNSServer := mkServer {
  s_id : string;
  s_name : string;
  s_ip : string;
  s_port : Z;
  s_weight : Z;
  s_isActive : bool;
  s_health : option ServerHealth }.

(** Row of [DNSLoadBalancer] with [include: { domain, servers }]. *)
Record LoadBalancer := mkLB {
  lb_id : string;
  lb_name : string;
  lb_domainId : string;
  lb_domainName : string;       (* [lb.domain.name] *)
  lb_algorithm : string;
  lb_isActive : bool;
  lb_servers : list DNSServer }.

(** Row of [DNSRecord]. *)
Record DNSRecord := mkRecord {
  r_id : nat;
  r_domainId : string;
  r_name : string;
  r_type : string;
  r_value : string;
  r_ttl : Z;
  r_priority : option Z;
  r_weight : option Z;
  r_port : option Z;
  r_isLoadBalanced : bool;
  r_loadBalancerId : option string }.

(** A [Domain] with [include: { records: true }]. *)
Record Domain := mkDomain {
  d_id : string;
  d_name : string;
  d_records : list DNSRecord }.

(** [s.health?.status === 'healthy'] *)
Definition healthStatusIs (st : string) (s : DNSServer) : bool :=
  match s_health s with
  | Some h => h_status h =? st
  | None => false
  end.

End Model.

(** ** IEEE-754 double precision, for the arithmetic of the health score *)

Module Double.

Import Model.
Local Open Scope float_scope.

(** A positive integer as a double; exact below [2^53]. *)
Fixpoint ofPos (p : positive) : float :=
  match p with
  | xH => 1
  | xO q => 2 * ofPos q
  | xI q => 2 * ofPos q + 1
  end.

(** An [INTEGER] column read as a number. *)
Definition ofZ (z : Z) : float :=
  match z with
  | Z0 => 0
  | Zpos p => ofPos p
  | Zneg p => - ofPos p
  end.

(** A [DOUBLE PRECISION] column, given as a rational, read as a number.  The
    quotient of two doubles is correctly rounded, so this is the double
    nearest to [q] whenever numerator and denominator are below [2^53], and
    [q] itself when [q] is such a double. *)
Definition ofQ (q : Q) : float := ofZ (Qnum q) / ofPos (Qden q).

(** [a > b]; false when either side is NaN. *)
Definition gtb (a b : float) : bool := b <? a.

(** [Math.max(a, b)]: NaN when either argument is NaN, and [+0] is larger
    than [-0]. *)
Definition max (a b : float) : float :=
  if is_nan a || is_nan b then nan
  else if a <? b then b
  else if b <? a then a
  else if get_sign a then b else a.

(** [Math.min(a, b)]: NaN when either argument is NaN, and [-0] is smaller
    than [+0]. *)
Definition min (a b : float) : float :=
  if is_nan a || is_nan b then nan
  else if a <? b then a
  else if b <? a then b
  else if get_sign a then a else b.

(** [calculateHealthScore] *)
Definition calculateHealthScore (server : DNSServer) : float :=
  match s_health server with
  | None => 0
  | Some health =>
      let score := 0 in
      let score :=
        if (h_responseTime health >? 0)%Z
        then score + max 0 (100 - ofZ (h_responseTime health))
        else score in
      let score := score + min 100 (ofQ (h_uptime health) / 3600) in
      let score := score + max 0 (100 - ofQ (h_load health) * 20) in
      let score := score + max 0 (100 - ofQ (h_memoryUsage health)) in
      let score := score + max 0 (100 - ofQ (h_diskUsage health)) in
      score
  end.

(** The composite score as the specification words it:
    [max(0, 100 - responseTime) + min(100, uptimeSeconds/3600)
     + max(0, 100 - load*20) + max(0, 100 - memoryUsage)
     + max(0, 100 - diskUsage)]. *)
Definition specHealthScore (health : ServerHealth) : float :=
  max 0 (100 - ofZ (h_responseTime health))
  + min 100 (ofQ (h_uptime health) / 3600)
  + max 0 (100 - ofQ (h_load health) * 20)
  + max 0 (100 - ofQ (h_memoryUsage health))
  + max 0 (100 - ofQ (h_diskUsage health)).

End Double.

(** ** Effects: the database, the file system and the shell *)

Module Eff.

Import Model.

(** The mutable world. [commands] and [files] grow at the end. *)
Record World := mkWorld {
  records : list DNSRecord;                     (* table [DNSRecord] *)
  healthRows : list (string * ServerHealth);    (* table [DNSServerHealth], by [serverId] *)
  files : list (string * string);               (* paths written, with their content *)
  commands : list string }.                     (* commands issued to the resolver;
                                                   the ping of a probe is answered by
                                                   [Health.ProbeEnv] and not listed *)

(** The answers of the outside world. *)
Record Env := mkEnv {
  exec_ok : string -> bool;     (* does [execAsync(cmd)] resolve? *)
  write_ok : string -> bool;    (* does [fs.writeFile(path, _)] resolve? *)
  now : Z;                      (* [Date.now()] *)
  rnd : Q;                      (* [Math.random()] *)
  db_ok : string -> string -> bool
    (* does this Prisma call, on the row or rows of this key, resolve? *)
}.

(** Result of an [async] function: resolved with a value or rejected. *)
Inductive result (A : Type) : Type :=
| Resolved (a : A)
| Rejected (err : string).
Arguments Resolved {A} a.
Arguments Rejected {A} err.

Definition M (A : Type) : Type := World -> result A * World.

Definition ret {A} (a : A) : M A := fun w => (Resolved a, w).

Definition throw {A} (err : string) : M A := fun w => (Rejected err, w).

Definition bind {A B} (m : M A) (k : A -> M B) : M B :=
  fun w => match m w with
           | (Resolved a, w') => k a w'
           | (Rejected e, w') => (Rejected e, w')
           end.

(** [try { m } catch (error) { h error }] *)
Definition tryCatch {A} (m : M A) (h : string -> M A) : M A :=
  fun w => match m w with
           | (Resolved a, w') => (Resolved a, w')
           | (Rejected e, w') => h e w'
           end.

(** [for (const x of xs) { await body x }] *)
Fixpoint forEach {A} (xs : list A) (body : A -> M unit) : M unit :=
  match xs with
  | [] => ret tt
  | x :: xs' => bind (body x) (fun _ => forEach xs' body)
  end.

Definition getRecords : M (list DNSRecord) := fun w => (Resolved (records w), w).

Definition putRecords (rs : list DNSRecord) : M unit :=
  fun w => (Resolved tt, mkWorld rs (healthRows w) (files w) (commands w)).

Definition getHealthRows : M (list (string * ServerHealth)) :=
  fun w => (Resolved (healthRows w), w).

Definition putHealthRows (hs : list (string * ServerHealth)) : M unit :=
  fun w => (Resolved tt, mkWorld (records w) hs (files w) (commands w)).

(** [await prisma.<op>(...)] on the rows of [key]: the call either runs or
    rejects without having touched the tables. *)
Definition prisma {A} (e : Env) (op key : string) (m : M A) : M A :=
  fun w =>
    if db_ok e op key then m w
    else (Rejected ("PrismaClientKnownRequestError: " ++ op)%string, w).

(** [await execAsync(cmd)]: the command is issued, then resolves or rejects. *)
Definition execAsync (e : Env) (cmd : string) : M unit :=
  fun w =>
    let w' := mkWorld (records w) (healthRows w) (files w) (commands w ++ [cmd]) in
    if exec_ok e cmd then (Resolved tt, w')
    else (Rejected ("Command failed: " ++ cmd)%string, w').

(** [await fs.writeFile(path, content)] *)
Definition writeFile (e : Env) (path content : string) : M unit :=
  fun w =>
    if write_ok e path
    then (Resolved tt,
          mkWorld (records w) (healthRows w) (files w ++ [(path, content)]) (commands w))
    else (Rejected ("EACCES: " ++ path)%string, w).

End Eff.

Declare Scope eff_scope.
Delimit Scope eff_scope with eff.
Notation "x <- m ;; k" := (Eff.bind m (fun x => k))
  (at level 61, m at next level, right associativity) : eff_scope.
Notation "m ;;; k" := (Eff.bind m (fun _ => k))
  (at level 61, right associativity) : eff_scope.

(** ** The health-check service: server selection ([DNSLoadBalancerService]) *)

Module Service.

Import Model Eff.
Local Open Scope string_scope.
Local Open Scope eff_scope.

(** [calculateHealthScore] in exact arithmetic: the value that the double
    [Double.calculateHealthScore] approximates, used to bound the score. *)
Definition calculateHealthScore (server : DNSServer) : Q :=
  match s_health server with
  | None => 0%Q
  | Some health =>
      let score := 0%Q in
      let score :=
        if (h_responseTime health >? 0)%Z
        then (score + Qmax 0 (100 - inject_Z (h_responseTime health)))%Q
        else score in
      let score := (score + Qmin 100 (h_uptime health / 3600))%Q in
      let score := (score + Qmax 0 (100 - h_load health * 20))%Q in
      let score := (score + Qmax 0 (100 - h_memoryUsage health))%Q in
      let score := (score + Qmax 0 (100 - h_diskUsage health))%Q in
      score
  end.

(** The callback of the [reduce] in [updateHealthBasedDNS]; [!best] is false
    for every server object, and the scores are doubles. *)
Definition betterOf (best current : DNSServer) : DNSServer :=
  let bestScore := Double.calculateHealthScore best in
  let currentScore := Double.calculateHealthScore current in
  if Double.gtb currentScore bestScore then current else best.

(** [healthyServers.reduce(callback)] without an initial value: the first
    element seeds the accumulator; on an empty array it throws. *)
Definition bestServer (healthyServers : list DNSServer) : option DNSServer :=
  match healthyServers with
  | [] => None
  | first :: rest => Some (fold_left betterOf rest first)
  end.

(** Highest [id] in use; a created row gets the next one. *)
Definition freshId (rs : list DNSRecord) : nat :=
  S (fold_right (fun r m => Nat.max (r_id r) m) O rs).

(** [prisma.dNSRecord.findFirst({ where: { domainId, name, type: 'A' } })] *)
Definition findFirstA (rs : list DNSRecord) (domainId name : string) : option DNSRecord :=
  find (fun r => (r_domainId r =? domainId) && (r_name r =? name) && (r_type r =? "A")) rs.

(** [prisma.dNSRecord.update({ where: { id }, data: { value, ttl } })] *)
Definition updateValue (rs : list DNSRecord) (id : nat) (value : string) (ttl : Z)
  : list DNSRecord :=
  map (fun r =>
         if Nat.eqb (r_id r) id
         then mkRecord (r_id r) (r_domainId r) (r_name r) (r_type r) value ttl
                (r_priority r) (r_weight r) (r_port r)
                (r_isLoadBalanced r) (r_loadBalancerId r)
         else r) rs.

(** [prisma.dNSRecord.create({ data: { domainId, name, type, value, ttl } })]:
    the columns left out take their defaults ([isLoadBalanced] is
    [NOT NULL DEFAULT false], the optional ones are null). *)
Definition createA (rs : list DNSRecord) (domainId name value : string) (ttl : Z)
  : list DNSRecord :=
  rs ++ [mkRecord (freshId rs) domainId name "A" value ttl None None None false None].

(** Whether the Prisma calls [createOrUpdateDNSRecord] needs on this table
    resolve: the [findFirst], then the [update] or the [create]. *)
Definition canWrite (e : Env) (loadBalancer : LoadBalancer) (rs : list DNSRecord) : bool :=
  let recordName := lb_name loadBalancer ++ "." ++ lb_domainName loadBalancer in
  db_ok e "dNSRecord.findFirst" recordName
  && match findFirstA rs (lb_domainId loadBalancer) recordName with
     | Some _ => db_ok e "dNSRecord.update" recordName
     | None => db_ok e "dNSRecord.create" recordName
     end.

(** [createOrUpdateDNSRecord]: a rejected Prisma call is logged by the
    [catch] and nothing is written. *)
Definition createOrUpdateDNSRecord (e : Env) (loadBalancer : LoadBalancer)
  (server : DNSServer) : M unit :=
  tryCatch
    (let recordName := lb_name loadBalancer ++ "." ++ lb_domainName loadBalancer in
     existingRecord <-
       prisma e "dNSRecord.findFirst" recordName
         (rs <- getRecords ;;
          ret (findFirstA rs (lb_domainId loadBalancer) recordName)) ;;
     match existingRecord with
     | Some existingRecord =>
         prisma e "dNSRecord.update" recordName
           (rs <- getRecords ;;
            putRecords (updateValue rs (r_id existingRecord) (s_ip server) 60))
     | None =>
         prisma e "dNSRecord.create" recordName
           (rs <- getRecords ;;
            putRecords (createA rs (lb_domainId loadBalancer) recordName (s_ip server) 60))
     end)
    (fun _ => ret tt).

(** [updateRoundRobinDNS]; an index past the end reads [undefined], whose
    [.ip] access is caught inside [createOrUpdateDNSRecord]. *)
Definition updateRoundRobinDNS (e : Env) (loadBalancer : LoadBalancer)
  (healthyServers : list DNSServer) : M unit :=
  let serverIndex := Z.rem (now e / 1000) (Z.of_nat (List.length healthyServers)) in
  match (if (serverIndex <? 0)%Z then None
         else nth_error healthyServers (Z.to_nat serverIndex)) with
  | Some selectedServer => createOrUpdateDNSRecord e loadBalancer selectedServer
  | None => ret tt
  end.

(** [healthyServers.reduce((sum, s) => sum + s.weight, 0)] *)
Definition totalWeight (healthyServers : list DNSServer) : Z :=
  fold_left (fun sum s => (sum + s_weight s)%Z) healthyServers 0%Z.

(** The [for ... of] walk of [updateWeightedDNS]: [random] is decremented by
    each weight in turn and the first server that brings it to [<= 0] is
    taken; [None] when the loop ends without a [break]. *)
Fixpoint weightedWalk (random : Q) (healthyServers : list DNSServer) : option DNSServer :=
  match healthyServers with
  | [] => None
  | server :: rest =>
      let random := (random - inject_Z (s_weight server))%Q in
      if Qle_bool random 0 then Some server else weightedWalk random rest
  end.

(** [updateWeightedDNS] *)
Definition updateWeightedDNS (e : Env) (loadBalancer : LoadBalancer)
  (healthyServers : list DNSServer) : M unit :=
  let total := totalWeight healthyServers in
  let random := (rnd e * inject_Z total)%Q in
  match weightedWalk random healthyServers with
  | Some server => createOrUpdateDNSRecord e loadBalancer server
  | None => ret tt
  end.

(** [updateHealthBasedDNS] *)
Definition updateHealthBasedDNS (e : Env) (loadBalancer : LoadBalancer)
  (healthyServers : list DNSServer) : M unit :=
  match bestServer healthyServers with
  | Some best => createOrUpdateDNSRecord e loadBalancer best
  | None => throw "TypeError: Reduce of empty array with no initial value"
  end.

(** [DNSLoadBalancerService.reloadBind9]: a failed reload is logged and
    nothing else is done. *)
Definition reloadBind9 (e : Env) : M unit :=
  tryCatch (execAsync e "rndc reload") (fun _ => ret tt).

(** [loadBalancer.servers.filter(s => s.health?.status === 'healthy')] *)
Definition healthyServersOf (loadBalancer : LoadBalancer) : list DNSServer :=
  filter (healthStatusIs "healthy") (lb_servers loadBalancer).

(** [updateDNSRecords] *)
Definition updateDNSRecords (e : Env) (loadBalancer : LoadBalancer) : M unit :=
  tryCatch
    (let healthyServers := healthyServersOf loadBalancer in
     match healthyServers with
     | [] => ret tt
     | _ =>
         (if lb_algorithm loadBalancer =? "round-robin"
          then updateRoundRobinDNS e loadBalancer healthyServers
          else if lb_algorithm loadBalancer =? "weighted"
          then updateWeightedDNS e loadBalancer healthyServers
          else if lb_algorithm loadBalancer =? "health-based"
          then updateHealthBasedDNS e loadBalancer healthyServers
          else updateRoundRobinDNS e loadBalancer healthyServers) ;;;
         reloadBind9 e
     end)
    (fun _ => ret tt).

End Service.

(** ** Zone synthesis ([createZoneFile]) *)

Module Zone.

Import Model.
Local Open Scope string_scope.

Definition nl : string := String (ascii_of_nat 10) EmptyString.

(** One line appended to [zoneContent], by the template that produced it. *)
Inductive zline : Type :=
| LGeneric (owner rtype : string) (priority weight port : option Z) (value : string)
| LMX (owner : string) (mxPriority : Z) (value : string)
| LCname (owner target : string)
| LBalancedA (owner ip : string)
| LSrv (owner : string) (priority weight port : Z) (target : string).

Definition owner_of (l : zline) : string :=
  match l with
  | LGeneric o _ _ _ _ _ => o
  | LMX o _ _ => o
  | LCname o _ => o
  | LBalancedA o _ => o
  | LSrv o _ _ _ _ => o
  end.

Definition type_of (l : zline) : string :=
  match l with
  | LGeneric _ t _ _ _ _ => t
  | LMX _ _ _ => "MX"
  | LCname _ _ => "CNAME"
  | LBalancedA _ _ => "A"
  | LSrv _ _ _ _ _ => "SRV"
  end.

(** The address or target a line ends with. *)
Definition value_of (l : zline) : string :=
  match l with
  | LGeneric _ _ _ _ _ v => v
  | LMX _ _ v => v
  | LCname _ t => t
  | LBalancedA _ ip => ip
  | LSrv _ _ _ _ t => t
  end.

(** [x ? ` ${x}` : ''] *)
Definition optField (o : option Z) : string :=
  match o with
  | Some z => " " ++ Js.numToString z
  | None => ""
  end.

(** The text of a line, as the template literals build it. *)
Definition render (l : zline) : string :=
  match l with
  | LGeneric o t p w q v =>
      o ++ "       IN      " ++ t ++ optField p ++ optField w ++ optField q
        ++ "     " ++ v ++ nl
  | LMX o p v =>
      o ++ "       IN      MX     " ++ Js.numToString p ++ " " ++ v ++ nl
  | LCname o t =>
      o ++ "       IN      CNAME     " ++ t ++ nl
  | LBalancedA o ip =>
      o ++ "       IN      A       " ++ ip ++ nl
  | LSrv o p w q t =>
      o ++ "       IN      SRV     " ++ Js.numToString p ++ " " ++ Js.numToString w
        ++ " " ++ Js.numToString q ++ " " ++ t ++ nl
  end.

(** The SOA / NS / A preamble. *)
Definition preamble (domainName : string) : string :=
  "$TTL 86400" ++ nl ++
  "@       IN      SOA     " ++ domainName ++ ". admin." ++ domainName ++ ". (" ++ nl ++
  "                        2023080701      ; Serial" ++ nl ++
  "                        3600            ; Refresh" ++ nl ++
  "                        1800            ; Retry" ++ nl ++
  "                        1209600         ; Expire" ++ nl ++
  "                        86400 )         ; Negative Cache TTL" ++ nl ++
  nl ++
  "@       IN      NS      ns1." ++ domainName ++ "." ++ nl ++
  "@       IN      A       127.0.0.1" ++ nl ++
  "ns1     IN      A       127.0.0.1" ++ nl ++
  nl.

(** The [recordName] chain of [if]s; [None] is the [continue] that skips a
    record of another domain. *)
Definition zoneRecordName (recordName domainName : string) : option string :=
  if recordName =? domainName then Some "@"
  else if Js.endsWith recordName ("." ++ domainName)
  then Some (Js.replace recordName ("." ++ domainName) "")
  else if Js.includes recordName ("." ++ domainName)
  then Some (Js.replace recordName ("." ++ domainName) "")
  else if Js.includes recordName "." && negb (Js.endsWith recordName domainName)
  then None
  else Some recordName.

(** The [target] of a CNAME line. *)
Definition cnameTarget (value domainName : string) : string :=
  let target := value in
  let target :=
    if Js.endsWith target ("." ++ domainName)
    then Js.replace target ("." ++ domainName) ""
    else target in
  let target :=
    if negb (Js.endsWith target ".")
    then target ++ "." ++ domainName ++ "."
    else target in
  target.

(** [x ? x : null] for the optional numeric columns. *)
Definition keepTruthy (o : option Z) : option Z :=
  if Js.truthy o then o else None.

(** One iteration of the loop over [domain.records]; the [ttl] computed by
    the source is not used by any template. *)
Definition staticLine (domainName : string) (record : DNSRecord) : option zline :=
  if r_isLoadBalanced record then None
  else
    match zoneRecordName (r_name record) domainName with
    | None => None
    | Some recordName =>
        if r_type record =? "MX"
        then Some (LMX recordName (Js.orDefault (r_priority record) 10) (r_value record))
        else if r_type record =? "CNAME"
        then Some (LCname recordName (cnameTarget (r_value record) domainName))
        else Some (LGeneric recordName (r_type record)
                     (keepTruthy (r_priority record)) (keepTruthy (r_weight record))
                     (keepTruthy (r_port record)) (r_value record))
    end.

Definition staticLines (domain : Domain) : list zline :=
  flat_map (fun r => match staticLine (d_name domain) r with
                     | Some l => [l]
                     | None => []
                     end) (d_records domain).

(** [server.isActive && server.health && server.health.status === 'healthy'] *)
Definition zoneHealthy (server : DNSServer) : bool :=
  s_isActive server && healthStatusIs "healthy" server.

(** [(health.responseTime || 0)] with [health || { responseTime: 0 }] *)
Definition sortKey (server : DNSServer) : Z :=
  match s_health server with
  | Some h => Js.orDefault (Some (h_responseTime h)) 0
  | None => 0
  end.

Fixpoint insertByKey (x : DNSServer) (l : list DNSServer) : list DNSServer :=
  match l with
  | [] => [x]
  | y :: l' => if (sortKey x <=? sortKey y)%Z then x :: y :: l'
               else y :: insertByKey x l'
  end.

(** [healthyServers.sort((a, b) => key a - key b)]: a stable sort. *)
Definition sortByResponseTime (l : list DNSServer) : list DNSServer :=
  fold_right insertByKey [] l.

(** [Math.floor((1 / healthyServers.length) * 100)] *)
Definition srvWeight (n : nat) : Z :=
  Qfloor ((1 / inject_Z (Z.of_nat n)) * 100)%Q.

(** The inner [for] loop of the weighted branch: [recordCount] copies. *)
Definition weightedCopies (lb : LoadBalancer) (server : DNSServer) : list zline :=
  let recordCount := (s_weight server / 10)%Z in
  repeat (LBalancedA (lb_name lb) (s_ip server)) (Z.to_nat recordCount).

(** The [switch (lb.algorithm)]: the A lines, and [healthyServers] as the
    branch leaves it (the health-based branch sorts the array in place). *)
Definition algorithmLines (lb : LoadBalancer) (healthyServers : list DNSServer)
  : list zline * list DNSServer :=
  if lb_algorithm lb =? "round-robin" then
    (map (fun server => LBalancedA (lb_name lb) (s_ip server)) healthyServers,
     healthyServers)
  else if lb_algorithm lb =? "weighted" then
    (flat_map (weightedCopies lb) healthyServers, healthyServers)
  else if lb_algorithm lb =? "health-based" then
    let sortedServers := sortByResponseTime healthyServers in
    let topServers := firstn 3 sortedServers in
    (map (fun server => LBalancedA (lb_name lb) (s_ip server)) topServers,
     sortedServers)
  else ([], healthyServers).

(** The SRV block. *)
Definition srvLines (lb : LoadBalancer) (domainName : string)
  (healthyServers : list DNSServer) : list zline :=
  if (1 <? List.length healthyServers)%nat then
    map (fun server =>
           LSrv ("_" ++ lb_name lb ++ "._tcp." ++ domainName ++ ".")
                0 (srvWeight (List.length healthyServers)) (s_port server) (s_ip server))
        healthyServers
  else [].

(** One iteration of the loop over [loadBalancers]. *)
Definition balancerLines (domain : Domain) (lb : LoadBalancer) : list zline :=
  if lb_isActive lb && (lb_domainName lb =? d_name domain)
     && (0 <? List.length (lb_servers lb))%nat
  then
    let healthyServers := filter zoneHealthy (lb_servers lb) in
    match healthyServers with
    | [] => []
    | _ =>
        let '(aLines, healthyServers) := algorithmLines lb healthyServers in
        aLines ++ srvLines lb (d_name domain) healthyServers
    end
  else [].

(** The healthy servers the zone loop sees for a balancer. *)
Definition healthyOf (lb : LoadBalancer) : list DNSServer :=
  filter zoneHealthy (lb_servers lb).

Definition isA (l : zline) : bool := type_of l =? "A".
Definition isSrv (l : zline) : bool := type_of l =? "SRV".

(** Every line appended after the preamble, in order. *)
Definition zoneLines (domain : Domain) (loadBalancers : list LoadBalancer) : list zline :=
  staticLines domain ++ flat_map (balancerLines domain) loadBalancers.

(** The final [zoneContent]. *)
Definition zoneContent (domain : Domain) (loadBalancers : list LoadBalancer) : string :=
  preamble (d_name domain)
  ++ fold_right (fun l acc => render l ++ acc) "" (zoneLines domain loadBalancers).

(** The texts of the elements of a list, one after the other: what a loop of
    [zoneContent += ...] appends. *)
Definition textOf {A : Type} (text : A -> string) (xs : list A) : string :=
  fold_right (fun x acc => text x ++ acc) "" xs.

(** A positive integer as a double; exact below [2^53]. *)
Fixpoint floatOfPos (p : positive) : float :=
  match p with
  | xH => 1%float
  | xO q => PrimFloat.mul 2%float (floatOfPos q)
  | xI q => PrimFloat.add (PrimFloat.mul 2%float (floatOfPos q)) 1%float
  end.

(** [Math.floor((1 / n) * 100)] in IEEE-754 double precision: the result
    lies in [0, 100], so it is the largest integer [k <= 100] with
    [k <= (1 / n) * 100]. *)
Definition srvWeightFloat (n : positive) : Z :=
  let x := PrimFloat.mul (PrimFloat.div 1%float (floatOfPos n)) 100%float in
  fold_left (fun acc k =>
               if PrimFloat.leb (floatOfPos (Pos.of_nat k)) x
               then Z.of_nat k else acc)
            (seq 1 100) 0%Z.

End Zone.

(** ** Resolver synchronisation ([syncBind9] and its helpers) *)

Module Sync.

Import Model Eff.
Local Open Scope string_scope.
Local Open Scope eff_scope.

Definition ZONE_DIR : string := "/etc/bind/zones".
Definition RNDC_PATH : string := "/usr/sbin/rndc".
Definition NAMED_CONF_LOCAL : string := "/etc/bind/named.conf.local".

(** [createZoneFile] *)
Definition createZoneFile (e : Env) (domain : Domain) (loadBalancers : list LoadBalancer)
  : M unit :=
  let zoneFileName := d_name domain ++ ".zone" in
  let zoneFilePath := ZONE_DIR ++ "/" ++ zoneFileName in
  writeFile e zoneFilePath (Zone.zoneContent domain loadBalancers).

(** The text written by [updateNamedConfLocal]. *)
Definition namedConf (domains : list Domain) : string :=
  "//" ++ Zone.nl ++
  "// Do any local configuration here" ++ Zone.nl ++
  "//" ++ Zone.nl ++ Zone.nl ++
  "// Consider adding the 1918 zones here, if they are not used in your" ++ Zone.nl ++
  "// organization" ++ Zone.nl ++
  "//include " ++ String (ascii_of_nat 34) "/etc/bind/zones.rfc1918"
     ++ String (ascii_of_nat 34) ";" ++ Zone.nl ++ Zone.nl ++
  fold_right (fun domain acc =>
      "zone " ++ String (ascii_of_nat 34) (d_name domain)
        ++ String (ascii_of_nat 34) " {" ++ Zone.nl ++
      "    type master;" ++ Zone.nl ++
      "    file " ++ String (ascii_of_nat 34) "/etc/bind/zones/" ++ d_name domain
        ++ ".zone" ++ String (ascii_of_nat 34) ";" ++ Zone.nl ++
      "    allow-update { none; };" ++ Zone.nl ++
      "};" ++ Zone.nl ++ Zone.nl ++ acc) "" domains.

Definition updateNamedConfLocal (e : Env) (domains : list Domain) : M unit :=
  writeFile e NAMED_CONF_LOCAL (namedConf domains).

(** [reloadBind9] of the synchronisation module: reload, then restart as a
    fallback, and rethrow when the restart fails too. *)
Definition reloadBind9 (e : Env) : M unit :=
  tryCatch (execAsync e (RNDC_PATH ++ " reload"))
    (fun _ =>
       tryCatch (execAsync e "sudo service named restart")
         (fun restartError => throw restartError)).

(** [prisma.domain.findMany({ include: { records: true } })] over the rows
    of the [Domain] table. *)
Definition withRecords (rs : list DNSRecord) (row : string * string) : Domain :=
  mkDomain (fst row) (snd row) (filter (fun r => r_domainId r =? fst row) rs).

(** [syncBind9]; [domainRows] is the [Domain] table as [(id, name)] and
    [loadBalancers] the result of the balancer query. *)
Definition syncBind9 (e : Env) (domainRows : list (string * string))
  (loadBalancers : list LoadBalancer) : M unit :=
  tryCatch
    (rs <- getRecords ;;
     let domains := map (withRecords rs) domainRows in
     forEach domains (fun domain => createZoneFile e domain loadBalancers) ;;;
     updateNamedConfLocal e domains ;;;
     reloadBind9 e)
    (fun error => throw error).

End Sync.

(** ** The scheduler ([startHealthChecks], [stopHealthChecks]) *)

Module Scheduler.

Import Model Eff.
Local Open Scope string_scope.
Local Open Scope eff_scope.

(** [prisma.dNSServerHealth.upsert({ where: { serverId }, update, create })];
    [lastCheck] is a timestamp and is left out. *)
Fixpoint upsertHealth (rows : list (string * ServerHealth)) (serverId : string)
  (h : ServerHealth) : list (string * ServerHealth) :=
  match rows with
  | [] => [(serverId, h)]
  | (id, h0) :: rows' =>
      if id =? serverId then (id, h) :: rows'
      else (id, h0) :: upsertHealth rows' serverId h
  end.

(** [updateServerHealth]: a rejected upsert is logged by the [catch] and the
    table stays as it was. *)
Definition updateServerHealth (e : Env) (serverId : string)
  (healthData : Health.HealthData) : M unit :=
  tryCatch
    (prisma e "dNSServerHealth.upsert" serverId
       (rows <- getHealthRows ;;
        putHealthRows
          (upsertHealth rows serverId
             (mkHealth (Health.hd_status healthData) (Health.hd_responseTime healthData)
                (Health.hd_uptime healthData) (Health.hd_load healthData)
                (Health.hd_memoryUsage healthData) (Health.hd_diskUsage healthData)))))
    (fun _ => ret tt).

Fixpoint lookupHealth (rows : list (string * ServerHealth)) (serverId : string)
  : option ServerHealth :=
  match rows with
  | [] => None
  | (id, h) :: rows' => if id =? serverId then Some h else lookupHealth rows' serverId
  end.

(** [include: { servers: { include: { health: true } } }] *)
Definition withHealth (rows : list (string * ServerHealth)) (lb : LoadBalancer)
  : LoadBalancer :=
  mkLB (lb_id lb) (lb_name lb) (lb_domainId lb) (lb_domainName lb) (lb_algorithm lb)
    (lb_isActive lb)
    (map (fun s => mkServer (s_id s) (s_name s) (s_ip s) (s_port s) (s_weight s)
                     (s_isActive s) (lookupHealth rows (s_id s)))
         (lb_servers lb)).

(** [performHealthChecks]; [balancers] is the balancer table with its
    servers, [probe ip port] what the network answers for that endpoint. *)
Definition performHealthChecks (e : Env) (probe : string -> Z -> Health.ProbeEnv)
  (balancers : list LoadBalancer) : M unit :=
  tryCatch
    (rows <- prisma e "dNSLoadBalancer.findMany" "isActive" getHealthRows ;;
     let loadBalancers := map (withHealth rows) (filter lb_isActive balancers) in
     forEach loadBalancers (fun lb =>
       forEach (lb_servers lb) (fun server =>
         let healthStatus :=
           Health.checkServerHealth (probe (s_ip server) (s_port server)) (s_port server) in
         updateServerHealth e (s_id server) healthStatus) ;;;
       Service.updateDNSRecords e lb))
    (fun _ => ret tt).

(** The service object together with Node's table of live interval timers. *)
Record State := mkState {
  isRunning : bool;
  healthCheckInterval : option nat;   (* the timer handle, or [null] *)
  timers : list nat;                  (* intervals created and not cleared *)
  nextTimer : nat;                    (* the next handle [setInterval] returns *)
  cycles : nat }.                     (* calls of [performHealthChecks] so far *)

Definition initial : State := mkState false None [] 0 0.

(** [startHealthChecks] up to its first [await]: [true] when the call goes
    on, [false] when it returned at [if (this.isRunning) return]. *)
Definition startEnter (st : State) : bool * State :=
  if isRunning st then (false, st)
  else (true, mkState true (healthCheckInterval st) (timers st) (nextTimer st) (cycles st)).

(** [startHealthChecks] after the awaited first cycle: [setInterval]. *)
Definition startResume (st : State) : State :=
  mkState (isRunning st) (Some (nextTimer st)) (nextTimer st :: timers st)
    (S (nextTimer st)) (S (cycles st)).

(** A call of [startHealthChecks] that runs without another call in between. *)
Definition startHealthChecks (st : State) : State :=
  let '(goesOn, st') := startEnter st in
  if goesOn then startResume st' else st'.

(** [stopHealthChecks] *)
Definition stopHealthChecks (st : State) : State :=
  match healthCheckInterval st with
  | Some id =>
      mkState false None (filter (fun t => negb (Nat.eqb t id)) (timers st))
        (nextTimer st) (cycles st)
  | None => mkState false None (timers st) (nextTimer st) (cycles st)
  end.

End Scheduler.

(** ** The status summary and the rotation index of the service *)

Module Api.

Import Model Eff.
Local Open Scope string_scope.

(** The index expression of [updateRoundRobinDNS] and the element it reads:
    [healthyServers[Math.floor(Date.now() / 1000) % healthyServers.length]]. *)
Definition roundRobinPick (now : Z) (healthyServers : list DNSServer) : option DNSServer :=
  let serverIndex := Z.rem (now / 1000) (Z.of_nat (List.length healthyServers)) in
  if (serverIndex <? 0)%Z then None
  else nth_error healthyServers (Z.to_nat serverIndex).

(** An element of the [servers] array returned by [getLoadBalancerStatus]. *)
Record ServerView := mkView {
  v_id : string;
  v_name : string;
  v_ip : string;
  v_port : Z;
  v_weight : Z;
  v_health : option ServerHealth }.

(** The object returned by [getLoadBalancerStatus]; [lastHealthCheck] is a
    timestamp and is left out. *)
Record LoadBalancerStatus := mkStatus {
  ls_id : string;
  ls_name : string;
  ls_algorithm : string;
  ls_isActive : bool;
  totalServers : nat;
  healthyServers : nat;
  unhealthyServers : nat;
  healthPercentage : Q;
  ls_servers : list ServerView }.

(** [prisma.dNSLoadBalancer.findUnique({ where: { id }, include })] over the
    balancer table joined with the health rows. *)
Definition findUnique (rows : list (string * ServerHealth))
  (balancers : list LoadBalancer) (id : string) : option LoadBalancer :=
  option_map (Scheduler.withHealth rows) (find (fun lb => lb_id lb =? id) balancers).

(** The body of [getLoadBalancerStatus] once the balancer is found. *)
Definition statusOf (lb : LoadBalancer) : LoadBalancerStatus :=
  let totalServers := List.length (lb_servers lb) in
  let healthyServers :=
    List.length (filter (healthStatusIs "healthy") (lb_servers lb)) in
  let unhealthyServers :=
    List.length (filter (healthStatusIs "unhealthy") (lb_servers lb)) in
  mkStatus (lb_id lb) (lb_name lb) (lb_algorithm lb) (lb_isActive lb)
    totalServers healthyServers unhealthyServers
    (if (0 <? totalServers)%nat
     then (inject_Z (Z.of_nat healthyServers) / inject_Z (Z.of_nat totalServers) * 100)%Q
     else 0%Q)
    (map (fun s => mkView (s_id s) (s_name s) (s_ip s) (s_port s) (s_weight s) (s_health s))
         (lb_servers lb)).


End Api.

(** ** The manual triggers of the balancer routes *)

Module Routes.

Import Model Eff.
Local Open Scope string_scope.
Local Open Scope eff_scope.

(** What a handler sends: [res.status(code).json({ message })] (code 200
    when [res.json] is called directly) or [res.status(code).json({ error })]. *)
Inductive Response : Type :=
| Message (code : Z) (message : string)
| Error (code : Z) (error : string).

(** The loop [for (const server of loadBalancer.servers)] of both handlers. *)
Definition probeServers (e : Env) (probe : string -> Z -> Health.ProbeEnv)
  (lb : LoadBalancer) : M unit :=
  forEach (lb_servers lb) (fun server =>
    let healthStatus :=
      Health.checkServerHealth (probe (s_ip server) (s_port server)) (s_port server) in
    Scheduler.updateServerHealth e (s_id server) healthStatus).

(** [POST /:id/update-dns] *)
Definition updateDnsRoute (e : Env) (probe : string -> Z -> Health.ProbeEnv)
  (balancers : list LoadBalancer) (id : string) : M Response :=
  tryCatch
    (rows <- prisma e "dNSLoadBalancer.findUnique" id getHealthRows ;;
     match Api.findUnique rows balancers id with
     | None => ret (Error 404 "Load balancer not found")
     | Some loadBalancer =>
         probeServers e probe loadBalancer ;;;
         Service.updateDNSRecords e loadBalancer ;;;
         ret (Message 200 "DNS records updated successfully")
     end)
    (fun error => ret (Error 500 error)).

(** [POST /:id/health-check] *)
Definition healthCheckRoute (e : Env) (probe : string -> Z -> Health.ProbeEnv)
  (balancers : list LoadBalancer) (id : string) : M Response :=
  tryCatch
    (rows <- prisma e "dNSLoadBalancer.findUnique" id getHealthRows ;;
     match Api.findUnique rows balancers id with
     | None => ret (Error 404 "Load balancer not found")
     | Some loadBalancer =>
         probeServers e probe loadBalancer ;;;
         ret (Message 200 "Manual health check completed successfully")
     end)
    (fun error => ret (Error 500 error)).


End Routes.

(** ** Calls of the scheduler in sequence, and the exported resync *)

Module Runs.

Import Model Eff.
Local Open Scope string_scope.

(** A completed call of one of the two public methods of the scheduler. *)
Inductive Call : Type := Start | Stop.

Definition call (c : Call) (st : Scheduler.State) : Scheduler.State :=
  match c with
  | Start => Scheduler.startHealthChecks st
  | Stop => Scheduler.stopHealthChecks st
  end.

(** The calls of a list, one after the other. *)
Definition run (calls : list Call) (st : Scheduler.State) : Scheduler.State :=
  fold_left (fun st c => call c st) calls st.

(** [`${ZONE_DIR}/${domain.name}.zone`] *)
Definition zoneFilePath (domainName : string) : string :=
  Sync.ZONE_DIR ++ "/" ++ domainName ++ ".zone".


End Runs.

(** ** The text of one zone stanza of [named.conf.local] *)

Module Conf.

Import Model Eff.
Local Open Scope string_scope.

Definition quote : string := String (ascii_of_nat 34) EmptyString.

(** The template appended to [configContent] for one domain by
    [updateNamedConfLocal], with the zone file named through
    [Runs.zoneFilePath]. *)
Definition stanza (domainName : string) : string :=
  "zone " ++ quote ++ domainName ++ quote ++ " {" ++ Zone.nl ++
  "    type master;" ++ Zone.nl ++
  "    file " ++ quote ++ Runs.zoneFilePath domainName ++ quote ++ ";" ++ Zone.nl ++
  "    allow-update { none; };" ++ Zone.nl ++
  "};" ++ Zone.nl ++ Zone.nl.

End Conf.

(** ** Predicates on worlds and computations used in the statements *)

Module Frame.

Import Model Eff.
Local Open Scope string_scope.

(** The world with another health table. *)
Definition setHealthRows (hs : list (string * ServerHealth)) (w : World) : World :=
  mkWorld (records w) hs (files w) (commands w).

(** A computation that neither reads nor writes the health table. *)
Definition healthBlind {A : Type} (m : M A) : Prop :=
  forall hs w, m (setHealthRows hs w) = (fst (m w), setHealthRows hs (snd (m w))).

(** A health row written by an evaluation: one of the three statuses. *)
Definition evaluated (h : ServerHealth) : Prop :=
  h_status h = "healthy" \/ h_status h = "degraded" \/ h_status h = "unhealthy".

(** The health table has an evaluated row for this server. *)
Definition probed (serverId : string) (w : World) : Prop :=
  exists h, Scheduler.lookupHealth (healthRows w) serverId = Some h /\ evaluated h.

(** The worlds of the model agree on everything but the health table. *)
Definition sameData (w1 w2 : World) : Prop :=
  records w1 = records w2 /\ files w1 = files w2 /\ commands w1 = commands w2.

(** The same record table and the same files. *)
Definition sameStore (w1 w2 : World) : Prop :=
  records w1 = records w2 /\ files w1 = files w2.

End Frame.

(** ** Concrete snapshots used to run the definitions *)

Module Scenario.

Import Model Eff.
Local Open Scope string_scope.

Definition healthRow (st : string) (rt : Z) : ServerHealth :=
  mkHealth st rt 0 0 0 0.

Definition server (id ip : string) (weight : Z) (h : option ServerHealth) : DNSServer :=
  mkServer id id ip 80 weight true h.

(** Balancer [web] on the domain [example.com] (id [d1]). *)
Definition web (algorithm : string) (servers : list DNSServer) : LoadBalancer :=
  mkLB "lb1" "web" "d1" "example.com" algorithm true servers.

Definition exampleCom (rs : list DNSRecord) : Domain :=
  Sync.withRecords rs ("d1", "example.com").

Definition emptyWorld : World := mkWorld [] [] [] [].

(** Every shell command fails; writes succeed. *)
Definition resolverDown : Env :=
  mkEnv (fun _ => false) (fun _ => true) 0 0 (fun _ _ => true).

(** Every shell command and write succeeds. *)
Definition allFine : Env :=
  mkEnv (fun _ => true) (fun _ => true) 0 0 (fun _ _ => true).

(** Two healthy servers of weights 5 and 9 behind a weighted balancer. *)
Definition lowWeights : LoadBalancer :=
  web "weighted"
    [server "s1" "10.0.0.1" 5 (Some (healthRow "healthy" 12));
     server "s2" "10.0.0.2" 9 (Some (healthRow "healthy" 7))].

(** Three servers, two of them healthy, behind a health-based balancer. *)
Definition threeServers : LoadBalancer :=
  web "health-based"
    [server "s1" "10.0.0.1" 100 (Some (healthRow "healthy" 40));
     server "s2" "10.0.0.2" 100 (Some (healthRow "unhealthy" (-1)));
     server "s3" "10.0.0.3" 100 (Some (healthRow "healthy" 15))].

(** One healthy server behind a round-robin balancer. *)
Definition oneHealthy : LoadBalancer :=
  web "round-robin" [server "s1" "10.0.0.1" 100 (Some (healthRow "healthy" 12))].

(** The same balancer once its only server is reported unhealthy. *)
Definition oneDown : LoadBalancer :=
  web "round-robin" [server "s1" "10.0.0.1" 100 (Some (healthRow "unhealthy" (-1)))].

(** A network on which every ping is answered within 12 ms. *)
Definition pingAnswers (ip : string) (port : Z) : Health.ProbeEnv :=
  Health.mkEnv (Some "1 packets transmitted, 1 received, 0% packet loss") 12 0
    (Some true) 12 (Health.mkMetrics 0 0 0 0).

(** A world whose health table already reports server [s1] healthy. *)
Definition healthyWorld : World :=
  mkWorld [] [("s1", healthRow "healthy" 12)] [] [].

(** A healthy DNS server (port 53, response time 0) listed before a healthy
    web server answering in 50 ms. *)
Definition dnsFirst : list DNSServer :=
  [mkServer "s1" "ns" "10.0.0.1" 53 100 true (Some (healthRow "healthy" 0));
   mkServer "s2" "www" "10.0.0.2" 80 100 true (Some (healthRow "healthy" 50))].

(** A server of weight 0 listed before a server of weight 5. *)
Definition zeroFirst : list DNSServer :=
  [server "s1" "10.0.0.1" 0 (Some (healthRow "healthy" 12));
   server "s2" "10.0.0.2" 5 (Some (healthRow "healthy" 7))].

(** Two healthy servers of weights 100 and 50. *)
Definition twoServers (algorithm : string) : LoadBalancer :=
  web algorithm
    [server "s1" "10.0.0.1" 100 (Some (healthRow "healthy" 12));
     server "s2" "10.0.0.2" 50 (Some (healthRow "healthy" 7))].

(** A balancer whose first server is healthy but switched off. *)
Definition oneInactive : LoadBalancer :=
  web "round-robin"
    [mkServer "s1" "a" "10.0.0.1" 80 100 false (Some (healthRow "healthy" 12));
     mkServer "s2" "b" "10.0.0.2" 80 100 true (Some (healthRow "healthy" 7))].

(** A mail record of [example.com] without a priority. *)
Definition mxRecord : DNSRecord :=
  mkRecord 2 "d1" "example.com" "MX" "mail.example.com." 300 None None None false None.

(** A balancer whose algorithm is none of the three known ones. *)
Definition leastConn : LoadBalancer :=
  web "least-conn"
    [server "s1" "10.0.0.1" 100 (Some (healthRow "healthy" 12));
     server "s2" "10.0.0.2" 50 (Some (healthRow "healthy" 7))].

(** Two healthy servers whose scores are both [3139/9] in exact arithmetic. *)
Definition roundingTie : list DNSServer :=
  [mkServer "s1" "s1" "10.0.0.1" 80 100 true
     (Some (mkHealth "healthy" 40 10000 (7 # 10) 0 0));
   mkServer "s2" "s2" "10.0.0.2" 80 100 true
     (Some (mkHealth "healthy" 12 3160 0 (401 # 10) 0))].

(** The database rejects every query; commands and writes succeed. *)
Definition databaseDown : Env :=
  mkEnv (fun _ => true) (fun _ => true) 0 0 (fun _ _ => false).

(** The zone directory is read-only; commands succeed. *)
Definition readOnlyZones : Env :=
  mkEnv (fun _ => true) (fun _ => false) 0 0 (fun _ _ => true).

Definition cnameRecord (value : string) : DNSRecord :=
  mkRecord 1 "d1" "www.example.com" "CNAME" value 300 None None None false None.

End Scenario.

(** * Properties *)

(** ** Health evaluation *)

Section HealthFacts.

Import Health.
Local Open Scope string_scope.

Lemma determineOverallStatus_cases (ping port : ProbeResult) :
  determineOverallStatus ping port =
    if status ping =? "healthy" then
      if (status port =? "healthy") || (status port =? "unknown")
      then "healthy" else "degraded"
    else if status port =? "healthy" then "degraded" else "unhealthy".
Proof. reflexivity. Qed.

Lemma checkServerHealth_status (e : ProbeEnv) (port : Z) :
  hd_status (checkServerHealth e port)
  = determineOverallStatus (pingTest e) (portCheck e port (pingTest e)).
Proof. reflexivity. Qed.

(** C5: the composite status follows the ordered policy.  With "reachable"
    read as [status = 'healthy'] and "inapplicable" as [status = 'unknown']:
    ping reachable and port reachable-or-inapplicable gives [healthy]; ping
    reachable otherwise gives [degraded]; ping unreachable and port reachable
    gives [degraded]; everything else gives [unhealthy].  The status returned
    by [checkServerHealth] is that of [determineOverallStatus] on its two
    probe results, hence one of the three values. *)
Theorem determineOverallStatus_policy :
  (forall ping port : ProbeResult,
      (reachable ping /\ (reachable port \/ inapplicable port) ->
       determineOverallStatus ping port = "healthy")
      /\ (reachable ping /\ ~ (reachable port \/ inapplicable port) ->
          determineOverallStatus ping port = "degraded")
      /\ (~ reachable ping /\ reachable port ->
          determineOverallStatus ping port = "degraded")
      /\ (~ reachable ping /\ ~ reachable port ->
          determineOverallStatus ping port = "unhealthy")
      /\ (determineOverallStatus ping port = "healthy"
          \/ determineOverallStatus ping port = "degraded"
          \/ determineOverallStatus ping port = "unhealthy"))
  /\ (forall (e : ProbeEnv) (port : Z),
         hd_status (checkServerHealth e port)
         = determineOverallStatus (pingTest e) (portCheck e port (pingTest e))
         /\ (hd_status (checkServerHealth e port) = "healthy"
             \/ hd_status (checkServerHealth e port) = "degraded"
             \/ hd_status (checkServerHealth e port) = "unhealthy")).
Proof.
  assert (three : forall ping port,
             determineOverallStatus ping port = "healthy"
             \/ determineOverallStatus ping port = "degraded"
             \/ determineOverallStatus ping port = "unhealthy").
  { intros ping port. rewrite determineOverallStatus_cases.
    destruct (status ping =? "healthy");
      destruct (status port =? "healthy"); destruct (status port =? "unknown");
      simpl; auto. }
  split.
  - intros ping port. unfold reachable, inapplicable.
    rewrite determineOverallStatus_cases.
    destruct (String.eqb_spec (status ping) "healthy") as [Hp | Hp];
      destruct (String.eqb_spec (status port) "healthy") as [Hq | Hq];
      destruct (String.eqb_spec (status port) "unknown") as [Hu | Hu];
      simpl; repeat split; try reflexivity; try tauto;
      fold (determineOverallStatus ping port); auto.
  - intros e port. split; [reflexivity | ].
    rewrite checkServerHealth_status. apply three.
Qed.

Lemma pingTest_status (e : ProbeEnv) :
  status (pingTest e) = "healthy" \/ status (pingTest e) = "unhealthy".
Proof.
  unfold pingTest. destruct (ping_stdout e) as [out | ]; [ | now right].
  destruct (Js.includes out _); [now left | now right].
Qed.

(** C9: on port 53 the port probe is [dnsHealthCheck], which reports
    [healthy] with the elapsed time of two consecutive clock readings, so
    the evaluation gives [healthy] when the ping succeeds and [degraded]
    when it fails, and never [unhealthy]. *)
Theorem port53_never_unhealthy :
  forall e : ProbeEnv,
    portCheck e 53 (pingTest e) = mkProbe "healthy" (dns_elapsed e)
    /\ hd_responseTime (checkServerHealth e 53) = dns_elapsed e
    /\ (status (pingTest e) = "healthy" ->
        hd_status (checkServerHealth e 53) = "healthy")
    /\ (status (pingTest e) <> "healthy" ->
        hd_status (checkServerHealth e 53) = "degraded")
    /\ (hd_status (checkServerHealth e 53) = "healthy"
        \/ hd_status (checkServerHealth e 53) = "degraded")
    /\ hd_status (checkServerHealth e 53) <> "unhealthy".
Proof.
  intro e.
  assert (Hport : portCheck e 53 (pingTest e) = mkProbe "healthy" (dns_elapsed e))
    by reflexivity.
  assert (Hst : hd_status (checkServerHealth e 53)
                = if status (pingTest e) =? "healthy" then "healthy" else "degraded").
  { rewrite checkServerHealth_status, Hport, determineOverallStatus_cases.
    simpl. reflexivity. }
  split; [exact Hport | ].
  split; [unfold checkServerHealth; rewrite Hport; reflexivity | ].
  rewrite Hst.
  destruct (String.eqb_spec (status (pingTest e)) "healthy") as [Hp | Hp];
    repeat split; auto; try congruence; try discriminate.
Qed.

End HealthFacts.

(** ** JavaScript strings *)

Section StringFacts.

Local Open Scope string_scope.

Lemma endsWith_unfold (s suf : string) :
  Js.endsWith s suf =
    if String.eqb s suf then true
    else match s with
         | EmptyString => false
         | String _ s' => Js.endsWith s' suf
         end.
Proof. destruct s; reflexivity. Qed.

Lemma endsWith_append (a b : string) : Js.endsWith (a ++ b) b = true.
Proof.
  induction a as [ | c a IH].
  - simpl. rewrite endsWith_unfold, String.eqb_refl. reflexivity.
  - change (String c a ++ b) with (String c (a ++ b)).
    rewrite endsWith_unfold, IH.
    destruct (String.eqb (String c (a ++ b)) b); reflexivity.
Qed.

Lemma append_assoc (a b c : string) : (a ++ b) ++ c = a ++ b ++ c.
Proof. induction a as [ | x a IH]; simpl; [ | rewrite IH]; reflexivity. Qed.

End StringFacts.

(** ** Zone synthesis *)

Section ZoneFacts.

Import Model Zone.
Local Open Scope string_scope.

Lemma insertByKey_perm (x : DNSServer) (l : list DNSServer) :
  Permutation (insertByKey x l) (x :: l).
Proof.
  induction l as [ | y l IH]; simpl.
  - apply Permutation_refl.
  - destruct (sortKey x <=? sortKey y)%Z.
    + apply Permutation_refl.
    + apply perm_trans with (y :: x :: l).
      * apply perm_skip, IH.
      * apply perm_swap.
Qed.

Lemma sortByResponseTime_perm (l : list DNSServer) :
  Permutation (sortByResponseTime l) l.
Proof.
  induction l as [ | x l IH]; simpl.
  - apply perm_nil.
  - apply perm_trans with (x :: sortByResponseTime l).
    + apply insertByKey_perm.
    + apply perm_skip, IH.
Qed.

Lemma weightedCopies_low (lb : LoadBalancer) (s : DNSServer) :
  (s_weight s < 10)%Z -> weightedCopies lb s = [].
Proof.
  intro Hw. unfold weightedCopies.
  assert (Hq : (s_weight s / 10 < 1)%Z) by (apply Z.div_lt_upper_bound; lia).
  destruct (s_weight s / 10)%Z as [ | p | p ] eqn:E; try reflexivity. lia.
Qed.

Lemma weightedCopies_are_A (lb : LoadBalancer) (s : DNSServer) :
  filter isSrv (weightedCopies lb s) = [].
Proof.
  unfold weightedCopies.
  induction (Z.to_nat (s_weight s / 10)) as [ | n IH]; simpl; auto.
Qed.

Lemma algorithmLines_weighted (lb : LoadBalancer) (hs : list DNSServer) :
  lb_algorithm lb = "weighted" ->
  algorithmLines lb hs = (flat_map (weightedCopies lb) hs, hs).
Proof. intro H. unfold algorithmLines. rewrite H. reflexivity. Qed.

Lemma balancedA_no_srv (owner : string) (l : list DNSServer) :
  filter isSrv (map (fun server => LBalancedA owner (s_ip server)) l) = [].
Proof. induction l as [ | s l IH]; simpl; auto. Qed.

Lemma algorithmLines_no_srv (lb : LoadBalancer) (hs : list DNSServer) :
  filter isSrv (fst (algorithmLines lb hs)) = [].
Proof.
  unfold algorithmLines.
  destruct (lb_algorithm lb =? "round-robin"); cbn [fst].
  { apply balancedA_no_srv. }
  destruct (lb_algorithm lb =? "weighted"); cbn [fst].
  { induction hs as [ | s hs IH]; simpl; auto.
    rewrite filter_app, weightedCopies_are_A, IH. reflexivity. }
  destruct (lb_algorithm lb =? "health-based"); cbn [fst].
  - apply balancedA_no_srv.
  - reflexivity.
Qed.

Lemma algorithmLines_perm (lb : LoadBalancer) (hs : list DNSServer) :
  Permutation (snd (algorithmLines lb hs)) hs.
Proof.
  unfold algorithmLines.
  destruct (lb_algorithm lb =? "round-robin"); simpl; [apply Permutation_refl | ].
  destruct (lb_algorithm lb =? "weighted"); simpl; [apply Permutation_refl | ].
  destruct (lb_algorithm lb =? "health-based"); simpl; [ | apply Permutation_refl].
  apply sortByResponseTime_perm.
Qed.

Lemma srvMap_filters (owner : string) (w : Z) (hs : list DNSServer) :
  let srv := map (fun server => LSrv owner 0 w (s_port server) (s_ip server)) hs in
  filter isSrv srv = srv /\ filter isA srv = [].
Proof.
  induction hs as [ | s hs [IH1 IH2]]; simpl; [split; reflexivity | ].
  split; [f_equal; exact IH1 | exact IH2].
Qed.

Lemma srvLines_all_srv (lb : LoadBalancer) (dn : string) (hs : list DNSServer) :
  filter isSrv (srvLines lb dn hs) = srvLines lb dn hs
  /\ filter isA (srvLines lb dn hs) = [].
Proof.
  unfold srvLines. destruct (1 <? List.length hs)%nat; [ | split; reflexivity].
  apply srvMap_filters.
Qed.

(** What an active balancer of the domain appends to the zone. *)
Lemma balancerLines_active (domain : Domain) (lb : LoadBalancer) :
  lb_isActive lb = true -> lb_domainName lb = d_name domain ->
  balancerLines domain lb =
    match healthyOf lb with
    | [] => []
    | _ => (fst (algorithmLines lb (healthyOf lb))
            ++ srvLines lb (d_name domain) (snd (algorithmLines lb (healthyOf lb))))%list
    end.
Proof.
  intros Ha Hd. unfold balancerLines, healthyOf.
  rewrite Ha, Hd, String.eqb_refl. simpl.
  destruct (lb_servers lb) as [ | s0 ss] eqn:Es; [reflexivity | ].
  change (0 <? List.length (s0 :: ss))%nat with true. cbv iota.
  destruct (filter zoneHealthy (s0 :: ss)) as [ | h hs']; [reflexivity | ].
  destruct (algorithmLines lb (h :: hs')) as [aLines sorted]. reflexivity.
Qed.

(** No healthy server: the balancer appends nothing. *)
Lemma balancerLines_no_healthy (domain : Domain) (lb : LoadBalancer) :
  healthyOf lb = [] -> balancerLines domain lb = [].
Proof.
  unfold balancerLines, healthyOf. intro H. rewrite H.
  destruct (_ && _); reflexivity.
Qed.

Lemma srvWeight_div (n : nat) : (1 <= n)%nat -> srvWeight n = (100 / Z.of_nat n)%Z.
Proof.
  intro Hn. unfold srvWeight.
  destruct n as [ | m]; [lia | ].
  rewrite Nat2Z.inj_succ, <- Zpos_P_of_succ_nat.
  set (p := Pos.of_succ_nat m).
  assert (E : ((1 / inject_Z (Z.pos p)) * 100 == 100 # p)%Q).
  { unfold Qeq, Qdiv, Qmult, Qinv, inject_Z. simpl. lia. }
  rewrite (Qfloor_comp _ _ E). reflexivity.
Qed.

(** Double-precision check of [Math.floor((1 / n) * 100)] against
    [floor(100 / n)] for [n] from 2 to 2000. *)
Lemma srvWeightFloat_agrees :
  forallb (fun n => Z.eqb (srvWeightFloat (Pos.of_nat n)) (100 / Z.of_nat n))
          (seq 2 1999) = true.
Proof. vm_compute. reflexivity. Qed.

(** The SRV lines of a zone: those of the static records, then those of each
    balancer in turn. *)
Lemma zoneLines_srv_split (domain : Domain) (before : list LoadBalancer)
  (lb : LoadBalancer) (after : list LoadBalancer) :
  filter isSrv (zoneLines domain (before ++ lb :: after))
  = (filter isSrv (staticLines domain)
     ++ filter isSrv (flat_map (balancerLines domain) before)
     ++ filter isSrv (balancerLines domain lb)
     ++ filter isSrv (flat_map (balancerLines domain) after))%list.
Proof.
  unfold zoneLines. rewrite flat_map_app. simpl flat_map.
  rewrite !filter_app. reflexivity.
Qed.

(** C10: in the weighted branch a server of weight below 10 gets no A line
    (the A lines are those of the servers of weight 10 or more), so a
    weighted balancer whose healthy servers all have weight at most 9
    appends no A line at all. *)
Theorem weighted_low_weight_no_A :
  forall (domain : Domain) (lb : LoadBalancer),
    lb_algorithm lb = "weighted" ->
    (forall s : DNSServer, (s_weight s < 10)%Z -> weightedCopies lb s = [])
    /\ (forall hs : list DNSServer,
           fst (algorithmLines lb hs)
           = flat_map (weightedCopies lb) (filter (fun s => (10 <=? s_weight s)%Z) hs))
    /\ ((forall s : DNSServer, In s (healthyOf lb) -> (s_weight s <= 9)%Z) ->
        filter isA (balancerLines domain lb) = []).
Proof.
  intros domain lb Hw.
  assert (Hflat : forall hs,
             flat_map (weightedCopies lb) hs
             = flat_map (weightedCopies lb) (filter (fun s => (10 <=? s_weight s)%Z) hs)).
  { induction hs as [ | s hs IH]; [reflexivity | ]. simpl.
    destruct (Z.leb_spec 10 (s_weight s)) as [Hge | Hlt]; simpl.
    - rewrite IH. reflexivity.
    - rewrite (weightedCopies_low lb s Hlt). exact IH. }
  split; [intros s Hs; apply weightedCopies_low; exact Hs | ].
  split; [intro hs; rewrite (algorithmLines_weighted lb hs Hw); apply Hflat | ].
  intro Hall.
  assert (HnoA : flat_map (weightedCopies lb) (healthyOf lb) = []).
  { induction (healthyOf lb) as [ | s hs IH]; [reflexivity | ]. simpl.
    rewrite (weightedCopies_low lb s).
    - apply IH. intros s' Hs'. apply Hall. right. exact Hs'.
    - assert (s_weight s <= 9)%Z by (apply Hall; left; reflexivity). lia. }
  unfold balancerLines.
  destruct (_ && _); [ | reflexivity].
  fold (healthyOf lb).
  destruct (healthyOf lb) as [ | h hs'] eqn:Eh; [reflexivity | ].
  rewrite (algorithmLines_weighted lb (h :: hs') Hw), HnoA. simpl app.
  apply (proj2 (srvLines_all_srv _ _ _)).
Qed.

Lemma weighted_low_weight_no_A_witness :
  lb_algorithm Scenario.lowWeights = "weighted"
  /\ List.length (healthyOf Scenario.lowWeights) = 2%nat
  /\ filter isA (balancerLines (Scenario.exampleCom []) Scenario.lowWeights) = [].
Proof.
  split; [reflexivity | ]. split; [reflexivity | ].
  apply (proj2 (proj2 (weighted_low_weight_no_A (Scenario.exampleCom [])
                         Scenario.lowWeights eq_refl))).
  intros s Hs. apply Z.leb_le.
  destruct Hs as [<- | [<- | []]]; reflexivity.
Defined.

(** Round-robin over two healthy servers: one A line per server, in list
    order, then the two SRV lines. *)
Example zone_round_robin_two_servers :
  balancerLines (Scenario.exampleCom []) (Scenario.twoServers "round-robin")
  = [LBalancedA "web" "10.0.0.1"; LBalancedA "web" "10.0.0.2";
     LSrv "_web._tcp.example.com." 0 50 80 "10.0.0.1";
     LSrv "_web._tcp.example.com." 0 50 80 "10.0.0.2"].
Proof. reflexivity. Qed.

(** Weights 100 and 50: ten A lines for the first server, five for the second. *)
Example zone_weighted_100_50 :
  filter isA (balancerLines (Scenario.exampleCom []) (Scenario.twoServers "weighted"))
  = (repeat (LBalancedA "web" "10.0.0.1") 10 ++ repeat (LBalancedA "web" "10.0.0.2") 5)%list.
Proof. reflexivity. Qed.

(** Health-based: the array is sorted by response time before the SRV block. *)
Example zone_health_based_three_servers :
  balancerLines (Scenario.exampleCom []) Scenario.threeServers
  = [LBalancedA "web" "10.0.0.3"; LBalancedA "web" "10.0.0.1";
     LSrv "_web._tcp.example.com." 0 50 80 "10.0.0.3";
     LSrv "_web._tcp.example.com." 0 50 80 "10.0.0.1"].
Proof. reflexivity. Qed.

End ZoneFacts.

(** ** The scheduler *)

Section SchedulerFacts.

Import Scheduler.

Lemma startHealthChecks_running (st : State) :
  isRunning st = true -> startHealthChecks st = st.
Proof.
  intro H. unfold startHealthChecks, startEnter. rewrite H. reflexivity.
Qed.

Lemma startHealthChecks_stopped (st : State) :
  isRunning st = false ->
  startHealthChecks st
  = mkState true (Some (nextTimer st)) (nextTimer st :: timers st)
      (S (nextTimer st)) (S (cycles st)).
Proof.
  intro H. unfold startHealthChecks, startEnter. rewrite H. reflexivity.
Qed.

(** C8: [startHealthChecks] on a running scheduler returns at once and
    leaves the state, timers included, as it was; started twice from a
    stopped scheduler without timers (one call after the other, or the second
    call arriving while the first awaits its first cycle) there is exactly
    one interval timer; [stopHealthChecks] before any start leaves the
    scheduler stopped, with no timer handle and no timer. *)
Theorem scheduler_idempotent_boundaries :
  (forall st : State, isRunning st = true -> startHealthChecks st = st)
  /\ (forall st : State,
         isRunning st = false -> timers st = [] ->
         timers (startHealthChecks (startHealthChecks st)) = [nextTimer st]
         /\ healthCheckInterval (startHealthChecks (startHealthChecks st))
            = Some (nextTimer st)
         /\ isRunning (startHealthChecks (startHealthChecks st)) = true)
  /\ (forall st : State,
         isRunning st = false -> timers st = [] ->
         startEnter (snd (startEnter st)) = (false, snd (startEnter st))
         /\ timers (startResume (snd (startEnter (snd (startEnter st)))))
            = [nextTimer st])
  /\ timers (startHealthChecks (startHealthChecks initial)) = [0%nat]
  /\ stopHealthChecks initial = initial
  /\ (forall st : State,
         healthCheckInterval st = None -> timers st = [] ->
         isRunning (stopHealthChecks st) = false
         /\ healthCheckInterval (stopHealthChecks st) = None
         /\ timers (stopHealthChecks st) = []).
Proof.
  split; [exact startHealthChecks_running | ].
  split.
  { intros st Hr Ht.
    rewrite (startHealthChecks_stopped st Hr).
    rewrite startHealthChecks_running by reflexivity.
    simpl. rewrite Ht. repeat split. }
  split.
  { intros st Hr Ht. unfold startEnter. rewrite Hr. simpl. rewrite Ht.
    split; reflexivity. }
  split; [reflexivity | ].
  split; [reflexivity | ].
  intros st Hn Ht. unfold stopHealthChecks. rewrite Hn. simpl.
  repeat split. exact Ht.
Qed.

End SchedulerFacts.

(** ** Reloading the resolver *)

Section ReloadFacts.

Import Model Eff.
Local Open Scope string_scope.




(** The service: whatever the reload does, the call resolves and [rndc reload]
    is the only command issued. *)
Lemma service_reloadBind9_swallows (e : Env) (w : World) :
  Service.reloadBind9 e w
  = (Resolved tt,
     mkWorld (records w) (healthRows w) (files w) (commands w ++ ["rndc reload"])).
Proof.
  unfold Service.reloadBind9, tryCatch, execAsync, ret.
  destruct (exec_ok e "rndc reload"); reflexivity.
Qed.

(** C4 (evaluation at the failing input): with a resolver on which every
    command fails, the reload of the synchronisation module tries the restart
    and rejects, whereas the reload of the health-check service issues
    [rndc reload] only and resolves, and so do [updateDNSRecords] and the
    scheduler's cycle [performHealthChecks] built on it. *)
Theorem reload_failure_paths :
  Sync.reloadBind9 Scenario.resolverDown Scenario.emptyWorld
  = (Rejected "Command failed: sudo service named restart",
     mkWorld [] [] [] ["/usr/sbin/rndc reload"; "sudo service named restart"])
  /\ fst (Sync.syncBind9 Scenario.resolverDown [("d1", "example.com")]
            [Scenario.oneHealthy] Scenario.emptyWorld)
     = Rejected "Command failed: sudo service named restart"
  /\ Service.reloadBind9 Scenario.resolverDown Scenario.emptyWorld
     = (Resolved tt, mkWorld [] [] [] ["rndc reload"])
  /\ fst (Service.updateDNSRecords Scenario.resolverDown Scenario.oneHealthy
            Scenario.emptyWorld) = Resolved tt
  /\ commands (snd (Service.updateDNSRecords Scenario.resolverDown Scenario.oneHealthy
                      Scenario.emptyWorld)) = ["rndc reload"]
  /\ fst (Scheduler.performHealthChecks Scenario.resolverDown Scenario.pingAnswers
            [Scenario.oneHealthy] Scenario.healthyWorld) = Resolved tt
  /\ commands (snd (Scheduler.performHealthChecks Scenario.resolverDown
                      Scenario.pingAnswers [Scenario.oneHealthy] Scenario.healthyWorld))
     = ["rndc reload"].
Proof. vm_compute. repeat split. Qed.

End ReloadFacts.

(** ** Server selection *)

Section SelectionFacts.

Import Model Eff Service.
Local Open Scope Q_scope.

Lemma pos_compare_cont_eq (x y : positive) :
  PosDef.Pos.compare_cont Eq x y = Pos.compare x y.
Proof. reflexivity. Qed.

Ltac order_cases :=
  repeat match goal with
         | H : context [PosDef.Pos.compare_cont Eq ?x ?y] |- _ =>
             rewrite (pos_compare_cont_eq x y) in H
         | |- context [PosDef.Pos.compare_cont Eq ?x ?y] =>
             rewrite (pos_compare_cont_eq x y)
         end;
  repeat match goal with
         | H : context [(?x ?= ?y)%Z] |- _ =>
             destruct (Z.compare_spec x y); cbn in H; try discriminate H
         | H : context [(?x ?= ?y)%positive] |- _ =>
             destruct (Pos.compare_spec x y); cbn in H; try discriminate H
         end;
  repeat match goal with
         | |- context [(?x ?= ?y)%Z] => destruct (Z.compare_spec x y); cbn
         | |- context [(?x ?= ?y)%positive] => destruct (Pos.compare_spec x y); cbn
         end;
  try reflexivity; try discriminate; try lia.

(** The comparison of IEEE values is a strict order, total away from NaN. *)
Lemma SFltb_trans (a b c : spec_float) :
  SFltb a b = true -> SFltb b c = true -> SFltb a c = true.
Proof.
  unfold SFltb.
  destruct a as [sa | sa | | sa ma ea], b as [sb | sb | | sb mb eb],
    c as [sc | sc | | sc mc ec]; cbn; intros H1 H2;
    try discriminate; try reflexivity;
    try destruct sa; try destruct sb; try destruct sc; cbn in *;
    try discriminate; try reflexivity; order_cases.
Qed.

Lemma SFleb_ltb_trans (a b c : spec_float) :
  SFleb a b = true -> SFltb b c = true -> SFltb a c = true.
Proof.
  unfold SFleb, SFltb.
  destruct a as [sa | sa | | sa ma ea], b as [sb | sb | | sb mb eb],
    c as [sc | sc | | sc mc ec]; cbn; intros H1 H2;
    try discriminate; try reflexivity;
    try destruct sa; try destruct sb; try destruct sc; cbn in *;
    try discriminate; try reflexivity; order_cases.
Qed.

Lemma SFltb_false_leb (a b : spec_float) :
  a <> S754_nan -> b <> S754_nan -> SFltb a b = false -> SFleb b a = true.
Proof.
  unfold SFltb, SFleb.
  destruct a as [sa | sa | | sa ma ea], b as [sb | sb | | sb mb eb];
    cbn; intros Ha Hb H1; try congruence;
    try destruct sa; try destruct sb; cbn in *;
    try discriminate; try reflexivity; order_cases.
Qed.

Lemma is_nan_false (x : float) : is_nan x = false -> Prim2SF x <> S754_nan.
Proof.
  unfold is_nan. rewrite eqb_spec. intros H E. rewrite E in H. discriminate H.
Qed.

Lemma ltb_trans (a b c : float) :
  (a <? b)%float = true -> (b <? c)%float = true -> (a <? c)%float = true.
Proof. rewrite !ltb_spec. apply SFltb_trans. Qed.

Lemma leb_ltb_trans (a b c : float) :
  (a <=? b)%float = true -> (b <? c)%float = true -> (a <? c)%float = true.
Proof. rewrite leb_spec, !ltb_spec. apply SFleb_ltb_trans. Qed.

Lemma ltb_false_leb (a b : float) :
  is_nan a = false -> is_nan b = false ->
  (a <? b)%float = false -> (b <=? a)%float = true.
Proof.
  intros Ha Hb. rewrite ltb_spec, leb_spec.
  apply SFltb_false_leb; apply is_nan_false; assumption.
Qed.

(** Adding to the initial [0] changes nothing, except that [-0] becomes [+0]. *)
Lemma add_zero_l (y : float) :
  Prim2SF y <> S754_zero true -> (0 + y)%float = y.
Proof.
  intro Hy. apply Prim2SF_inj. rewrite add_spec.
  change (Prim2SF 0) with (S754_zero false).
  unfold SF64add, SFadd. destruct (Prim2SF y) as [[ | ] | | | ]; congruence.
Qed.

Lemma add_zero_zero_l (x y : float) :
  Prim2SF y <> S754_zero true -> (0 + x + y)%float = (x + y)%float.
Proof.
  intro Hy. apply Prim2SF_inj. rewrite !add_spec.
  change (Prim2SF 0) with (S754_zero false).
  unfold SF64add.
  destruct (Prim2SF x) as [[ | ] | [ | ] | | sx mx ex];
    destruct (Prim2SF y) as [[ | ] | [ | ] | | sy my ey];
    try reflexivity; congruence.
Qed.

(** [Math.max(0, x)] is never [-0]. *)
Lemma max_zero_not_negative_zero (x : float) :
  Prim2SF (Double.max 0 x) <> S754_zero true.
Proof.
  unfold Double.max.
  change (is_nan 0) with false. cbn [orb].
  destruct (is_nan x); [vm_compute; discriminate | ].
  destruct (0 <? x)%float eqn:E.
  - rewrite ltb_spec in E. change (Prim2SF 0) with (S754_zero false) in E.
    intro Hx. rewrite Hx in E. discriminate E.
  - destruct (x <? 0)%float; [vm_compute; discriminate | ].
    change (get_sign 0) with false. vm_compute. discriminate.
Qed.

(** The accumulator of the [reduce] is the first maximum of what it has seen. *)
Lemma fold_betterOf_first_max (rest : list DNSServer) :
  forall (before : list DNSServer) (acc : DNSServer) (after : list DNSServer),
    is_nan (Double.calculateHealthScore acc) = false ->
    (forall s, In s rest -> is_nan (Double.calculateHealthScore s) = false) ->
    (forall s, In s before ->
       (Double.calculateHealthScore s <? Double.calculateHealthScore acc)%float = true) ->
    (forall s, In s after ->
       (Double.calculateHealthScore s <=? Double.calculateHealthScore acc)%float = true) ->
    exists before' after',
      (before ++ acc :: after ++ rest = before' ++ fold_left betterOf rest acc :: after')%list
      /\ (forall s, In s before' ->
            (Double.calculateHealthScore s
             <? Double.calculateHealthScore (fold_left betterOf rest acc))%float = true)
      /\ (forall s, In s after' ->
            (Double.calculateHealthScore s
             <=? Double.calculateHealthScore (fold_left betterOf rest acc))%float = true).
Proof.
  induction rest as [ | x rest IH]; intros before acc after Hacc Hrest Hb Ha.
  - exists before, after. rewrite app_nil_r. simpl. repeat split; assumption.
  - simpl fold_left.
    assert (Hx : is_nan (Double.calculateHealthScore x) = false)
      by (apply Hrest; left; reflexivity).
    assert (Hrest' : forall s, In s rest -> is_nan (Double.calculateHealthScore s) = false)
      by (intros s Hs; apply Hrest; right; exact Hs).
    destruct (Double.gtb (Double.calculateHealthScore x) (Double.calculateHealthScore acc))
      eqn:E.
    + assert (Hstep : betterOf acc x = x) by (unfold betterOf; rewrite E; reflexivity).
      rewrite Hstep. unfold Double.gtb in E.
      destruct (IH (before ++ acc :: after)%list x [] Hx Hrest')
        as (b' & a' & Heq & Hb' & Ha').
      * intros s Hs. apply in_app_or in Hs. destruct Hs as [Hs | [<- | Hs]].
        -- apply ltb_trans with (Double.calculateHealthScore acc); auto.
        -- exact E.
        -- apply leb_ltb_trans with (Double.calculateHealthScore acc); auto.
      * intros s [].
      * exists b', a'. split; [ | split; assumption].
        rewrite <- Heq. rewrite <- !app_assoc. reflexivity.
    + assert (Hstep : betterOf acc x = acc) by (unfold betterOf; rewrite E; reflexivity).
      rewrite Hstep. unfold Double.gtb in E.
      destruct (IH before acc (after ++ [x])%list Hacc Hrest')
        as (b' & a' & Heq & Hb' & Ha').
      * exact Hb.
      * intros s Hs. apply in_app_or in Hs. destruct Hs as [Hs | [<- | []]]; auto.
        apply ltb_false_leb; assumption.
      * exists b', a'. split; [ | split; assumption].
        rewrite <- Heq. rewrite <- !app_assoc. reflexivity.
Qed.

Lemma calculateHealthScore_measured (s : DNSServer) (h : ServerHealth) :
  s_health s = Some h -> (0 < h_responseTime h)%Z ->
  Double.calculateHealthScore s = Double.specHealthScore h.
Proof.
  intros Hh Hrt. unfold Double.calculateHealthScore, Double.specHealthScore. rewrite Hh.
  apply Z.gtb_lt in Hrt. rewrite Hrt. cbv zeta.
  rewrite (add_zero_l _ (max_zero_not_negative_zero _)). reflexivity.
Qed.

Lemma calculateHealthScore_unmeasured (s : DNSServer) (h : ServerHealth) :
  s_health s = Some h -> (h_responseTime h < 0)%Z ->
  Double.calculateHealthScore s
  = (Double.min 100 (Double.ofQ (h_uptime h) / 3600)
     + Double.max 0 (100 - Double.ofQ (h_load h) * 20)
     + Double.max 0 (100 - Double.ofQ (h_memoryUsage h))
     + Double.max 0 (100 - Double.ofQ (h_diskUsage h)))%float.
Proof.
  intros Hh Hrt. unfold Double.calculateHealthScore. rewrite Hh.
  destruct (Z.gtb_spec (h_responseTime h) 0) as [Hgt | Hle]; [lia | ]. cbv zeta.
  rewrite (add_zero_zero_l _ _ (max_zero_not_negative_zero _)). reflexivity.
Qed.

(** C2 (as amended): when no score is NaN, health-based selection advertises
    exactly one server of a non-empty list, the first one to reach the
    maximum of the score computed in double precision; for a server with a
    health row that score is the composite formula when the response time is
    positive, and the formula without its response-time term when the
    response time is negative (the [-1] of a probe that was not measured). *)
Theorem health_based_selects_first_max :
  forall (e : Env) (loadBalancer : LoadBalancer) (first : DNSServer)
         (rest : list DNSServer),
    (forall s, In s (first :: rest) -> is_nan (Double.calculateHealthScore s) = false) ->
    (exists before best after,
        first :: rest = (before ++ best :: after)%list
        /\ bestServer (first :: rest) = Some best
        /\ updateHealthBasedDNS e loadBalancer (first :: rest)
           = createOrUpdateDNSRecord e loadBalancer best
        /\ (forall s, In s before ->
              (Double.calculateHealthScore s <? Double.calculateHealthScore best)%float
              = true)
        /\ (forall s, In s after ->
              (Double.calculateHealthScore s <=? Double.calculateHealthScore best)%float
              = true))
    /\ (forall s h, s_health s = Some h ->
          ((0 < h_responseTime h)%Z ->
           Double.calculateHealthScore s
           = (Double.max 0 (100 - Double.ofZ (h_responseTime h))
              + Double.min 100 (Double.ofQ (h_uptime h) / 3600)
              + Double.max 0 (100 - Double.ofQ (h_load h) * 20)
              + Double.max 0 (100 - Double.ofQ (h_memoryUsage h))
              + Double.max 0 (100 - Double.ofQ (h_diskUsage h)))%float)
          /\ ((h_responseTime h < 0)%Z ->
              Double.calculateHealthScore s
              = (Double.min 100 (Double.ofQ (h_uptime h) / 3600)
                 + Double.max 0 (100 - Double.ofQ (h_load h) * 20)
                 + Double.max 0 (100 - Double.ofQ (h_memoryUsage h))
                 + Double.max 0 (100 - Double.ofQ (h_diskUsage h)))%float)).
Proof.
  intros e loadBalancer first rest Hnan. split.
  - destruct (fold_betterOf_first_max rest [] first [])
      as (before & after & Heq & Hb & Ha); try (intros s []).
    + apply Hnan. left. reflexivity.
    + intros s Hs. apply Hnan. right. exact Hs.
    + exists before, (fold_left betterOf rest first), after.
      repeat split; auto.
  - intros s h Hh. split.
    + apply calculateHealthScore_measured; exact Hh.
    + apply calculateHealthScore_unmeasured; exact Hh.
Qed.

Lemma health_based_selects_first_max_witness :
  (forall s, In s Scenario.roundingTie ->
     is_nan (Double.calculateHealthScore s) = false)
  /\ map Double.calculateHealthScore Scenario.roundingTie
     = [0x1.5cc71c71c71c7p+8%float; 0x1.5cc71c71c71c8p+8%float]
  /\ exists best : DNSServer,
      bestServer Scenario.roundingTie = Some best
      /\ s_ip best = "10.0.0.2"%string.
Proof.
  assert (Hnan : forall s, In s Scenario.roundingTie ->
                   is_nan (Double.calculateHealthScore s) = false).
  { intros s [<- | [<- | []]]; vm_compute; reflexivity. }
  split; [exact Hnan | ]. split; [vm_compute; reflexivity | ].
  destruct (proj1 (health_based_selects_first_max Scenario.allFine Scenario.oneHealthy
                     _ _ Hnan))
    as (before & best & after & _ & Hbest & _).
  exists best. split; [exact Hbest | ].
  vm_compute in Hbest. injection Hbest as <-. reflexivity.
Defined.

(** In exact arithmetic the two servers of [Scenario.roundingTie] tie at
    [3139/9] and the first would be kept; in double precision their scores
    are [348.77777777777777] and [348.77777777777783], and the second is
    advertised. *)
Example rounding_breaks_exact_tie :
  Forall (fun s => calculateHealthScore s == 3139 # 9) Scenario.roundingTie
  /\ map Double.calculateHealthScore Scenario.roundingTie
     = [0x1.5cc71c71c71c7p+8%float; 0x1.5cc71c71c71c8p+8%float]
  /\ option_map s_ip (bestServer Scenario.roundingTie) = Some "10.0.0.2"%string.
Proof.
  split; [repeat constructor | ]. split; vm_compute; reflexivity.
Qed.

(** C2 (counterexample): for a healthy server with response time 0 the
    computed score is 300 where the formula gives 400, and with response time
    -1 it is 300 where the formula gives 401; with a DNS server answering in
    0 ms listed before a web server answering in 50 ms, the second is selected
    although the formula ranks the first higher. *)
Lemma health_score_drops_response_term :
  Double.calculateHealthScore (Scenario.server "s" "10.0.0.1" 100
                                 (Some (Scenario.healthRow "healthy" 0)))
  = 300%float
  /\ Double.specHealthScore (Scenario.healthRow "healthy" 0) = 400%float
  /\ Double.calculateHealthScore (Scenario.server "s" "10.0.0.1" 100
                                    (Some (Scenario.healthRow "healthy" (-1))))
     = 300%float
  /\ Double.specHealthScore (Scenario.healthRow "healthy" (-1)) = 401%float
  /\ option_map s_id (bestServer Scenario.dnsFirst) = Some "s2"%string
  /\ (Double.specHealthScore (Scenario.healthRow "healthy" 50)
      <? Double.specHealthScore (Scenario.healthRow "healthy" 0))%float = true.
Proof. vm_compute. repeat split. Qed.

Lemma totalWeight_from (hs : list DNSServer) (z : Z) :
  fold_left (fun sum s => (sum + s_weight s)%Z) hs z = (z + totalWeight hs)%Z.
Proof.
  unfold totalWeight. revert z.
  induction hs as [ | s hs IH]; intro z; simpl.
  - lia.
  - rewrite (IH (z + s_weight s)%Z), (IH (s_weight s)). lia.
Qed.

Lemma totalWeight_cons (s : DNSServer) (hs : list DNSServer) :
  totalWeight (s :: hs) = (s_weight s + totalWeight hs)%Z.
Proof. unfold totalWeight at 1. simpl. apply totalWeight_from. Qed.

(** When the walk ends without picking a server, the draw exceeded the total. *)
Lemma weightedWalk_none (hs : list DNSServer) :
  forall random : Q,
    0 <= random -> weightedWalk random hs = None ->
    inject_Z (totalWeight hs) <= random.
Proof.
  induction hs as [ | s hs IH]; intros random Hge Hw.
  - exact Hge.
  - simpl in Hw.
    destruct (Qle_bool (random - inject_Z (s_weight s)) 0) eqn:E; [discriminate | ].
    assert (Hpos : 0 <= random - inject_Z (s_weight s)).
    { apply Qlt_le_weak, Qnot_le_lt. intro Hle. apply Qle_bool_iff in Hle.
      rewrite Hle in E. discriminate. }
    apply (IH _ Hpos) in Hw. rewrite totalWeight_cons, inject_Z_plus. lra.
Qed.

(** With a positive remainder, the server picked has a positive weight. *)
Lemma weightedWalk_positive (hs : list DNSServer) :
  forall (random : Q) (s : DNSServer),
    0 < random -> weightedWalk random hs = Some s ->
    In s hs /\ (0 < s_weight s)%Z.
Proof.
  induction hs as [ | x hs IH]; intros random s Hpos Hw; simpl in Hw.
  - discriminate.
  - destruct (Qle_bool (random - inject_Z (s_weight x)) 0) eqn:E.
    + injection Hw as <-. apply Qle_bool_iff in E.
      split; [left; reflexivity | ].
      assert (H : 0 < inject_Z (s_weight x)) by lra.
      rewrite Zlt_Qlt. exact H.
    + assert (Hpos' : 0 < random - inject_Z (s_weight x)).
      { apply Qnot_le_lt. intro Hle. apply Qle_bool_iff in Hle.
        rewrite Hle in E. discriminate. }
      destruct (IH _ _ Hpos' Hw) as [Hin Hwt]. split; [right; exact Hin | exact Hwt].
Qed.

Lemma weightedWalk_in (hs : list DNSServer) :
  forall (random : Q) (s : DNSServer), weightedWalk random hs = Some s -> In s hs.
Proof.
  induction hs as [ | x hs IH]; intros random s Hw; simpl in Hw.
  - discriminate.
  - destruct (Qle_bool (random - inject_Z (s_weight x)) 0).
    + injection Hw as <-. left; reflexivity.
    + right. exact (IH _ _ Hw).
Qed.

(** C3 (as amended): for every draw in [[0, totalWeight)] the walk advertises
    one server of the healthy list, and that server's weight is strictly
    positive whenever the draw is strictly positive or the first server's
    weight is not 0; with a draw of exactly 0 and a first server of weight 0
    it is that first server which is advertised. *)
Theorem weighted_walk_positive_weight :
  forall (healthyServers : list DNSServer) (draw : Q),
    0 <= draw ->
    draw < inject_Z (totalWeight healthyServers) ->
    exists server : DNSServer,
      weightedWalk draw healthyServers = Some server
      /\ In server healthyServers
      /\ (0 < draw
          \/ (exists first rest,
                 healthyServers = first :: rest /\ s_weight first <> 0%Z) ->
          (0 < s_weight server)%Z)
      /\ (draw == 0 ->
          forall first rest,
            healthyServers = first :: rest -> s_weight first = 0%Z ->
            server = first).
Proof.
  intros hs draw Hge Hlt.
  destruct (weightedWalk draw hs) as [s | ] eqn:Hw.
  2: { apply (weightedWalk_none hs draw Hge) in Hw. lra. }
  exists s. split; [reflexivity | ].
  split; [exact (weightedWalk_in hs draw s Hw) | ].
  split.
  - intros [Hpos | (first & rest & -> & Hne)].
    + exact (proj2 (weightedWalk_positive hs draw s Hpos Hw)).
    + simpl in Hw.
      destruct (Qle_bool (draw - inject_Z (s_weight first)) 0) eqn:E.
      * injection Hw as <-. apply Qle_bool_iff in E.
        assert (H : 0 <= inject_Z (s_weight first)) by lra.
        rewrite <- (Zle_Qle 0) in H. lia.
      * assert (Hpos' : 0 < draw - inject_Z (s_weight first)).
        { apply Qnot_le_lt. intro Hle. apply Qle_bool_iff in Hle.
          rewrite Hle in E. discriminate. }
        exact (proj2 (weightedWalk_positive rest _ s Hpos' Hw)).
  - intros H0 first rest -> Hzero. simpl in Hw. rewrite Hzero in Hw.
    assert (E : Qle_bool (draw - inject_Z 0) 0 = true).
    { apply Qle_bool_iff. change (inject_Z 0) with 0. lra. }
    rewrite E in Hw. injection Hw as <-. reflexivity.
Qed.

Lemma weighted_walk_positive_weight_witness :
  0 <= 0
  /\ 0 < inject_Z (totalWeight (lb_servers (Scenario.twoServers "weighted")))
  /\ exists server : DNSServer,
      weightedWalk 0 (lb_servers (Scenario.twoServers "weighted")) = Some server
      /\ (0 < s_weight server)%Z.
Proof.
  assert (H0 : 0 <= 0) by (vm_compute; discriminate).
  assert (H1 : 0 < inject_Z (totalWeight (lb_servers (Scenario.twoServers "weighted"))))
    by reflexivity.
  split; [exact H0 | ]. split; [exact H1 | ].
  destruct (weighted_walk_positive_weight
              (lb_servers (Scenario.twoServers "weighted")) 0 H0 H1)
    as (server & Hw & _ & Hpos & _).
  exists server. split; [exact Hw | ].
  apply Hpos. right. eexists. eexists. split; [reflexivity | discriminate].
Defined.

(** C3 (counterexample): with a server of weight 0 listed before a server of
    weight 5, the draw 0 lies in [[0, totalWeight)] and the walk advertises
    the server of weight 0; so does [updateWeightedDNS] when [Math.random]
    returns 0. *)
Lemma weighted_walk_zero_draw_selects_zero_weight :
  0 <= 0
  /\ 0 < inject_Z (totalWeight Scenario.zeroFirst)
  /\ option_map s_weight (weightedWalk 0 Scenario.zeroFirst) = Some 0%Z
  /\ option_map s_ip (weightedWalk 0 Scenario.zeroFirst) = Some "10.0.0.1"%string
  /\ map r_value
       (records (snd (updateWeightedDNS Scenario.allFine
                        (Scenario.web "weighted" Scenario.zeroFirst)
                        Scenario.zeroFirst Scenario.emptyWorld)))
     = ["10.0.0.1"%string].
Proof.
  split; [vm_compute; discriminate | ].
  split; [reflexivity | ].
  vm_compute. repeat split.
Qed.

End SelectionFacts.

(** ** Withdrawal of a balancer without healthy servers *)

Section WithdrawalFacts.

Import Model Eff Zone.
Local Open Scope string_scope.

(** The record written by a selection pass is an ordinary row: it is not
    flagged [isLoadBalanced]. *)
Lemma createA_not_flagged (rs : list DNSRecord) (domainId name value : string) (ttl : Z) :
  exists r, Service.createA rs domainId name value ttl = (rs ++ [r])%list
            /\ r_isLoadBalanced r = false /\ r_type r = "A"
            /\ r_name r = name /\ r_value r = value.
Proof. eexists. unfold Service.createA. repeat split. Qed.

(** Without a healthy server [updateDNSRecords] returns before touching the
    database or the resolver. *)
Lemma updateDNSRecords_no_healthy (e : Env) (lb : LoadBalancer) (w : World) :
  Service.healthyServersOf lb = [] ->
  Service.updateDNSRecords e lb w = (Resolved tt, w).
Proof.
  intro H. unfold Service.updateDNSRecords, tryCatch. rewrite H. reflexivity.
Qed.

(** C1 (evaluation at the failing input): a selection pass for balancer
    [web] of [example.com] with its server 10.0.0.1 healthy stores the A
    record [web.example.com -> 10.0.0.1], not flagged as load balanced; once
    the server is unhealthy the next pass leaves that row in place, the
    balancer itself appends nothing to the zone, and the zone still carries
    the line [web IN A 10.0.0.1], emitted from the stored row as a static
    record. *)
Theorem stale_balancer_record_emitted :
  records (snd (Service.updateDNSRecords Scenario.allFine Scenario.oneHealthy
                  Scenario.emptyWorld))
  = [mkRecord 1 "d1" "web.example.com" "A" "10.0.0.1" 60 None None None false None]
  /\ records (snd (Service.updateDNSRecords Scenario.allFine Scenario.oneDown
                     (snd (Service.updateDNSRecords Scenario.allFine Scenario.oneHealthy
                             Scenario.emptyWorld))))
     = [mkRecord 1 "d1" "web.example.com" "A" "10.0.0.1" 60 None None None false None]
  /\ healthyOf Scenario.oneDown = []
  /\ balancerLines
       (Scenario.exampleCom
          [mkRecord 1 "d1" "web.example.com" "A" "10.0.0.1" 60 None None None false None])
       Scenario.oneDown = []
  /\ zoneLines
       (Scenario.exampleCom
          [mkRecord 1 "d1" "web.example.com" "A" "10.0.0.1" 60 None None None false None])
       [Scenario.oneDown]
     = [LGeneric "web" "A" None None None "10.0.0.1"]
  /\ zoneContent
       (Scenario.exampleCom
          [mkRecord 1 "d1" "web.example.com" "A" "10.0.0.1" 60 None None None false None])
       [Scenario.oneDown]
     = preamble "example.com" ++ "web       IN      A     10.0.0.1" ++ nl.
Proof. vm_compute. repeat split. Qed.

End WithdrawalFacts.

(** * Further properties of the modelled code *)

(** ** Health evaluation: ports and response times *)

Section ProbeFacts.

Import Health.
Local Open Scope string_scope.

Lemma pingTest_cases (e : ProbeEnv) :
  (status (pingTest e) = "healthy" /\ responseTime (pingTest e) = ping_elapsed e)
  \/ (status (pingTest e) = "unhealthy" /\ responseTime (pingTest e) = (-1)%Z).
Proof.
  unfold pingTest. destruct (ping_stdout e) as [out | ]; [ | right; split; reflexivity].
  destruct (Js.includes out _); [left | right]; split; reflexivity.
Qed.

Lemma httpHealthCheck_cases (e : ProbeEnv) :
  (status (httpHealthCheck e) = "healthy"
   /\ responseTime (httpHealthCheck e) = http_elapsed e)
  \/ (status (httpHealthCheck e) = "unhealthy"
      /\ responseTime (httpHealthCheck e) = (-1)%Z).
Proof.
  unfold httpHealthCheck. destruct (fetch_ok e) as [[ | ] | ];
    [left | right | right]; split; reflexivity.
Qed.

(** X1: On a port other than 53, 80 and 443 the port result is the ping result
    itself: the status returned is the ping's, with the ping's response time,
    and it is never [degraded]. *)
Theorem other_port_follows_ping :
  forall (e : ProbeEnv) (port : Z),
    port <> 53%Z -> port <> 80%Z -> port <> 443%Z ->
    hd_status (checkServerHealth e port) = status (pingTest e)
    /\ hd_responseTime (checkServerHealth e port) = responseTime (pingTest e)
    /\ (hd_status (checkServerHealth e port) = "healthy"
        \/ hd_status (checkServerHealth e port) = "unhealthy")
    /\ hd_status (checkServerHealth e port) <> "degraded".
Proof.
  intros e port H53 H80 H443.
  assert (Hport : portCheck e port (pingTest e) = pingTest e).
  { unfold portCheck.
    destruct (Z.eqb_spec port 53); [contradiction | ].
    destruct (Z.eqb_spec port 80); [contradiction | ].
    destruct (Z.eqb_spec port 443); [contradiction | ]. reflexivity. }
  unfold checkServerHealth. rewrite Hport. cbn [hd_status hd_responseTime].
  unfold determineOverallStatus.
  destruct (pingTest_cases e) as [[Hs _] | [Hs _]]; rewrite Hs; simpl;
    repeat split; auto; discriminate.
Qed.

Lemma other_port_follows_ping_witness :
  8080%Z <> 53%Z /\ 8080%Z <> 80%Z /\ 8080%Z <> 443%Z
  /\ hd_status (checkServerHealth (Scenario.pingAnswers "10.0.0.1" 8080) 8080) = "healthy"
  /\ hd_responseTime (checkServerHealth (Scenario.pingAnswers "10.0.0.1" 8080) 8080) = 12%Z.
Proof.
  assert (H53 : 8080%Z <> 53%Z) by discriminate.
  assert (H80 : 8080%Z <> 80%Z) by discriminate.
  assert (H443 : 8080%Z <> 443%Z) by discriminate.
  repeat (split; [assumption | ]).
  destruct (other_port_follows_ping (Scenario.pingAnswers "10.0.0.1" 8080) 8080
              H53 H80 H443) as (Hs & Hr & _).
  split; [rewrite Hs | rewrite Hr]; reflexivity.
Defined.

(** X2: When the three measured durations are non-negative, the response time
    returned by [checkServerHealth] is at least -1; it is a measured duration
    whenever the status is [healthy] and exactly -1 whenever the status is
    [unhealthy]. *)
Theorem response_time_matches_status :
  forall (e : ProbeEnv) (port : Z),
    (0 <= ping_elapsed e)%Z -> (0 <= dns_elapsed e)%Z -> (0 <= http_elapsed e)%Z ->
    (-1 <= hd_responseTime (checkServerHealth e port))%Z
    /\ (hd_status (checkServerHealth e port) = "healthy" ->
        (0 <= hd_responseTime (checkServerHealth e port))%Z)
    /\ (hd_status (checkServerHealth e port) = "unhealthy" ->
        hd_responseTime (checkServerHealth e port) = (-1)%Z).
Proof.
  intros e port Hp Hd Hh.
  unfold checkServerHealth, portCheck, determineOverallStatus.
  cbn [hd_status hd_responseTime].
  destruct (port =? 53)%Z.
  { unfold dnsHealthCheck. cbn [status responseTime].
    destruct (pingTest_cases e) as [[Hs _] | [Hs _]]; rewrite Hs; simpl;
      repeat split; try lia; discriminate. }
  destruct ((port =? 80)%Z || (port =? 443)%Z).
  { destruct (pingTest_cases e) as [[Hs _] | [Hs _]];
      destruct (httpHealthCheck_cases e) as [[Hs' Hr'] | [Hs' Hr']];
      rewrite Hs, Hs', Hr'; simpl; repeat split; try lia; discriminate. }
  destruct (pingTest_cases e) as [[Hs Hr] | [Hs Hr]]; rewrite Hs, Hr; simpl;
    repeat split; try lia; discriminate.
Qed.

Lemma response_time_matches_status_witness :
  (0 <= 12)%Z /\ (0 <= 0)%Z
  /\ (-1 <= hd_responseTime (checkServerHealth (Scenario.pingAnswers "10.0.0.1" 80) 80))%Z.
Proof.
  assert (H12 : (0 <= 12)%Z) by discriminate.
  assert (H0 : (0 <= 0)%Z) by discriminate.
  split; [exact H12 | ]. split; [exact H0 | ].
  exact (proj1 (response_time_matches_status (Scenario.pingAnswers "10.0.0.1" 80) 80
                  H12 H0 H12)).
Defined.

End ProbeFacts.

(** ** The A record written by a selection pass *)

Section RecordFacts.

Import Model Eff Service.
Local Open Scope string_scope.

Lemma find_map_same_test {A : Type} (test : A -> bool) (f : A -> A) (l : list A) :
  (forall a, test (f a) = test a) ->
  find test (map f l) = option_map f (find test l).
Proof.
  intro H. induction l as [ | a l IH]; simpl; [reflexivity | ].
  rewrite H. destruct (test a); [reflexivity | exact IH].
Qed.

Lemma find_app_none {A : Type} (test : A -> bool) (l1 l2 : list A) :
  find test l1 = None -> find test (l1 ++ l2) = find test l2.
Proof.
  induction l1 as [ | a l1 IH]; simpl; [reflexivity | ].
  destruct (test a); [discriminate | exact IH].
Qed.

Lemma freshId_above (rs : list DNSRecord) (r : DNSRecord) :
  In r rs -> (r_id r < freshId rs)%nat.
Proof.
  unfold freshId. induction rs as [ | x rs IH]; simpl; [intros [] | ].
  intros [<- | Hin]; [lia | ]. specialize (IH Hin). lia.
Qed.

Lemma updateValue_fresh (rs : list DNSRecord) (id : nat) (value : string) (ttl : Z) :
  (forall r, In r rs -> r_id r <> id) -> updateValue rs id value ttl = rs.
Proof.
  unfold updateValue. induction rs as [ | x rs IH]; intro H; simpl; [reflexivity | ].
  destruct (Nat.eqb_spec (r_id x) id) as [E | _].
  - exfalso. apply (H x); [left; reflexivity | exact E].
  - rewrite IH; [reflexivity | ]. intros r Hr. apply H. right. exact Hr.
Qed.

Lemma updateValue_twice (rs : list DNSRecord) (id : nat) (v1 v2 : string) (t1 t2 : Z) :
  updateValue (updateValue rs id v1 t1) id v2 t2 = updateValue rs id v2 t2.
Proof.
  unfold updateValue. rewrite map_map. apply map_ext. intro r.
  destruct (Nat.eqb (r_id r) id) eqn:E; simpl; rewrite E; reflexivity.
Qed.

Lemma updateValue_ids (rs : list DNSRecord) (id : nat) (value : string) (ttl : Z) :
  map r_id (updateValue rs id value ttl) = map r_id rs.
Proof.
  unfold updateValue. rewrite map_map. apply map_ext. intro r.
  destruct (Nat.eqb (r_id r) id); reflexivity.
Qed.

Lemma findFirstA_updateValue (rs : list DNSRecord) (id : nat) (value : string) (ttl : Z)
  (domainId name : string) :
  findFirstA (updateValue rs id value ttl) domainId name
  = option_map (fun r =>
                  if Nat.eqb (r_id r) id
                  then mkRecord (r_id r) (r_domainId r) (r_name r) (r_type r) value ttl
                         (r_priority r) (r_weight r) (r_port r)
                         (r_isLoadBalanced r) (r_loadBalancerId r)
                  else r)
               (findFirstA rs domainId name).
Proof.
  unfold findFirstA, updateValue. apply find_map_same_test.
  intro r. destruct (Nat.eqb (r_id r) id); reflexivity.
Qed.

Lemma findFirstA_createA (rs : list DNSRecord) (domainId name value : string) (ttl : Z) :
  findFirstA rs domainId name = None ->
  findFirstA (createA rs domainId name value ttl) domainId name
  = Some (mkRecord (freshId rs) domainId name "A" value ttl None None None false None).
Proof.
  intro H. unfold findFirstA, createA in *. rewrite (find_app_none _ _ _ H).
  simpl. rewrite !String.eqb_refl. reflexivity.
Qed.

(** What [createOrUpdateDNSRecord] does to the world: it resolves, and only
    the record table changes, provided the Prisma calls resolve. *)
Lemma createOrUpdateDNSRecord_run (e : Env) (lb : LoadBalancer) (server : DNSServer)
  (w : World) :
  createOrUpdateDNSRecord e lb server w
  = (Resolved tt,
     if canWrite e lb (records w)
     then mkWorld
            (match findFirstA (records w) (lb_domainId lb)
                     (lb_name lb ++ "." ++ lb_domainName lb) with
             | Some existingRecord =>
                 updateValue (records w) (r_id existingRecord) (s_ip server) 60
             | None =>
                 createA (records w) (lb_domainId lb)
                   (lb_name lb ++ "." ++ lb_domainName lb) (s_ip server) 60
             end)
            (healthRows w) (files w) (commands w)
     else w).
Proof.
  unfold createOrUpdateDNSRecord, canWrite, tryCatch, bind, prisma, getRecords,
    putRecords, ret. cbv zeta.
  destruct (db_ok e "dNSRecord.findFirst" _); cbn [andb fst snd]; [ | reflexivity].
  destruct (findFirstA (records w) _ _).
  - destruct (db_ok e "dNSRecord.update" _); reflexivity.
  - destruct (db_ok e "dNSRecord.create" _); reflexivity.
Qed.

(** The table [createOrUpdateDNSRecord] leaves when its Prisma calls resolve. *)
Lemma written_record_found (lb : LoadBalancer) (server : DNSServer)
  (rs : list DNSRecord) :
  exists r : DNSRecord,
    findFirstA
      (match findFirstA rs (lb_domainId lb) (lb_name lb ++ "." ++ lb_domainName lb) with
       | Some ex => updateValue rs (r_id ex) (s_ip server) 60
       | None => createA rs (lb_domainId lb) (lb_name lb ++ "." ++ lb_domainName lb)
                   (s_ip server) 60
       end)
      (lb_domainId lb) (lb_name lb ++ "." ++ lb_domainName lb) = Some r
    /\ r_value r = s_ip server
    /\ r_ttl r = 60%Z
    /\ r_type r = "A"
    /\ r_name r = lb_name lb ++ "." ++ lb_domainName lb
    /\ r_isLoadBalanced r
       = match findFirstA rs (lb_domainId lb)
                 (lb_name lb ++ "." ++ lb_domainName lb) with
         | Some ex => r_isLoadBalanced ex
         | None => false
         end.
Proof.
  destruct (findFirstA rs _ _) as [ex | ] eqn:E.
  - rewrite findFirstA_updateValue, E. cbn [option_map].
    rewrite Nat.eqb_refl. eexists. split; [reflexivity | ].
    cbn. repeat split.
    + unfold findFirstA in E. apply find_some in E. destruct E as [_ E].
      apply andb_prop in E. destruct E as [_ E]. apply String.eqb_eq. exact E.
    + unfold findFirstA in E. apply find_some in E. destruct E as [_ E].
      apply andb_prop in E. destruct E as [E _].
      apply andb_prop in E. destruct E as [_ E]. apply String.eqb_eq. exact E.
  - rewrite (findFirstA_createA _ _ _ _ _ E). eexists. split; [reflexivity | ].
    cbn. repeat split.
Qed.

(** X3: [createOrUpdateDNSRecord] never rejects.  When the Prisma calls it
    needs resolve, the first A record named [<balancer>.<domain>] in the
    balancer's domain afterwards carries the IP of the server passed in, with
    TTL 60; when one of them rejects, the world is left as it was. *)
Theorem record_points_to_selected_server :
  forall (e : Env) (lb : LoadBalancer) (server : DNSServer) (w : World),
    fst (createOrUpdateDNSRecord e lb server w) = Resolved tt
    /\ (canWrite e lb (records w) = true ->
        exists r : DNSRecord,
          findFirstA (records (snd (createOrUpdateDNSRecord e lb server w)))
            (lb_domainId lb) (lb_name lb ++ "." ++ lb_domainName lb) = Some r
          /\ r_value r = s_ip server
          /\ r_ttl r = 60%Z
          /\ r_type r = "A"
          /\ r_name r = lb_name lb ++ "." ++ lb_domainName lb)
    /\ (canWrite e lb (records w) = false ->
        snd (createOrUpdateDNSRecord e lb server w) = w).
Proof.
  intros e lb server w. rewrite createOrUpdateDNSRecord_run. cbn [fst snd].
  split; [reflexivity | ]. split; intro Hc; rewrite Hc; [ | reflexivity].
  cbn [records].
  destruct (written_record_found lb server (records w))
    as (r & Hf & Hv & Ht & Hty & Hn & _).
  exists r. repeat split; assumption.
Qed.

Lemma record_points_to_selected_server_witness :
  (canWrite Scenario.allFine Scenario.oneHealthy (records Scenario.emptyWorld) = true
   /\ exists r : DNSRecord,
       records (snd (createOrUpdateDNSRecord Scenario.allFine Scenario.oneHealthy
                       (Scenario.server "s1" "10.0.0.1" 100 None) Scenario.emptyWorld))
       = [r]
       /\ r_value r = "10.0.0.1")
  /\ canWrite Scenario.databaseDown Scenario.oneHealthy (records Scenario.emptyWorld)
     = false
  /\ snd (createOrUpdateDNSRecord Scenario.databaseDown Scenario.oneHealthy
            (Scenario.server "s1" "10.0.0.1" 100 None) Scenario.emptyWorld)
     = Scenario.emptyWorld.
Proof.
  split; [split; [reflexivity | ] | split; [reflexivity | ]].
  - destruct (proj1 (proj2 (record_points_to_selected_server Scenario.allFine
                              Scenario.oneHealthy
                              (Scenario.server "s1" "10.0.0.1" 100 None)
                              Scenario.emptyWorld)) eq_refl)
      as (r & Hfind & Hval & _).
    exists r. split; [ | exact Hval].
    vm_compute in Hfind. injection Hfind as <-. reflexivity.
  - exact (proj2 (proj2 (record_points_to_selected_server Scenario.databaseDown
                           Scenario.oneHealthy
                           (Scenario.server "s1" "10.0.0.1" 100 None)
                           Scenario.emptyWorld)) eq_refl).
Defined.

(** X4: a call of [createOrUpdateDNSRecord] adds a row only when its Prisma
    calls resolve and no A record of that name existed; once a call has gone
    through, a later call (whether its own Prisma calls resolve or not) never
    adds a row, and with the same server it leaves the world as the first
    call left it. *)
Theorem record_written_once :
  forall (e1 e2 : Env) (lb : LoadBalancer) (s1 s2 : DNSServer) (w : World),
    List.length (records (snd (createOrUpdateDNSRecord e1 lb s1 w)))
    = (List.length (records w)
       + if canWrite e1 lb (records w)
         then match findFirstA (records w) (lb_domainId lb)
                      (lb_name lb ++ "." ++ lb_domainName lb) with
              | Some _ => 0
              | None => 1
              end
         else 0)%nat
    /\ (canWrite e1 lb (records w) = true ->
        List.length (records (snd (createOrUpdateDNSRecord e2 lb s2
                                     (snd (createOrUpdateDNSRecord e1 lb s1 w)))))
        = List.length (records (snd (createOrUpdateDNSRecord e1 lb s1 w)))
        /\ snd (createOrUpdateDNSRecord e2 lb s1 (snd (createOrUpdateDNSRecord e1 lb s1 w)))
           = snd (createOrUpdateDNSRecord e1 lb s1 w)).
Proof.
  intros e1 e2 lb s1 s2 w.
  rewrite (createOrUpdateDNSRecord_run e1 lb s1 w). cbn [snd].
  destruct (canWrite e1 lb (records w)) eqn:Hc1; [ | split; [lia | discriminate]].
  cbn [records].
  set (name := lb_name lb ++ "." ++ lb_domainName lb) in *.
  split.
  { destruct (findFirstA (records w) (lb_domainId lb) name).
    - unfold updateValue. rewrite length_map. lia.
    - unfold createA. rewrite length_app. reflexivity. }
  intros _.
  rewrite !createOrUpdateDNSRecord_run. cbn [snd records healthRows files commands].
  destruct (findFirstA (records w) (lb_domainId lb) name) as [ex | ] eqn:E.
  - assert (Hf : findFirstA (updateValue (records w) (r_id ex) (s_ip s1) 60)
                   (lb_domainId lb) name
                 = Some (mkRecord (r_id ex) (r_domainId ex) (r_name ex) (r_type ex)
                           (s_ip s1) 60 (r_priority ex) (r_weight ex) (r_port ex)
                           (r_isLoadBalanced ex) (r_loadBalancerId ex))).
    { rewrite findFirstA_updateValue, E. cbn [option_map].
      rewrite Nat.eqb_refl. reflexivity. }
    unfold canWrite. cbv zeta. fold name. rewrite Hf. cbn [r_id].
    destruct (db_ok e2 "dNSRecord.findFirst" name && db_ok e2 "dNSRecord.update" name);
      cbn [records]; [ | split; reflexivity].
    split.
    + unfold updateValue. rewrite !length_map. reflexivity.
    + rewrite updateValue_twice. reflexivity.
  - assert (Hf : findFirstA (createA (records w) (lb_domainId lb) name (s_ip s1) 60)
                   (lb_domainId lb) name
                 = Some (mkRecord (freshId (records w)) (lb_domainId lb) name "A"
                           (s_ip s1) 60 None None None false None))
      by (apply findFirstA_createA; exact E).
    unfold canWrite. cbv zeta. fold name. rewrite Hf. cbn [r_id].
    destruct (db_ok e2 "dNSRecord.findFirst" name && db_ok e2 "dNSRecord.update" name);
      cbn [records]; [ | split; reflexivity].
    split.
    + unfold updateValue. rewrite length_map. reflexivity.
    + f_equal. unfold createA, updateValue. rewrite map_app. cbn [map r_id].
      rewrite Nat.eqb_refl. cbn.
      f_equal. apply (updateValue_fresh (records w) (freshId (records w))).
      intros r Hr. pose proof (freshId_above _ _ Hr). lia.
Qed.

Lemma record_written_once_witness :
  canWrite Scenario.allFine Scenario.oneHealthy (records Scenario.emptyWorld) = true
  /\ List.length
       (records (snd (createOrUpdateDNSRecord Scenario.allFine Scenario.oneHealthy
                        (Scenario.server "s2" "10.0.0.2" 100 None)
                        (snd (createOrUpdateDNSRecord Scenario.allFine Scenario.oneHealthy
                                (Scenario.server "s1" "10.0.0.1" 100 None)
                                Scenario.emptyWorld)))))
     = 1%nat
  /\ List.length
       (records (snd (createOrUpdateDNSRecord Scenario.databaseDown Scenario.oneHealthy
                        (Scenario.server "s1" "10.0.0.1" 100 None)
                        Scenario.emptyWorld)))
     = 0%nat.
Proof.
  split; [reflexivity | ]. split.
  - rewrite (proj1 (proj2 (record_written_once Scenario.allFine Scenario.allFine
                             Scenario.oneHealthy
                             (Scenario.server "s1" "10.0.0.1" 100 None)
                             (Scenario.server "s2" "10.0.0.2" 100 None)
                             Scenario.emptyWorld) eq_refl)).
    reflexivity.
  - rewrite (proj1 (record_written_once Scenario.databaseDown Scenario.allFine
                      Scenario.oneHealthy
                      (Scenario.server "s1" "10.0.0.1" 100 None)
                      (Scenario.server "s2" "10.0.0.2" 100 None)
                      Scenario.emptyWorld)).
    reflexivity.
Defined.

Lemma NoDup_map_injective {A B : Type} (f : A -> B) (l : list A) :
  NoDup (map f l) -> forall a b, In a l -> In b l -> f a = f b -> a = b.
Proof.
  induction l as [ | x l IH]; simpl; intros Hnd a b Ha Hb Hf; [destruct Ha | ].
  inversion Hnd as [ | y ys Hnotin Hnd']; subst.
  destruct Ha as [<- | Ha]; destruct Hb as [<- | Hb]; auto.
  - exfalso. apply Hnotin. rewrite Hf. apply in_map. exact Hb.
  - exfalso. apply Hnotin. rewrite <- Hf. apply in_map. exact Ha.
Qed.

(** X5: When the ids of the record table are pairwise distinct, they still
    are after [createOrUpdateDNSRecord], and every row that is not an A record
    named [<balancer>.<domain>] of the balancer's domain is still there,
    unchanged. *)
Theorem other_records_untouched :
  forall (e : Env) (lb : LoadBalancer) (server : DNSServer) (w : World),
    NoDup (map r_id (records w)) ->
    NoDup (map r_id (records (snd (createOrUpdateDNSRecord e lb server w))))
    /\ (forall r : DNSRecord,
           In r (records w) ->
           (r_domainId r =? lb_domainId lb)
             && (r_name r =? lb_name lb ++ "." ++ lb_domainName lb)
             && (r_type r =? "A") = false ->
           In r (records (snd (createOrUpdateDNSRecord e lb server w)))).
Proof.
  intros e lb server w Hnd.
  rewrite createOrUpdateDNSRecord_run. cbn [snd].
  destruct (canWrite e lb (records w)); [ | split; [exact Hnd | intros r Hr _; exact Hr]].
  cbn [records].
  destruct (findFirstA (records w) _ _) as [ex | ] eqn:E.
  - split; [rewrite updateValue_ids; exact Hnd | ].
    intros r Hr Hkey. unfold findFirstA in E. apply find_some in E.
    destruct E as [Hex Hexkey].
    assert (Hid : r_id r <> r_id ex).
    { intro Hid. rewrite (NoDup_map_injective r_id _ Hnd r ex Hr Hex Hid) in Hkey.
      rewrite Hkey in Hexkey. discriminate. }
    unfold updateValue. apply in_map_iff. exists r. split; [ | exact Hr].
    destruct (Nat.eqb_spec (r_id r) (r_id ex)); [contradiction | reflexivity].
  - split.
    + unfold createA. rewrite map_app. cbn [map r_id].
      apply NoDup_app; [exact Hnd | constructor; [intros [] | constructor] | ].
      intros i Hi [<- | []]. apply in_map_iff in Hi. destruct Hi as (r & Hr & Hin).
      pose proof (freshId_above _ _ Hin). lia.
    + intros r Hr _. unfold createA. apply in_or_app. left. exact Hr.
Qed.

Lemma other_records_untouched_witness :
  NoDup (map r_id [Scenario.cnameRecord "foo"])
  /\ In (Scenario.cnameRecord "foo")
       (records (snd (createOrUpdateDNSRecord Scenario.allFine Scenario.oneHealthy
                        (Scenario.server "s1" "10.0.0.1" 100 None)
                        (mkWorld [Scenario.cnameRecord "foo"] [] [] [])))).
Proof.
  assert (Hnd : NoDup (map r_id [Scenario.cnameRecord "foo"])).
  { constructor; [intros [] | constructor]. }
  split; [exact Hnd | ].
  apply (proj2 (other_records_untouched Scenario.allFine Scenario.oneHealthy
                  (Scenario.server "s1" "10.0.0.1" 100 None)
                  (mkWorld [Scenario.cnameRecord "foo"] [] [] []) Hnd)).
  - left. reflexivity.
  - reflexivity.
Defined.

End RecordFacts.

(** ** Round-robin rotation *)

Section RotationFacts.

Import Model Eff Service Api.

Lemma roundRobinPick_index (now : Z) (hs : list DNSServer) :
  hs <> [] -> (0 <= now)%Z ->
  roundRobinPick now hs
  = nth_error hs (Z.to_nat ((now / 1000) mod Z.of_nat (List.length hs))).
Proof.
  intros Hne Hnow. unfold roundRobinPick.
  assert (HN : (0 < Z.of_nat (List.length hs))%Z).
  { destruct hs; [contradiction | simpl; lia]. }
  assert (Hsec : (0 <= now / 1000)%Z) by (apply Z.div_pos; lia).
  rewrite (Z.rem_mod_nonneg _ _ Hsec HN).
  pose proof (Z.mod_pos_bound (now / 1000) _ HN) as Hb.
  destruct (Z.ltb_spec ((now / 1000) mod Z.of_nat (List.length hs)) 0); [lia | reflexivity].
Qed.

Lemma updateRoundRobinDNS_pick (e : Env) (lb : LoadBalancer) (hs : list DNSServer) :
  updateRoundRobinDNS e lb hs
  = match roundRobinPick (now e) hs with
    | Some selectedServer => createOrUpdateDNSRecord e lb selectedServer
    | None => ret tt
    end.
Proof. reflexivity. Qed.

(** X6: With a non-empty healthy list and a clock that is not before the epoch,
    round-robin selection advertises the server at index
    [floor(now / 1000) mod N], which always exists; and every server of the
    list is the one picked at one of the next [N] seconds. *)
Theorem round_robin_visits_every_server :
  forall (e : Env) (lb : LoadBalancer) (hs : list DNSServer),
    hs <> [] -> (0 <= now e)%Z ->
    (exists s : DNSServer,
        roundRobinPick (now e) hs = Some s
        /\ nth_error hs (Z.to_nat ((now e / 1000) mod Z.of_nat (List.length hs))) = Some s
        /\ In s hs
        /\ updateRoundRobinDNS e lb hs = createOrUpdateDNSRecord e lb s)
    /\ (forall (i : nat) (s : DNSServer),
           nth_error hs i = Some s ->
           exists k : Z,
             (0 <= k < Z.of_nat (List.length hs))%Z
             /\ roundRobinPick (now e + 1000 * k) hs = Some s).
Proof.
  intros e lb hs Hne Hnow.
  assert (HN : (0 < Z.of_nat (List.length hs))%Z).
  { destruct hs; [contradiction | simpl; lia]. }
  split.
  - pose proof (Z.mod_pos_bound (now e / 1000) _ HN) as Hb.
    destruct (nth_error hs (Z.to_nat ((now e / 1000) mod Z.of_nat (List.length hs))))
      as [s | ] eqn:E.
    + exists s. rewrite updateRoundRobinDNS_pick, (roundRobinPick_index _ _ Hne Hnow), E.
      repeat split. exact (nth_error_In _ _ E).
    + apply nth_error_None in E. lia.
  - intros i s Hi.
    assert (Hlt : (i < List.length hs)%nat) by (apply nth_error_Some; congruence).
    exists ((Z.of_nat i - now e / 1000) mod Z.of_nat (List.length hs))%Z.
    split; [apply Z.mod_pos_bound; exact HN | ].
    rewrite roundRobinPick_index; [ | exact Hne | ].
    2: { pose proof (Z.mod_pos_bound (Z.of_nat i - now e / 1000) _ HN). lia. }
    replace (now e + 1000 * ((Z.of_nat i - now e / 1000) mod Z.of_nat (List.length hs)))%Z
      with (now e + ((Z.of_nat i - now e / 1000) mod Z.of_nat (List.length hs)) * 1000)%Z
      by lia.
    rewrite Z.div_add by lia.
    rewrite Zplus_mod_idemp_r.
    replace (now e / 1000 + (Z.of_nat i - now e / 1000))%Z with (Z.of_nat i) by lia.
    rewrite Z.mod_small by lia. rewrite Nat2Z.id. exact Hi.
Qed.

Lemma round_robin_visits_every_server_witness :
  Scenario.dnsFirst <> []
  /\ (0 <= now Scenario.allFine)%Z
  /\ exists k : Z,
      (0 <= k < 2)%Z
      /\ option_map s_id (roundRobinPick (now Scenario.allFine + 1000 * k) Scenario.dnsFirst)
         = Some "s2"%string.
Proof.
  assert (Hne : Scenario.dnsFirst <> []) by discriminate.
  assert (Hnow : (0 <= now Scenario.allFine)%Z) by discriminate.
  split; [exact Hne | ]. split; [exact Hnow | ].
  destruct (proj2 (round_robin_visits_every_server Scenario.allFine Scenario.oneHealthy
                     Scenario.dnsFirst Hne Hnow) 1%nat _ eq_refl) as (k & Hk & Hpick).
  exists k. split; [exact Hk | ]. rewrite Hpick. reflexivity.
Defined.

End RotationFacts.

(** ** Sequencing of effects *)

Section EffFacts.

Import Model Eff.

Lemma bind_resolved {A B : Type} (m : M A) (k : A -> M B) (w : World) (a : A) :
  fst (m w) = Resolved a -> bind m k w = k a (snd (m w)).
Proof.
  unfold bind. destruct (m w) as [[a' | err] w']; simpl; intro H;
    [injection H as ->; reflexivity | discriminate].
Qed.

Lemma forEach_resolves {A : Type} (xs : list A) (body : A -> M unit) :
  (forall x w, fst (body x w) = Resolved tt) ->
  forall w, fst (forEach xs body w) = Resolved tt.
Proof.
  intro Hb. induction xs as [ | x xs IH]; intro w; simpl; [reflexivity | ].
  rewrite (bind_resolved _ _ _ tt (Hb x w)). apply IH.
Qed.

Lemma forEach_invariant {A : Type} (I : World -> Prop) (xs : list A) (body : A -> M unit) :
  (forall x w, fst (body x w) = Resolved tt) ->
  (forall x w, I w -> I (snd (body x w))) ->
  forall w, I w -> I (snd (forEach xs body w)).
Proof.
  intros Hr Hb. induction xs as [ | x xs IH]; intros w Hw; simpl; [exact Hw | ].
  rewrite (bind_resolved _ _ _ tt (Hr x w)). apply IH, Hb, Hw.
Qed.

Lemma forEach_establish {A : Type} (Q : A -> World -> Prop) (xs : list A)
  (body : A -> M unit) :
  (forall x w, fst (body x w) = Resolved tt) ->
  (forall x w, Q x (snd (body x w))) ->
  (forall x y w, Q x w -> Q x (snd (body y w))) ->
  forall w x, In x xs -> Q x (snd (forEach xs body w)).
Proof.
  intros Hr Hest Hstable. induction xs as [ | y xs IH]; intros w x Hin; [destruct Hin | ].
  simpl. rewrite (bind_resolved _ _ _ tt (Hr y w)).
  destruct Hin as [<- | Hin].
  - apply (forEach_invariant (Q y)); [exact Hr | | apply Hest].
    intros z w' Hq. apply Hstable, Hq.
  - apply IH, Hin.
Qed.

End EffFacts.

(** ** The health table *)

Section HealthTableFacts.

Import Model Eff Scheduler.
Local Open Scope string_scope.

Lemma lookup_upsert_same (rows : list (string * ServerHealth)) (id : string)
  (h : ServerHealth) :
  lookupHealth (upsertHealth rows id h) id = Some h.
Proof.
  induction rows as [ | [id0 h0] rows IH]; simpl.
  - rewrite String.eqb_refl. reflexivity.
  - destruct (id0 =? id) eqn:E; simpl; rewrite E; [reflexivity | exact IH].
Qed.

Lemma lookup_upsert_other (rows : list (string * ServerHealth)) (id id' : string)
  (h : ServerHealth) :
  id' <> id ->
  lookupHealth (upsertHealth rows id h) id' = lookupHealth rows id'.
Proof.
  intro Hne. induction rows as [ | [id0 h0] rows IH]; simpl.
  - destruct (String.eqb_spec id id'); [congruence | reflexivity].
  - destruct (String.eqb_spec id0 id) as [-> | Hn]; simpl.
    + destruct (String.eqb_spec id id'); [congruence | reflexivity].
    + rewrite IH. reflexivity.
Qed.

Lemma upsert_keys (rows : list (string * ServerHealth)) (id : string) (h : ServerHealth) :
  map fst (upsertHealth rows id h)
  = match lookupHealth rows id with
    | Some _ => map fst rows
    | None => (map fst rows ++ [id])%list
    end.
Proof.
  induction rows as [ | [id0 h0] rows IH]; simpl; [reflexivity | ].
  destruct (String.eqb_spec id0 id) as [-> | Hn]; simpl; [reflexivity | ].
  rewrite IH. destruct (lookupHealth rows id); reflexivity.
Qed.

Lemma lookup_none_not_key (rows : list (string * ServerHealth)) (id : string) :
  lookupHealth rows id = None -> ~ In id (map fst rows).
Proof.
  induction rows as [ | [id0 h0] rows IH]; simpl; [intros _ [] | ].
  destruct (String.eqb_spec id0 id) as [-> | Hn]; [discriminate | ].
  intros H [E | Hin]; [contradiction | exact (IH H Hin)].
Qed.

(** X7: The upsert of a health row: the row can be read back, the rows of the
    other servers are as before, a server already present keeps a single row
    at its place and a new server gets one at the end, so that server ids
    that were pairwise distinct stay so. *)
Theorem health_upsert_lookup :
  forall (rows : list (string * ServerHealth)) (serverId : string) (h : ServerHealth),
    lookupHealth (upsertHealth rows serverId h) serverId = Some h
    /\ (forall other : string,
           other <> serverId ->
           lookupHealth (upsertHealth rows serverId h) other = lookupHealth rows other)
    /\ map fst (upsertHealth rows serverId h)
       = match lookupHealth rows serverId with
         | Some _ => map fst rows
         | None => (map fst rows ++ [serverId])%list
         end
    /\ (NoDup (map fst rows) -> NoDup (map fst (upsertHealth rows serverId h))).
Proof.
  intros rows id h.
  split; [apply lookup_upsert_same | ].
  split; [intros other Hne; apply lookup_upsert_other; exact Hne | ].
  split; [apply upsert_keys | ].
  intro Hnd. rewrite upsert_keys.
  destruct (lookupHealth rows id) eqn:E; [exact Hnd | ].
  apply NoDup_app; [exact Hnd | constructor; [intros [] | constructor] | ].
  intros i Hi [<- | []]. exact (lookup_none_not_key _ _ E Hi).
Qed.

End HealthTableFacts.

(** ** A selection pass as a whole ([updateDNSRecords]) *)

Section PassFacts.

Import Model Eff Service.
Local Open Scope string_scope.

Lemma fold_betterOf_in (rest : list DNSServer) :
  forall acc : DNSServer,
    fold_left betterOf rest acc = acc \/ In (fold_left betterOf rest acc) rest.
Proof.
  induction rest as [ | x rest IH]; intro acc; [left; reflexivity | ].
  simpl fold_left. destruct (IH (betterOf acc x)) as [E | Hin].
  - rewrite E. unfold betterOf. destruct (Double.gtb _ _); [right; left | left]; reflexivity.
  - right. right. exact Hin.
Qed.

Lemma bestServer_in (hs : list DNSServer) (s : DNSServer) :
  bestServer hs = Some s -> In s hs.
Proof.
  destruct hs as [ | first rest]; unfold bestServer; [discriminate | ].
  intro H. injection H as <-.
  destruct (fold_betterOf_in rest first) as [E | Hin].
  - rewrite E. left. reflexivity.
  - right. exact Hin.
Qed.

Lemma updateRoundRobinDNS_shape (e : Env) (lb : LoadBalancer) (hs : list DNSServer)
  (w : World) :
  updateRoundRobinDNS e lb hs w = (Resolved tt, w)
  \/ exists s, In s hs /\ updateRoundRobinDNS e lb hs w = createOrUpdateDNSRecord e lb s w.
Proof.
  unfold updateRoundRobinDNS.
  destruct (if (Z.rem (now e / 1000) (Z.of_nat (List.length hs)) <? 0)%Z then None
            else nth_error hs (Z.to_nat (Z.rem (now e / 1000) (Z.of_nat (List.length hs)))))
    as [s | ] eqn:E; [right | left; reflexivity].
  exists s. split; [ | reflexivity].
  destruct (Z.rem (now e / 1000) (Z.of_nat (List.length hs)) <? 0)%Z; [discriminate | ].
  exact (nth_error_In _ _ E).
Qed.

Lemma updateWeightedDNS_shape (e : Env) (lb : LoadBalancer) (hs : list DNSServer)
  (w : World) :
  updateWeightedDNS e lb hs w = (Resolved tt, w)
  \/ exists s, In s hs /\ updateWeightedDNS e lb hs w = createOrUpdateDNSRecord e lb s w.
Proof.
  unfold updateWeightedDNS.
  destruct (weightedWalk (rnd e * inject_Z (totalWeight hs)) hs) as [s | ] eqn:E;
    [right | left; reflexivity].
  exists s. split; [exact (weightedWalk_in _ _ _ E) | reflexivity].
Qed.

Lemma updateHealthBasedDNS_shape (e : Env) (lb : LoadBalancer) (hs : list DNSServer)
  (w : World) :
  hs <> [] ->
  exists s, In s hs /\ updateHealthBasedDNS e lb hs w = createOrUpdateDNSRecord e lb s w.
Proof.
  intro Hne. unfold updateHealthBasedDNS.
  destruct (bestServer hs) as [s | ] eqn:E.
  - exists s. split; [exact (bestServer_in _ _ E) | reflexivity].
  - destruct hs; [contradiction | discriminate].
Qed.

Lemma pass_then_reload (m : M unit) (e : Env) (w w1 : World) :
  m w = (Resolved tt, w1) ->
  tryCatch (bind m (fun _ => Service.reloadBind9 e)) (fun _ => ret tt) w
  = (Resolved tt,
     mkWorld (records w1) (healthRows w1) (files w1) (commands w1 ++ ["rndc reload"])).
Proof.
  intro H. unfold tryCatch, bind. rewrite H, service_reloadBind9_swallows. reflexivity.
Qed.

Lemma updateDNSRecords_run (e : Env) (lb : LoadBalancer) (w : World) :
  healthyServersOf lb <> [] ->
  exists rs',
    (rs' = records w
     \/ exists s, In s (healthyServersOf lb)
                  /\ rs' = records (snd (createOrUpdateDNSRecord e lb s w)))
    /\ updateDNSRecords e lb w
       = (Resolved tt,
          mkWorld rs' (healthRows w) (files w) (commands w ++ ["rndc reload"])).
Proof.
  intro Hne. unfold updateDNSRecords. cbv zeta.
  assert (Hshape :
    forall m : M unit,
      (m w = (Resolved tt, w)
       \/ exists s, In s (healthyServersOf lb) /\ m w = createOrUpdateDNSRecord e lb s w) ->
      exists rs',
        (rs' = records w
         \/ exists s, In s (healthyServersOf lb)
                      /\ rs' = records (snd (createOrUpdateDNSRecord e lb s w)))
        /\ tryCatch (bind m (fun _ => Service.reloadBind9 e)) (fun _ => ret tt) w
           = (Resolved tt,
              mkWorld rs' (healthRows w) (files w) (commands w ++ ["rndc reload"]))).
  { intros m [Hm | (s & Hs & Hm)].
    - exists (records w). split; [left; reflexivity | ].
      rewrite (pass_then_reload m e w w Hm). reflexivity.
    - exists (records (snd (createOrUpdateDNSRecord e lb s w))).
      split; [right; exists s; split; [exact Hs | reflexivity] | ].
      rewrite createOrUpdateDNSRecord_run in Hm.
      rewrite (pass_then_reload m e w _ Hm).
      rewrite createOrUpdateDNSRecord_run. cbn [snd].
      destruct (canWrite e lb (records w)); reflexivity. }
  destruct (healthyServersOf lb) as [ | h hs'] eqn:E; [contradiction | ].
  apply Hshape.
  destruct (lb_algorithm lb =? "round-robin"); [apply updateRoundRobinDNS_shape | ].
  destruct (lb_algorithm lb =? "weighted"); [apply updateWeightedDNS_shape | ].
  destruct (lb_algorithm lb =? "health-based"); [ | apply updateRoundRobinDNS_shape].
  right. apply updateHealthBasedDNS_shape. discriminate.
Qed.

(** X8: [updateDNSRecords] never rejects and never touches the health table or
    the files.  Without a healthy server it changes nothing and issues no
    command; otherwise it issues exactly one [rndc reload], and the record
    table is either as before or as [createOrUpdateDNSRecord] leaves it for
    one of the balancer's healthy servers. *)
Theorem selection_pass_effects :
  forall (e : Env) (lb : LoadBalancer) (w : World),
    fst (updateDNSRecords e lb w) = Resolved tt
    /\ healthRows (snd (updateDNSRecords e lb w)) = healthRows w
    /\ files (snd (updateDNSRecords e lb w)) = files w
    /\ commands (snd (updateDNSRecords e lb w))
       = match healthyServersOf lb with
         | [] => commands w
         | _ => (commands w ++ ["rndc reload"])%list
         end
    /\ (healthyServersOf lb = [] -> snd (updateDNSRecords e lb w) = w)
    /\ (records (snd (updateDNSRecords e lb w)) = records w
        \/ exists s : DNSServer,
            In s (healthyServersOf lb)
            /\ records (snd (updateDNSRecords e lb w))
               = records (snd (createOrUpdateDNSRecord e lb s w))).
Proof.
  intros e lb w.
  destruct (healthyServersOf lb) as [ | h hs'] eqn:E.
  - rewrite (updateDNSRecords_no_healthy e lb w E). simpl.
    repeat split; auto.
  - destruct (updateDNSRecords_run e lb w) as (rs' & Hrs & Hrun).
    { rewrite E. discriminate. }
    rewrite Hrun. simpl. repeat split; try discriminate.
    rewrite E in Hrs. exact Hrs.
Qed.

End PassFacts.

(** ** A health-check cycle and the manual triggers *)

Section CycleFacts.

Import Model Eff Service Scheduler Frame.
Local Open Scope string_scope.

Lemma tryCatch_resolved {A : Type} (m : M A) (h : string -> M A) (w : World) (a : A) :
  fst (m w) = Resolved a -> tryCatch m h w = m w.
Proof.
  unfold tryCatch. destruct (m w) as [[a' | err] w']; simpl; intro H;
    [reflexivity | discriminate].
Qed.

Lemma checkServerHealth_evaluated (e : Health.ProbeEnv) (port : Z) :
  Health.hd_status (Health.checkServerHealth e port) = "healthy"
  \/ Health.hd_status (Health.checkServerHealth e port) = "degraded"
  \/ Health.hd_status (Health.checkServerHealth e port) = "unhealthy".
Proof.
  rewrite checkServerHealth_status, determineOverallStatus_cases.
  destruct (Health.status (Health.pingTest e) =? "healthy");
    destruct (Health.status (Health.portCheck e port (Health.pingTest e)) =? "healthy");
    destruct (Health.status (Health.portCheck e port (Health.pingTest e)) =? "unknown");
    simpl; auto.
Qed.

Lemma updateServerHealth_run (e : Env) (serverId : string) (hd : Health.HealthData)
  (w : World) :
  updateServerHealth e serverId hd w
  = (Resolved tt,
     if db_ok e "dNSServerHealth.upsert" serverId
     then setHealthRows
            (upsertHealth (healthRows w) serverId
               (mkHealth (Health.hd_status hd) (Health.hd_responseTime hd)
                  (Health.hd_uptime hd) (Health.hd_load hd)
                  (Health.hd_memoryUsage hd) (Health.hd_diskUsage hd))) w
     else w).
Proof.
  unfold updateServerHealth, tryCatch, prisma.
  destruct (db_ok e "dNSServerHealth.upsert" serverId); reflexivity.
Qed.

Lemma updateServerHealth_resolves (e : Env) (serverId : string) (hd : Health.HealthData)
  (w : World) :
  fst (updateServerHealth e serverId hd w) = Resolved tt.
Proof. rewrite updateServerHealth_run. reflexivity. Qed.

Lemma probed_after_update (e : Env) (id : string) (pe : Health.ProbeEnv) (port : Z)
  (w : World) :
  db_ok e "dNSServerHealth.upsert" id = true ->
  probed id (snd (updateServerHealth e id (Health.checkServerHealth pe port) w)).
Proof.
  intro Hok. rewrite updateServerHealth_run, Hok. unfold probed.
  cbn [snd setHealthRows healthRows].
  rewrite lookup_upsert_same. eexists. split; [reflexivity | ].
  unfold evaluated. cbn [h_status]. apply checkServerHealth_evaluated.
Qed.

Lemma probed_stable_update (e : Env) (id id' : string) (pe : Health.ProbeEnv) (port : Z)
  (w : World) :
  probed id w ->
  probed id (snd (updateServerHealth e id' (Health.checkServerHealth pe port) w)).
Proof.
  intro H. destruct (db_ok e "dNSServerHealth.upsert" id') eqn:Hok.
  - destruct (String.eqb_spec id id') as [<- | Hne].
    + apply probed_after_update. exact Hok.
    + rewrite updateServerHealth_run, Hok. unfold probed in *.
      cbn [snd setHealthRows healthRows].
      rewrite lookup_upsert_other by exact Hne. exact H.
  - rewrite updateServerHealth_run, Hok. exact H.
Qed.

(** A rejected upsert leaves the row of its server as it was, whatever the
    other upserts do. *)
Lemma kept_after_update (e : Env) (id id' : string) (hd : Health.HealthData) (w : World) :
  db_ok e "dNSServerHealth.upsert" id = false ->
  lookupHealth (healthRows (snd (updateServerHealth e id' hd w))) id
  = lookupHealth (healthRows w) id.
Proof.
  intro Hno. rewrite updateServerHealth_run.
  destruct (db_ok e "dNSServerHealth.upsert" id') eqn:Hok; [ | reflexivity].
  cbn [snd setHealthRows healthRows]. apply lookup_upsert_other.
  intros ->. congruence.
Qed.

Lemma probeServers_resolves (e : Env) (probe : string -> Z -> Health.ProbeEnv)
  (lb : LoadBalancer) (w : World) :
  fst (Routes.probeServers e probe lb w) = Resolved tt.
Proof.
  unfold Routes.probeServers. apply forEach_resolves.
  intros s w'. apply updateServerHealth_resolves.
Qed.

Lemma probeServers_sameData (e : Env) (probe : string -> Z -> Health.ProbeEnv)
  (lb : LoadBalancer) (w : World) :
  sameData (snd (Routes.probeServers e probe lb w)) w.
Proof.
  unfold Routes.probeServers.
  apply (forEach_invariant (fun w' => sameData w' w)).
  - intros s w'. apply updateServerHealth_resolves.
  - intros s w' H. rewrite updateServerHealth_run.
    destruct (db_ok e "dNSServerHealth.upsert" (s_id s)); exact H.
  - repeat split.
Qed.

Lemma probeServers_probes (e : Env) (probe : string -> Z -> Health.ProbeEnv)
  (lb : LoadBalancer) (w : World) (s : DNSServer) :
  db_ok e "dNSServerHealth.upsert" (s_id s) = true ->
  In s (lb_servers lb) -> probed (s_id s) (snd (Routes.probeServers e probe lb w)).
Proof.
  intros Hok Hin. unfold Routes.probeServers.
  apply (forEach_establish
           (fun x w' => db_ok e "dNSServerHealth.upsert" (s_id x) = true ->
                        probed (s_id x) w')); [ | | | exact Hin | exact Hok].
  - intros x w'. apply updateServerHealth_resolves.
  - intros x w' Hx. apply probed_after_update. exact Hx.
  - intros x y w' H Hx. apply probed_stable_update. apply H. exact Hx.
Qed.

Lemma probeServers_keeps_probed (e : Env) (probe : string -> Z -> Health.ProbeEnv)
  (lb : LoadBalancer) (w : World) (id : string) :
  probed id w -> probed id (snd (Routes.probeServers e probe lb w)).
Proof.
  unfold Routes.probeServers. apply (forEach_invariant (probed id)).
  - intros x w'. apply updateServerHealth_resolves.
  - intros x w' H. apply probed_stable_update. exact H.
Qed.

Lemma probeServers_rejected_upsert (e : Env) (probe : string -> Z -> Health.ProbeEnv)
  (lb : LoadBalancer) (w : World) (id : string) :
  db_ok e "dNSServerHealth.upsert" id = false ->
  lookupHealth (healthRows (snd (Routes.probeServers e probe lb w))) id
  = lookupHealth (healthRows w) id.
Proof.
  intro Hno. unfold Routes.probeServers.
  apply (forEach_invariant
           (fun w' => lookupHealth (healthRows w') id = lookupHealth (healthRows w) id)).
  - intros x w'. apply updateServerHealth_resolves.
  - intros x w' H. rewrite (kept_after_update e id _ _ _ Hno). exact H.
  - reflexivity.
Qed.

Lemma updateDNSRecords_frame (e : Env) (lb : LoadBalancer) (w : World) :
  fst (updateDNSRecords e lb w) = Resolved tt
  /\ healthRows (snd (updateDNSRecords e lb w)) = healthRows w
  /\ files (snd (updateDNSRecords e lb w)) = files w.
Proof.
  destruct (healthyServersOf lb) as [ | h hs'] eqn:E.
  - rewrite (updateDNSRecords_no_healthy e lb w E). repeat split.
  - destruct (updateDNSRecords_run e lb w) as (rs' & _ & Hrun).
    { rewrite E. discriminate. }
    rewrite Hrun. repeat split.
Qed.

Lemma withHealth_servers (rows : list (string * ServerHealth)) (lb : LoadBalancer)
  (s : DNSServer) :
  In s (lb_servers lb) ->
  exists s', In s' (lb_servers (withHealth rows lb)) /\ s_id s' = s_id s.
Proof.
  intro H. unfold withHealth. cbn [lb_servers].
  eexists. split; [apply in_map; exact H | reflexivity].
Qed.

(** The body of the loop over the balancers in [performHealthChecks]. *)
Lemma cycle_body_resolves (e : Env) (probe : string -> Z -> Health.ProbeEnv)
  (lb : LoadBalancer) (w : World) :
  fst (bind (Routes.probeServers e probe lb) (fun _ => updateDNSRecords e lb) w)
  = Resolved tt.
Proof.
  rewrite (bind_resolved _ _ _ tt (probeServers_resolves e probe lb w)).
  apply updateDNSRecords_frame.
Qed.

Lemma cycle_body_keeps_probed (e : Env) (probe : string -> Z -> Health.ProbeEnv)
  (lb : LoadBalancer) (w : World) (id : string) :
  probed id w ->
  probed id
    (snd (bind (Routes.probeServers e probe lb) (fun _ => updateDNSRecords e lb) w)).
Proof.
  intro H. rewrite (bind_resolved _ _ _ tt (probeServers_resolves e probe lb w)).
  unfold probed.
  rewrite (proj1 (proj2 (updateDNSRecords_frame e lb _))).
  apply probeServers_keeps_probed. exact H.
Qed.

Lemma performHealthChecks_run (e : Env) (probe : string -> Z -> Health.ProbeEnv)
  (balancers : list LoadBalancer) (w : World) :
  performHealthChecks e probe balancers w
  = if db_ok e "dNSLoadBalancer.findMany" "isActive"
    then forEach (map (withHealth (healthRows w)) (filter lb_isActive balancers))
           (fun lb => bind (Routes.probeServers e probe lb)
                        (fun _ => updateDNSRecords e lb)) w
    else (Resolved tt, w).
Proof.
  unfold performHealthChecks.
  destruct (db_ok e "dNSLoadBalancer.findMany" "isActive") eqn:Hok.
  - rewrite (tryCatch_resolved _ _ _ tt).
    + unfold bind at 1, prisma, getHealthRows. rewrite Hok. reflexivity.
    + unfold bind at 1, prisma, getHealthRows. rewrite Hok.
      apply (forEach_resolves _ _ (cycle_body_resolves e probe)).
  - unfold tryCatch, bind, prisma. rewrite Hok. reflexivity.
Qed.

(** X9: A cycle never rejects and never writes a file.  When the query for
    the balancers resolves, the health table holds at the end, for every
    server of every active balancer whose upsert resolves, a row with one of
    the statuses [healthy], [degraded] and [unhealthy].  When the query
    rejects, the cycle changes nothing; and a server whose upsert rejects
    keeps the row it had, or none. *)
Theorem cycle_evaluates_every_server :
  forall (e : Env) (probe : string -> Z -> Health.ProbeEnv)
         (balancers : list LoadBalancer) (w : World),
    fst (performHealthChecks e probe balancers w) = Resolved tt
    /\ files (snd (performHealthChecks e probe balancers w)) = files w
    /\ (db_ok e "dNSLoadBalancer.findMany" "isActive" = true ->
        forall (lb : LoadBalancer) (s : DNSServer),
          In lb balancers -> lb_isActive lb = true -> In s (lb_servers lb) ->
          db_ok e "dNSServerHealth.upsert" (s_id s) = true ->
          exists h : ServerHealth,
            lookupHealth (healthRows (snd (performHealthChecks e probe balancers w)))
              (s_id s) = Some h
            /\ (h_status h = "healthy" \/ h_status h = "degraded"
                \/ h_status h = "unhealthy"))
    /\ (db_ok e "dNSLoadBalancer.findMany" "isActive" = false ->
        snd (performHealthChecks e probe balancers w) = w)
    /\ (forall serverId : string,
           db_ok e "dNSServerHealth.upsert" serverId = false ->
           lookupHealth (healthRows (snd (performHealthChecks e probe balancers w)))
             serverId
           = lookupHealth (healthRows w) serverId).
Proof.
  intros e probe balancers w. rewrite performHealthChecks_run.
  destruct (db_ok e "dNSLoadBalancer.findMany" "isActive") eqn:Hmany.
  2: { repeat split; try discriminate; reflexivity. }
  split; [apply (forEach_resolves _ _ (cycle_body_resolves e probe)) | ].
  split.
  { apply (forEach_invariant (fun w' => files w' = files w));
      [apply cycle_body_resolves | | reflexivity].
    intros lb w' H.
    rewrite (bind_resolved _ _ _ tt (probeServers_resolves e probe lb w')).
    rewrite (proj2 (proj2 (updateDNSRecords_frame e lb _))).
    rewrite (proj1 (proj2 (probeServers_sameData e probe lb w'))). exact H. }
  split.
  { intros _ lb s Hlb Hact Hs Hup.
    destruct (withHealth_servers (healthRows w) lb s Hs) as (s' & Hs' & Hid).
    rewrite <- Hid. rewrite <- Hid in Hup.
    assert (Hin : In (withHealth (healthRows w) lb)
                    (map (withHealth (healthRows w)) (filter lb_isActive balancers))).
    { apply in_map, filter_In. split; assumption. }
    apply (forEach_establish
             (fun lb' w' => forall x, In x (lb_servers lb') ->
                                      db_ok e "dNSServerHealth.upsert" (s_id x) = true ->
                                      probed (s_id x) w')
             _ _ (cycle_body_resolves e probe)) with (x := withHealth (healthRows w) lb);
      [ | | exact Hin | exact Hs' | exact Hup].
    + intros lb' w' x Hx Hxup.
      rewrite (bind_resolved _ _ _ tt (probeServers_resolves e probe lb' w')).
      unfold probed. rewrite (proj1 (proj2 (updateDNSRecords_frame e lb' _))).
      apply probeServers_probes; assumption.
    + intros lb1 lb2 w' H x Hx Hxup. apply cycle_body_keeps_probed, H; assumption. }
  split; [discriminate | ].
  intros serverId Hno.
  apply (forEach_invariant
           (fun w' => lookupHealth (healthRows w') serverId
                      = lookupHealth (healthRows w) serverId));
    [apply cycle_body_resolves | | reflexivity].
  intros lb w' H.
  rewrite (bind_resolved _ _ _ tt (probeServers_resolves e probe lb w')).
  rewrite (proj1 (proj2 (updateDNSRecords_frame e lb _))).
  rewrite (probeServers_rejected_upsert e probe lb w' serverId Hno). exact H.
Qed.

Lemma cycle_evaluates_every_server_witness :
  (exists h : ServerHealth,
      lookupHealth
        (healthRows (snd (performHealthChecks Scenario.allFine Scenario.pingAnswers
                            [Scenario.oneHealthy] Scenario.emptyWorld))) "s1"
      = Some h
      /\ (h_status h = "healthy" \/ h_status h = "degraded" \/ h_status h = "unhealthy"))
  /\ snd (performHealthChecks Scenario.databaseDown Scenario.pingAnswers
            [Scenario.oneHealthy] Scenario.healthyWorld)
     = Scenario.healthyWorld.
Proof.
  split.
  - apply (proj1 (proj2 (proj2 (cycle_evaluates_every_server Scenario.allFine
                                  Scenario.pingAnswers [Scenario.oneHealthy]
                                  Scenario.emptyWorld)))
             eq_refl Scenario.oneHealthy
             (Scenario.server "s1" "10.0.0.1" 100 (Some (Scenario.healthRow "healthy" 12)))).
    + left. reflexivity.
    + reflexivity.
    + left. reflexivity.
    + reflexivity.
  - exact (proj1 (proj2 (proj2 (proj2 (cycle_evaluates_every_server Scenario.databaseDown
                                         Scenario.pingAnswers [Scenario.oneHealthy]
                                         Scenario.healthyWorld))))
             eq_refl).
Defined.

End CycleFacts.

(** ** Selection does not look at the health table *)

Section BlindFacts.

Import Model Eff Service Scheduler Frame.
Local Open Scope string_scope.

Lemma healthBlind_ret {A : Type} (a : A) : healthBlind (ret a).
Proof. intros hs w. reflexivity. Qed.

Lemma healthBlind_throw {A : Type} (err : string) : healthBlind (@throw A err).
Proof. intros hs w. reflexivity. Qed.

Lemma healthBlind_getRecords : healthBlind getRecords.
Proof. intros hs w. reflexivity. Qed.

Lemma healthBlind_putRecords (rs : list DNSRecord) : healthBlind (putRecords rs).
Proof. intros hs w. reflexivity. Qed.

Lemma healthBlind_execAsync (e : Env) (cmd : string) : healthBlind (execAsync e cmd).
Proof. intros hs w. unfold execAsync. destruct (exec_ok e cmd); reflexivity. Qed.

Lemma healthBlind_bind {A B : Type} (m : M A) (k : A -> M B) :
  healthBlind m -> (forall a, healthBlind (k a)) -> healthBlind (bind m k).
Proof.
  intros Hm Hk hs w. unfold bind. rewrite (Hm hs w).
  destruct (m w) as [[a | err] w']; cbn [fst snd]; [apply Hk | reflexivity].
Qed.

Lemma healthBlind_tryCatch {A : Type} (m : M A) (h : string -> M A) :
  healthBlind m -> (forall err, healthBlind (h err)) -> healthBlind (tryCatch m h).
Proof.
  intros Hm Hh hs w. unfold tryCatch. rewrite (Hm hs w).
  destruct (m w) as [[a | err] w']; cbn [fst snd]; [reflexivity | apply Hh].
Qed.

Lemma healthBlind_prisma {A : Type} (e : Env) (op key : string) (m : M A) :
  healthBlind m -> healthBlind (prisma e op key m).
Proof.
  intros Hm hs w. unfold prisma. destruct (db_ok e op key); [apply Hm | reflexivity].
Qed.

Lemma healthBlind_createOrUpdate (e : Env) (lb : LoadBalancer) (s : DNSServer) :
  healthBlind (createOrUpdateDNSRecord e lb s).
Proof.
  unfold createOrUpdateDNSRecord. cbv zeta.
  apply healthBlind_tryCatch; [ | intro err; apply healthBlind_ret].
  apply healthBlind_bind.
  - apply healthBlind_prisma, healthBlind_bind; [apply healthBlind_getRecords | ].
    intro rs. apply healthBlind_ret.
  - intros [ex | ]; apply healthBlind_prisma, healthBlind_bind;
      try apply healthBlind_getRecords; intro rs; apply healthBlind_putRecords.
Qed.

Lemma healthBlind_updateDNSRecords (e : Env) (lb : LoadBalancer) :
  healthBlind (updateDNSRecords e lb).
Proof.
  unfold updateDNSRecords. cbv zeta.
  apply healthBlind_tryCatch; [ | intro err; apply healthBlind_ret].
  destruct (healthyServersOf lb) as [ | h hs'] eqn:E; [apply healthBlind_ret | ].
  apply healthBlind_bind.
  2: { intros _. unfold Service.reloadBind9.
       apply healthBlind_tryCatch; [apply healthBlind_execAsync | ].
       intro err. apply healthBlind_ret. }
  assert (Hrr : healthBlind (updateRoundRobinDNS e lb (h :: hs'))).
  { unfold updateRoundRobinDNS.
    destruct (if (_ <? 0)%Z then None else _);
      [apply healthBlind_createOrUpdate | apply healthBlind_ret]. }
  destruct (lb_algorithm lb =? "round-robin"); [exact Hrr | ].
  destruct (lb_algorithm lb =? "weighted").
  { unfold updateWeightedDNS. destruct (weightedWalk _ _);
      [apply healthBlind_createOrUpdate | apply healthBlind_ret]. }
  destruct (lb_algorithm lb =? "health-based"); [ | exact Hrr].
  unfold updateHealthBasedDNS. destruct (bestServer _);
    [apply healthBlind_createOrUpdate | apply healthBlind_throw].
Qed.

Lemma sameData_sym (w1 w2 : World) : sameData w1 w2 -> sameData w2 w1.
Proof. unfold sameData. intros (H1 & H2 & H3). repeat split; congruence. Qed.

Lemma sameData_trans (w1 w2 w3 : World) :
  sameData w1 w2 -> sameData w2 w3 -> sameData w1 w3.
Proof.
  unfold sameData. intros (H1 & H2 & H3) (H4 & H5 & H6). repeat split; congruence.
Qed.

Lemma sameData_sameStore (w1 w2 : World) : sameData w1 w2 -> sameStore w1 w2.
Proof. intros (H1 & H2 & _). split; assumption. Qed.

Lemma healthBlind_sameData {A : Type} (m : M A) (w1 w2 : World) :
  healthBlind m -> sameData w1 w2 ->
  fst (m w1) = fst (m w2) /\ sameData (snd (m w1)) (snd (m w2)).
Proof.
  intros Hm (H1 & H2 & H3).
  assert (E : w1 = setHealthRows (healthRows w1) w2).
  { destruct w1, w2. unfold setHealthRows. simpl in *. subst. reflexivity. }
  rewrite E, (Hm (healthRows w1) w2). cbn [fst snd].
  split; [reflexivity | ]. unfold sameData, setHealthRows. repeat split.
Qed.

Lemma cycle_sameData (e : Env) (probe : string -> Z -> Health.ProbeEnv)
  (lbs : list LoadBalancer) :
  forall w1 w2,
    sameData w1 w2 ->
    sameData
      (snd (forEach lbs
              (fun lb => bind (Routes.probeServers e probe lb)
                           (fun _ => updateDNSRecords e lb)) w1))
      (snd (forEach lbs (updateDNSRecords e) w2)).
Proof.
  induction lbs as [ | lb lbs IH]; intros w1 w2 H; simpl; [exact H | ].
  rewrite (bind_resolved _ _ _ tt (cycle_body_resolves e probe lb w1)).
  rewrite (bind_resolved _ _ _ tt (proj1 (updateDNSRecords_frame e lb w2))).
  apply IH.
  rewrite (bind_resolved _ _ _ tt (probeServers_resolves e probe lb w1)).
  apply (healthBlind_sameData _ _ _ (healthBlind_updateDNSRecords e lb)).
  apply sameData_trans with w1; [apply probeServers_sameData | exact H].
Qed.

(** X10: The record table and the files left by a cycle are those of running
    [updateDNSRecords] on each active balancer with the health rows read at
    the start of the cycle: what the probes of the cycle find plays no part in
    the selections of that cycle.  (When the query for the balancers rejects,
    nothing is selected.) *)
Theorem cycle_selects_on_previous_health :
  forall (e : Env) (probe : string -> Z -> Health.ProbeEnv)
         (balancers : list LoadBalancer) (w : World),
    sameStore
      (snd (performHealthChecks e probe balancers w))
      (if db_ok e "dNSLoadBalancer.findMany" "isActive"
       then snd (forEach (map (withHealth (healthRows w)) (filter lb_isActive balancers))
                   (updateDNSRecords e) w)
       else w).
Proof.
  intros e probe balancers w. rewrite performHealthChecks_run.
  destruct (db_ok e "dNSLoadBalancer.findMany" "isActive"); [ | split; reflexivity].
  apply sameData_sameStore, cycle_sameData. repeat split.
Qed.

(** X11: The manual triggers.  When the query for the balancer rejects, both
    answer 500 and change nothing; for an unknown id both answer 404 and
    change nothing.  For a known balancer, [POST /:id/update-dns] answers 200
    whatever the resolver commands and the later database calls do, and leaves
    the record table and the files that [updateDNSRecords] produces from the
    health rows read before the probes; [POST /:id/health-check] answers 200
    and leaves the record table and the files as they were; and both leave
    every server of the balancer whose upsert resolves with an evaluated
    health row. *)
Theorem manual_triggers :
  forall (e : Env) (probe : string -> Z -> Health.ProbeEnv)
         (balancers : list LoadBalancer) (id : string) (w : World),
    (db_ok e "dNSLoadBalancer.findUnique" id = false ->
     exists message : string,
       Routes.updateDnsRoute e probe balancers id w
       = (Resolved (Routes.Error 500 message), w)
       /\ Routes.healthCheckRoute e probe balancers id w
          = (Resolved (Routes.Error 500 message), w))
    /\ (db_ok e "dNSLoadBalancer.findUnique" id = true ->
        (find (fun lb => lb_id lb =? id) balancers = None ->
         Routes.updateDnsRoute e probe balancers id w
         = (Resolved (Routes.Error 404 "Load balancer not found"), w)
         /\ Routes.healthCheckRoute e probe balancers id w
            = (Resolved (Routes.Error 404 "Load balancer not found"), w))
        /\ (forall lb : LoadBalancer,
               find (fun lb => lb_id lb =? id) balancers = Some lb ->
               fst (Routes.updateDnsRoute e probe balancers id w)
               = Resolved (Routes.Message 200 "DNS records updated successfully")
               /\ sameStore (snd (Routes.updateDnsRoute e probe balancers id w))
                    (snd (updateDNSRecords e (withHealth (healthRows w) lb) w))
               /\ fst (Routes.healthCheckRoute e probe balancers id w)
                  = Resolved (Routes.Message 200
                                "Manual health check completed successfully")
               /\ sameStore (snd (Routes.healthCheckRoute e probe balancers id w)) w
               /\ (forall s, In s (lb_servers lb) ->
                     db_ok e "dNSServerHealth.upsert" (s_id s) = true ->
                     probed (s_id s) (snd (Routes.updateDnsRoute e probe balancers id w))
                     /\ probed (s_id s)
                          (snd (Routes.healthCheckRoute e probe balancers id w))))).
Proof.
  intros e probe balancers id w. split.
  { intro Hno. eexists.
    unfold Routes.updateDnsRoute, Routes.healthCheckRoute, tryCatch, bind, prisma.
    rewrite Hno. split; reflexivity. }
  intro Hok. split.
  { intro Hnone. unfold Routes.updateDnsRoute, Routes.healthCheckRoute, tryCatch, bind,
      prisma, getHealthRows, Api.findUnique. rewrite Hok, Hnone. split; reflexivity. }
  intros lb Hfind.
  set (lb' := withHealth (healthRows w) lb).
  assert (Hupd : Routes.updateDnsRoute e probe balancers id w
                 = (Resolved (Routes.Message 200 "DNS records updated successfully"),
                    snd (updateDNSRecords e lb' (snd (Routes.probeServers e probe lb' w))))).
  { unfold Routes.updateDnsRoute, tryCatch, prisma, getHealthRows, Api.findUnique.
    unfold bind at 1. rewrite Hok, Hfind. cbn [option_map]. fold lb'.
    rewrite (bind_resolved _ _ _ tt (probeServers_resolves e probe lb' w)).
    rewrite (bind_resolved _ _ _ tt (proj1 (updateDNSRecords_frame e lb' _))).
    reflexivity. }
  assert (Hhc : Routes.healthCheckRoute e probe balancers id w
                = (Resolved (Routes.Message 200
                               "Manual health check completed successfully"),
                   snd (Routes.probeServers e probe lb' w))).
  { unfold Routes.healthCheckRoute, tryCatch, prisma, getHealthRows, Api.findUnique.
    unfold bind at 1. rewrite Hok, Hfind. cbn [option_map]. fold lb'.
    rewrite (bind_resolved _ _ _ tt (probeServers_resolves e probe lb' w)).
    reflexivity. }
  rewrite Hupd, Hhc. cbn [fst snd].
  split; [reflexivity | ].
  split.
  { apply sameData_sameStore.
    apply (healthBlind_sameData _ _ _ (healthBlind_updateDNSRecords e lb')).
    apply probeServers_sameData. }
  split; [reflexivity | ].
  split; [apply sameData_sameStore, probeServers_sameData | ].
  intros s Hs Hup.
  destruct (withHealth_servers (healthRows w) lb s Hs) as (s' & Hs' & Hid).
  rewrite <- Hid. rewrite <- Hid in Hup. split.
  - unfold probed.
    rewrite (proj1 (proj2 (updateDNSRecords_frame e lb' _))).
    apply probeServers_probes; assumption.
  - apply probeServers_probes; assumption.
Qed.

Lemma manual_triggers_witness :
  (exists message : string,
      Routes.healthCheckRoute Scenario.databaseDown Scenario.pingAnswers
        [Scenario.oneHealthy] "lb1" Scenario.emptyWorld
      = (Resolved (Routes.Error 500 message), Scenario.emptyWorld))
  /\ Routes.updateDnsRoute Scenario.allFine Scenario.pingAnswers
       [Scenario.oneHealthy] "lb2" Scenario.emptyWorld
     = (Resolved (Routes.Error 404 "Load balancer not found"), Scenario.emptyWorld)
  /\ fst (Routes.updateDnsRoute Scenario.resolverDown Scenario.pingAnswers
            [Scenario.oneHealthy] "lb1" Scenario.healthyWorld)
     = Resolved (Routes.Message 200 "DNS records updated successfully")
  /\ probed "s1" (snd (Routes.healthCheckRoute Scenario.allFine Scenario.pingAnswers
                         [Scenario.oneHealthy] "lb1" Scenario.emptyWorld)).
Proof.
  split; [ | split; [ | split]].
  - destruct (proj1 (manual_triggers Scenario.databaseDown Scenario.pingAnswers
                       [Scenario.oneHealthy] "lb1" Scenario.emptyWorld) eq_refl)
      as (message & _ & Hhc).
    exists message. exact Hhc.
  - exact (proj1 (proj1 (proj2 (manual_triggers Scenario.allFine Scenario.pingAnswers
                                  [Scenario.oneHealthy] "lb2" Scenario.emptyWorld)
                           eq_refl) eq_refl)).
  - exact (proj1 (proj2 (proj2 (manual_triggers Scenario.resolverDown Scenario.pingAnswers
                                  [Scenario.oneHealthy] "lb1" Scenario.healthyWorld)
                           eq_refl) Scenario.oneHealthy eq_refl)).
  - apply (proj2 (proj2 (proj2 (proj2 (proj2 (proj2 (manual_triggers Scenario.allFine
                                  Scenario.pingAnswers [Scenario.oneHealthy] "lb1"
                                  Scenario.emptyWorld)
                           eq_refl) Scenario.oneHealthy eq_refl))))
             (Scenario.server "s1" "10.0.0.1" 100 (Some (Scenario.healthRow "healthy" 12)))).
    + left. reflexivity.
    + reflexivity.
Defined.

End BlindFacts.

(** ** Names of static records *)

Section NameFacts.

Import Model Eff Zone.
Local Open Scope string_scope.

Lemma startsWith_append (p s : string) : Js.startsWith (p ++ s) p = true.
Proof.
  unfold Js.startsWith. induction p as [ | c p IH]; simpl.
  - destruct s; reflexivity.
  - destruct (ascii_dec c c) as [_ | Hn]; [exact IH | contradiction].
Qed.

Lemma length_append (a b : string) :
  String.length (a ++ b) = (String.length a + String.length b)%nat.
Proof. induction a as [ | c a IH]; simpl; [ | rewrite IH]; reflexivity. Qed.

Lemma startsWith_head (c d : ascii) (s p : string) :
  c <> d -> Js.startsWith (String c s) (String d p) = false.
Proof.
  intro H. unfold Js.startsWith. simpl.
  destruct (ascii_dec d c) as [E | _]; [congruence | reflexivity].
Qed.

Lemma includes_dot_cons (c : ascii) (s : string) :
  Js.includes (String c s) "." = false ->
  c <> "."%char /\ Js.includes s "." = false.
Proof.
  cbn [Js.includes].
  destruct (ascii_dec c ".") as [-> | Hn].
  - assert (E : Js.startsWith (String "." s) "." = true)
      by (apply (startsWith_append "." s)).
    rewrite E. discriminate.
  - rewrite (startsWith_head c "." s "" Hn). intro H. split; assumption.
Qed.

Lemma startsWith_refl (p : string) : Js.startsWith p p = true.
Proof.
  unfold Js.startsWith. induction p as [ | c p IH]; simpl; [reflexivity | ].
  destruct (ascii_dec c c) as [_ | Hn]; [exact IH | contradiction].
Qed.

Lemma drop_length_self (p : string) : Js.drop (String.length p) p = "".
Proof. induction p as [ | c p IH]; simpl; [reflexivity | exact IH]. Qed.

(** Removing the first [.domain] from [label.domain] gives back a label
    without dots. *)
Lemma replace_strips_suffix (label domainName : string) :
  Js.includes label "." = false ->
  Js.replace (label ++ "." ++ domainName) ("." ++ domainName) "" = label.
Proof.
  change ("." ++ domainName) with (String "." domainName).
  induction label as [ | c label IH]; intro H.
  - change ("" ++ String "." domainName) with (String "." domainName).
    cbn [Js.replace]. rewrite startsWith_refl, drop_length_self. reflexivity.
  - apply includes_dot_cons in H. destruct H as [Hc H].
    change (String c label ++ String "." domainName)
      with (String c (label ++ String "." domainName)).
    cbn [Js.replace]. rewrite (startsWith_head c "." _ _ Hc).
    f_equal. apply IH. exact H.
Qed.

Lemma name_is_not_domain (label domainName : string) :
  (label ++ "." ++ domainName =? domainName) = false.
Proof.
  apply String.eqb_neq. intro E.
  apply (f_equal String.length) in E. rewrite length_append in E. simpl in E. lia.
Qed.

Lemma subdomain_owner_lemma (label domainName : string) :
  Js.includes label "." = false ->
  zoneRecordName (label ++ "." ++ domainName) domainName = Some label
  /\ zoneRecordName domainName domainName = Some "@".
Proof.
  intro H. unfold zoneRecordName. split.
  - rewrite name_is_not_domain.
    rewrite (endsWith_append label ("." ++ domainName)).
    rewrite (replace_strips_suffix label domainName H). reflexivity.
  - rewrite String.eqb_refl. reflexivity.
Qed.

(** X12: A record named [label.domain], with a label that has no dot, is emitted
    in the zone of [domain] under the owner [label]; the name [domain] itself
    is emitted under [@]. *)
Theorem subdomain_owner_is_label :
  forall label domainName : string,
    Js.includes label "." = false ->
    zoneRecordName (label ++ "." ++ domainName) domainName = Some label
    /\ zoneRecordName domainName domainName = Some "@".
Proof.
  intros label domainName H. exact (subdomain_owner_lemma label domainName H).
Qed.

Lemma subdomain_owner_is_label_witness :
  Js.includes "web" "." = false
  /\ zoneRecordName ("web" ++ "." ++ "example.com") "example.com" = Some "web".
Proof.
  split; [reflexivity | ].
  exact (proj1 (subdomain_owner_is_label "web" "example.com" eq_refl)).
Defined.

End NameFacts.

(** ** What the zone of a domain contains *)

Section ZoneContentFacts.

Import Model Eff Zone.
Local Open Scope string_scope.

Lemma staticLines_in (domain : Domain) (l : zline) :
  In l (staticLines domain) <->
  exists r, In r (d_records domain) /\ staticLine (d_name domain) r = Some l.
Proof.
  unfold staticLines. rewrite in_flat_map. split.
  - intros (r & Hr & Hl). exists r. split; [exact Hr | ].
    destruct (staticLine (d_name domain) r) as [l' | ]; [ | destruct Hl].
    destruct Hl as [<- | []]. reflexivity.
  - intros (r & Hr & Hl). exists r. split; [exact Hr | ]. rewrite Hl. left. reflexivity.
Qed.

(** X13: Every static line of a zone comes from a record of the domain that is
    not flagged as load balanced and whose name the domain accepts: the line
    has the record's type, the owner computed from its name and, unless it is
    a CNAME, the record's value; an MX line never has priority 0. *)
Theorem static_lines_come_from_unflagged_records :
  forall (domain : Domain) (l : zline),
    In l (staticLines domain) ->
    exists r : DNSRecord,
      In r (d_records domain)
      /\ r_isLoadBalanced r = false
      /\ zoneRecordName (r_name r) (d_name domain) = Some (owner_of l)
      /\ type_of l = r_type r
      /\ (r_type r <> "CNAME" -> value_of l = r_value r)
      /\ match l with
         | LMX _ mxPriority _ => mxPriority <> 0%Z
         | _ => True
         end.
Proof.
  intros domain l Hl. apply staticLines_in in Hl. destruct Hl as (r & Hr & Hl).
  exists r. split; [exact Hr | ]. unfold staticLine in Hl.
  destruct (r_isLoadBalanced r); [discriminate | ]. split; [reflexivity | ].
  destruct (zoneRecordName (r_name r) (d_name domain)) as [owner | ]; [ | discriminate].
  destruct (String.eqb_spec (r_type r) "MX") as [Emx | Nmx].
  { injection Hl as <-. cbn. repeat split; auto.
    unfold Js.orDefault. destruct (r_priority r) as [z | ]; [ | discriminate].
    destruct (Z.eqb_spec z 0); [discriminate | assumption]. }
  destruct (String.eqb_spec (r_type r) "CNAME") as [Ecn | Ncn].
  { injection Hl as <-. cbn. repeat split; auto. intro H. contradiction. }
  injection Hl as <-. cbn. repeat split.
Qed.

Lemma static_lines_come_from_unflagged_records_witness :
  In (LMX "@" 10 "mail.example.com.")
     (staticLines (Scenario.exampleCom [Scenario.mxRecord]))
  /\ exists r : DNSRecord,
      In r (d_records (Scenario.exampleCom [Scenario.mxRecord]))
      /\ r_isLoadBalanced r = false
      /\ type_of (LMX "@" 10 "mail.example.com.") = r_type r.
Proof.
  assert (Hin : In (LMX "@" 10 "mail.example.com.")
                  (staticLines (Scenario.exampleCom [Scenario.mxRecord])))
    by (left; reflexivity).
  split; [exact Hin | ].
  destruct (static_lines_come_from_unflagged_records _ _ Hin)
    as (r & Hr & Hflag & _ & Hty & _).
  exists r. repeat split; assumption.
Defined.

Lemma balancerLines_off (domain : Domain) (lb : LoadBalancer) :
  lb_isActive lb && (lb_domainName lb =? d_name domain) = false ->
  balancerLines domain lb = [].
Proof. intro H. unfold balancerLines. rewrite H. reflexivity. Qed.

(** X15: The zone of a domain is the same whether or not the balancer list holds
    inactive balancers and balancers of other domains; with none that is
    active on the domain, the zone is made of the static lines only. *)
Theorem zone_ignores_other_balancers :
  forall (domain : Domain) (loadBalancers : list LoadBalancer),
    zoneLines domain loadBalancers
    = zoneLines domain
        (filter (fun lb => lb_isActive lb && (lb_domainName lb =? d_name domain))
                loadBalancers)
    /\ (filter (fun lb => lb_isActive lb && (lb_domainName lb =? d_name domain))
               loadBalancers = [] ->
        zoneLines domain loadBalancers = staticLines domain).
Proof.
  intros domain lbs.
  assert (H : flat_map (balancerLines domain) lbs
              = flat_map (balancerLines domain)
                  (filter (fun lb => lb_isActive lb && (lb_domainName lb =? d_name domain))
                          lbs)).
  { induction lbs as [ | lb lbs IH]; [reflexivity | ]. simpl.
    destruct (lb_isActive lb && (lb_domainName lb =? d_name domain)) eqn:E.
    - simpl. rewrite IH. reflexivity.
    - rewrite (balancerLines_off domain lb E). exact IH. }
  unfold zoneLines. split.
  - rewrite H. reflexivity.
  - intro Hnone. rewrite H, Hnone. simpl. apply app_nil_r.
Qed.

Lemma algorithmLines_servers (lb : LoadBalancer) (hs : list DNSServer) (l : zline) :
  In l (fst (algorithmLines lb hs)) ->
  exists s, In s hs /\ l = LBalancedA (lb_name lb) (s_ip s).
Proof.
  unfold algorithmLines.
  destruct (lb_algorithm lb =? "round-robin"); cbn [fst].
  { intro H. apply in_map_iff in H. destruct H as (s & <- & Hs). eauto. }
  destruct (lb_algorithm lb =? "weighted"); cbn [fst].
  { intro H. apply in_flat_map in H. destruct H as (s & Hs & Hl).
    unfold weightedCopies in Hl. apply repeat_spec in Hl. eauto. }
  destruct (lb_algorithm lb =? "health-based"); cbn [fst]; [ | intros []].
  intro H. apply in_map_iff in H. destruct H as (s & <- & Hs).
  exists s. split; [ | reflexivity].
  apply (Permutation_in _ (sortByResponseTime_perm hs)).
  rewrite <- (firstn_skipn 3 (sortByResponseTime hs)).
  apply in_or_app. left. exact Hs.
Qed.

(** X16: Whatever a balancer appends to a zone advertises one of its own servers
    that is switched on and whose health row says [healthy], and the balancer
    itself is active on that domain: each line is an A line owned by the
    balancer's name or an SRV line owned by [_<balancer>._tcp.<domain>.],
    ending with that server's IP. *)
Theorem balancer_lines_advertise_healthy_servers :
  forall (domain : Domain) (lb : LoadBalancer) (l : zline),
    In l (balancerLines domain lb) ->
    lb_isActive lb = true
    /\ lb_domainName lb = d_name domain
    /\ exists s : DNSServer,
        In s (lb_servers lb)
        /\ s_isActive s = true
        /\ healthStatusIs "healthy" s = true
        /\ value_of l = s_ip s
        /\ ((type_of l = "A" /\ owner_of l = lb_name lb)
            \/ (type_of l = "SRV"
                /\ owner_of l = "_" ++ lb_name lb ++ "._tcp." ++ d_name domain ++ ".")).
Proof.
  intros domain lb l Hl.
  destruct (lb_isActive lb && (lb_domainName lb =? d_name domain)) eqn:E.
  2: { rewrite (balancerLines_off domain lb E) in Hl. destruct Hl. }
  apply andb_prop in E. destruct E as [Ha Hd]. apply String.eqb_eq in Hd.
  split; [exact Ha | ]. split; [exact Hd | ].
  rewrite (balancerLines_active domain lb Ha Hd) in Hl.
  assert (Hsrv : forall s, In s (healthyOf lb) ->
                   In s (lb_servers lb) /\ s_isActive s = true
                   /\ healthStatusIs "healthy" s = true).
  { intros s Hs. unfold healthyOf in Hs. apply filter_In in Hs.
    destruct Hs as [Hin Hz]. unfold zoneHealthy in Hz. apply andb_prop in Hz.
    destruct Hz. repeat split; assumption. }
  destruct (healthyOf lb) as [ | h hs'] eqn:Eh; [destruct Hl | ].
  rewrite <- Eh in *. apply in_app_or in Hl. destruct Hl as [Hl | Hl].
  - apply algorithmLines_servers in Hl. destruct Hl as (s & Hs & ->).
    destruct (Hsrv s Hs) as (H1 & H2 & H3).
    exists s. repeat split; auto.
  - unfold srvLines in Hl.
    destruct (1 <? List.length (snd (algorithmLines lb (healthyOf lb))))%nat;
      [ | destruct Hl].
    apply in_map_iff in Hl. destruct Hl as (s & <- & Hs).
    apply (Permutation_in _ (algorithmLines_perm lb (healthyOf lb))) in Hs.
    destruct (Hsrv s Hs) as (H1 & H2 & H3).
    exists s. repeat split; auto.
Qed.

Lemma balancer_lines_advertise_healthy_servers_witness :
  In (LBalancedA "web" "10.0.0.2")
     (balancerLines (Scenario.exampleCom []) Scenario.oneInactive)
  /\ balancerLines (Scenario.exampleCom []) Scenario.oneInactive
     = [LBalancedA "web" "10.0.0.2"]
  /\ exists s : DNSServer,
      In s (lb_servers Scenario.oneInactive)
      /\ s_isActive s = true
      /\ value_of (LBalancedA "web" "10.0.0.2") = s_ip s.
Proof.
  assert (Hin : In (LBalancedA "web" "10.0.0.2")
                  (balancerLines (Scenario.exampleCom []) Scenario.oneInactive))
    by (left; reflexivity).
  split; [exact Hin | ]. split; [reflexivity | ].
  destruct (balancer_lines_advertise_healthy_servers _ _ _ Hin)
    as (_ & _ & s & Hs & Hact & _ & Hval & _).
  exists s. repeat split; assumption.
Defined.

Lemma insertByKey_sorted (x : DNSServer) (l : list DNSServer) :
  StronglySorted (fun a b => (sortKey a <= sortKey b)%Z) l ->
  StronglySorted (fun a b => (sortKey a <= sortKey b)%Z) (insertByKey x l).
Proof.
  induction l as [ | y l IH]; intro Hs; simpl.
  - constructor; constructor.
  - inversion Hs as [ | y' l' Hl Hy]; subst.
    destruct (Z.leb_spec (sortKey x) (sortKey y)) as [Hle | Hgt].
    + constructor; [exact Hs | ]. constructor; [exact Hle | ].
      rewrite Forall_forall in *. intros z Hz. specialize (Hy z Hz). lia.
    + constructor; [apply IH; exact Hl | ].
      rewrite Forall_forall in *. intros z Hz.
      apply (Permutation_in _ (insertByKey_perm x l)) in Hz.
      destruct Hz as [<- | Hz]; [lia | apply Hy; exact Hz].
Qed.

Lemma sortByResponseTime_sorted (l : list DNSServer) :
  StronglySorted (fun a b => (sortKey a <= sortKey b)%Z) (sortByResponseTime l).
Proof.
  induction l as [ | x l IH]; simpl; [constructor | ].
  apply insertByKey_sorted. exact IH.
Qed.

Lemma sorted_app_le (l1 l2 : list DNSServer) :
  StronglySorted (fun a b => (sortKey a <= sortKey b)%Z) (l1 ++ l2) ->
  forall a b, In a l1 -> In b l2 -> (sortKey a <= sortKey b)%Z.
Proof.
  induction l1 as [ | x l1 IH]; simpl; intros Hs a b Ha Hb; [destruct Ha | ].
  inversion Hs as [ | x' l' Hl Hx]; subst.
  destruct Ha as [<- | Ha]; [ | exact (IH Hl a b Ha Hb)].
  rewrite Forall_forall in Hx. apply Hx. apply in_or_app. right. exact Hb.
Qed.

Lemma balancedA_all_A (owner : string) (l : list DNSServer) :
  filter isA (map (fun server => LBalancedA owner (s_ip server)) l)
  = map (fun server => LBalancedA owner (s_ip server)) l.
Proof. induction l as [ | s l IH]; simpl; [ | rewrite IH]; reflexivity. Qed.

(** X18: A balancer whose algorithm is none of [round-robin], [weighted] and
    [health-based] is handled by [updateDNSRecords] exactly as a round-robin
    balancer, but the zone gets no A line for it. *)
Theorem unknown_algorithm_selected_but_not_listed :
  forall (e : Env) (domain : Domain) (lb : LoadBalancer),
    lb_algorithm lb <> "round-robin" ->
    lb_algorithm lb <> "weighted" ->
    lb_algorithm lb <> "health-based" ->
    (forall w : World,
        Service.updateDNSRecords e lb w
        = Service.updateDNSRecords e
            (mkLB (lb_id lb) (lb_name lb) (lb_domainId lb) (lb_domainName lb)
               "round-robin" (lb_isActive lb) (lb_servers lb)) w)
    /\ filter isA (balancerLines domain lb) = [].
Proof.
  intros e domain lb H1 H2 H3.
  apply String.eqb_neq in H1, H2, H3. split.
  - intro w. unfold Service.updateDNSRecords, Service.healthyServersOf.
    cbn [lb_algorithm lb_servers]. rewrite H1, H2, H3. reflexivity.
  - destruct (lb_isActive lb && (lb_domainName lb =? d_name domain)) eqn:E.
    2: { rewrite (balancerLines_off domain lb E). reflexivity. }
    apply andb_prop in E. destruct E as [Ha Hd]. apply String.eqb_eq in Hd.
    rewrite (balancerLines_active domain lb Ha Hd).
    destruct (healthyOf lb) as [ | h hs'] eqn:Eh; [reflexivity | ].
    rewrite filter_app, (proj2 (srvLines_all_srv _ _ _)), app_nil_r.
    unfold algorithmLines. rewrite H1, H2, H3. reflexivity.
Qed.

Lemma unknown_algorithm_selected_but_not_listed_witness :
  lb_algorithm Scenario.leastConn <> "round-robin"
  /\ map r_value (records (snd (Service.updateDNSRecords Scenario.allFine
                                  Scenario.leastConn Scenario.emptyWorld)))
     = ["10.0.0.1"]
  /\ filter isA (balancerLines (Scenario.exampleCom []) Scenario.leastConn) = [].
Proof.
  assert (H1 : lb_algorithm Scenario.leastConn <> "round-robin") by discriminate.
  assert (H2 : lb_algorithm Scenario.leastConn <> "weighted") by discriminate.
  assert (H3 : lb_algorithm Scenario.leastConn <> "health-based") by discriminate.
  split; [exact H1 | ].
  destruct (unknown_algorithm_selected_but_not_listed Scenario.allFine
              (Scenario.exampleCom []) Scenario.leastConn H1 H2 H3) as [Hsel Hzone].
  split; [rewrite Hsel; reflexivity | exact Hzone].
Defined.

End ZoneContentFacts.

(** ** Committing the zones ([syncBind9]) *)

Section CommitFacts.

Import Model Eff Sync.
Local Open Scope string_scope.

Lemma tryCatch_rethrow {A : Type} (m : M A) (w : World) :
  tryCatch m (fun err => throw err) w = m w.
Proof. unfold tryCatch, throw. destruct (m w) as [[a | err] w']; reflexivity. Qed.

Lemma world_eta (w : World) :
  mkWorld (records w) (healthRows w) (files w ++ []) (commands w) = w.
Proof. destruct w. simpl. rewrite app_nil_r. reflexivity. Qed.

Lemma createZoneFile_run (e : Env) (d : Domain) (lbs : list LoadBalancer) (w : World) :
  createZoneFile e d lbs w
  = if write_ok e (Runs.zoneFilePath (d_name d))
    then (Resolved tt,
          mkWorld (records w) (healthRows w)
            (files w ++ [(Runs.zoneFilePath (d_name d), Zone.zoneContent d lbs)])
            (commands w))
    else (Rejected ("EACCES: " ++ Runs.zoneFilePath (d_name d)), w).
Proof. reflexivity. Qed.

Lemma zone_writes_ok (e : Env) (lbs : list LoadBalancer) (doms : list Domain) :
  (forall d, In d doms -> write_ok e (Runs.zoneFilePath (d_name d)) = true) ->
  forall w,
    forEach doms (fun domain => createZoneFile e domain lbs) w
    = (Resolved tt,
       mkWorld (records w) (healthRows w)
         (files w ++ map (fun d => (Runs.zoneFilePath (d_name d), Zone.zoneContent d lbs))
                         doms)
         (commands w)).
Proof.
  induction doms as [ | d doms IH]; intros Hok w.
  - simpl. rewrite world_eta. reflexivity.
  - cbn [forEach]. unfold bind at 1. rewrite createZoneFile_run.
    rewrite (Hok d (or_introl eq_refl)).
    rewrite IH by (intros d' Hd'; apply Hok; right; exact Hd').
    cbn [records healthRows files commands map].
    rewrite <- app_assoc. reflexivity.
Qed.

Lemma zone_writes_fail (e : Env) (lbs : list LoadBalancer) (doms : list Domain) :
  (exists d, In d doms /\ write_ok e (Runs.zoneFilePath (d_name d)) = false) ->
  forall w,
  exists err written,
    forEach doms (fun domain => createZoneFile e domain lbs) w
    = (Rejected err,
       mkWorld (records w) (healthRows w) (files w ++ written) (commands w)).
Proof.
  induction doms as [ | d doms IH]; intros (d0 & Hin & Hbad) w; [destruct Hin | ].
  cbn [forEach]. unfold bind at 1. rewrite createZoneFile_run.
  destruct (write_ok e (Runs.zoneFilePath (d_name d))) eqn:E.
  - assert (Hrest : exists d, In d doms
                              /\ write_ok e (Runs.zoneFilePath (d_name d)) = false).
    { destruct Hin as [<- | Hin]; [congruence | eauto]. }
    destruct (IH Hrest
                (mkWorld (records w) (healthRows w)
                   (files w ++ [(Runs.zoneFilePath (d_name d), Zone.zoneContent d lbs)])
                   (commands w))) as (err & written & Hrun).
    rewrite Hrun. cbn [records healthRows files commands].
    exists err, ((Runs.zoneFilePath (d_name d), Zone.zoneContent d lbs) :: written).
    rewrite <- app_assoc. reflexivity.
  - exists ("EACCES: " ++ Runs.zoneFilePath (d_name d)), []. rewrite world_eta. reflexivity.
Qed.

Lemma classic_zone_writes (e : Env) (doms : list Domain) :
  (forall d, In d doms -> write_ok e (Runs.zoneFilePath (d_name d)) = true)
  \/ (exists d, In d doms /\ write_ok e (Runs.zoneFilePath (d_name d)) = false).
Proof.
  induction doms as [ | d doms [IH | (d0 & Hin & Hbad)]].
  - left. intros d [].
  - destruct (write_ok e (Runs.zoneFilePath (d_name d))) eqn:E.
    + left. intros d' [<- | Hd']; [exact E | apply IH; exact Hd'].
    + right. exists d. split; [left; reflexivity | exact E].
  - right. exists d0. split; [right; exact Hin | exact Hbad].
Qed.

Lemma syncBind9_unfold (e : Env) (rows : list (string * string))
  (lbs : list LoadBalancer) (w : World) :
  syncBind9 e rows lbs w
  = bind (forEach (map (withRecords (records w)) rows)
            (fun domain => createZoneFile e domain lbs))
      (fun _ => bind (updateNamedConfLocal e (map (withRecords (records w)) rows))
                  (fun _ => reloadBind9 e)) w.
Proof. unfold syncBind9. rewrite tryCatch_rethrow. reflexivity. Qed.



(** X20: When the write of a zone file or of [named.conf.local] fails,
    [syncBind9] rejects without issuing any command to the resolver; the
    files written before the failure stay written and the record table is as
    before. *)
Theorem sync_write_failure_skips_reload :
  forall (e : Env) (rows : list (string * string)) (lbs : list LoadBalancer) (w : World),
    (exists row, In row rows /\ write_ok e (Runs.zoneFilePath (snd row)) = false)
    \/ write_ok e NAMED_CONF_LOCAL = false ->
    exists err written,
      syncBind9 e rows lbs w
      = (Rejected err,
         mkWorld (records w) (healthRows w) (files w ++ written) (commands w)).
Proof.
  intros e rows lbs w Hfail. rewrite syncBind9_unfold. unfold bind at 1.
  destruct (classic_zone_writes e (map (withRecords (records w)) rows)) as [Hall | Hbad].
  - rewrite (zone_writes_ok e lbs _ Hall).
    destruct Hfail as [(row & Hrow & Hbad) | Hconf].
    + pose proof (Hall (withRecords (records w) row) (in_map _ _ _ Hrow)) as Hgood.
      unfold withRecords in Hgood. cbn [d_name] in Hgood. congruence.
    + unfold bind at 1. unfold updateNamedConfLocal, writeFile. rewrite Hconf.
      cbn [records healthRows files commands].
      eexists. eexists. reflexivity.
  - destruct (zone_writes_fail e lbs _ Hbad w) as (err & written & Hrun).
    rewrite Hrun. exists err, written. reflexivity.
Qed.

Lemma sync_write_failure_skips_reload_witness :
  write_ok Scenario.readOnlyZones NAMED_CONF_LOCAL = false
  /\ exists err written,
      syncBind9 Scenario.readOnlyZones [("d1", "example.com")] [Scenario.oneHealthy]
        Scenario.emptyWorld
      = (Rejected err, mkWorld [] [] ([] ++ written) []).
Proof.
  split; [reflexivity | ].
  exact (sync_write_failure_skips_reload Scenario.readOnlyZones [("d1", "example.com")]
           [Scenario.oneHealthy] Scenario.emptyWorld (or_intror eq_refl)).
Defined.

End CommitFacts.

Section CommitFailureFacts.

Import Model Eff Sync.
Local Open Scope string_scope.



End CommitFailureFacts.

(** ** Sequences of scheduler calls *)

Section RunFacts.

Import Scheduler Runs.

Lemma filter_single (id : nat) : filter (fun t => negb (Nat.eqb t id)) [id] = [].
Proof. simpl. rewrite Nat.eqb_refl. reflexivity. Qed.

Lemma call_keeps_single_timer (c : Call) (st : State) :
  timers st = match healthCheckInterval st with Some id => [id] | None => [] end ->
  (isRunning st = true <-> healthCheckInterval st <> None) ->
  timers (call c st)
  = match healthCheckInterval (call c st) with Some id => [id] | None => [] end
  /\ (isRunning (call c st) = true <-> healthCheckInterval (call c st) <> None).
Proof.
  intros Ht Hr. destruct c; cbn [call].
  - destruct (isRunning st) eqn:E.
    + rewrite (startHealthChecks_running st E). split; [exact Ht | rewrite E; exact Hr].
    + rewrite (startHealthChecks_stopped st E). cbn.
      assert (Hn : healthCheckInterval st = None).
      { destruct (healthCheckInterval st) as [id | ]; [ | reflexivity].
        assert (Hf : false = true) by (apply Hr; discriminate). discriminate Hf. }
      rewrite Hn in Ht. rewrite Ht.
      split; [reflexivity | ]. split; [discriminate | reflexivity].
  - unfold stopHealthChecks. destruct (healthCheckInterval st) as [id | ] eqn:E; cbn.
    + rewrite Ht, filter_single. split; [reflexivity | ].
      split; [discriminate | intro H; contradiction].
    + rewrite Ht. split; [reflexivity | ].
      split; [discriminate | intro H; contradiction].
Qed.

Lemma run_keeps_single_timer (calls : list Call) :
  forall st : State,
    timers st = match healthCheckInterval st with Some id => [id] | None => [] end ->
    (isRunning st = true <-> healthCheckInterval st <> None) ->
    timers (run calls st)
    = match healthCheckInterval (run calls st) with Some id => [id] | None => [] end
    /\ (isRunning (run calls st) = true <-> healthCheckInterval (run calls st) <> None).
Proof.
  unfold run. induction calls as [ | c calls IH]; intros st Ht Hr; simpl.
  - split; assumption.
  - destruct (call_keeps_single_timer c st Ht Hr) as [Ht' Hr']. apply IH; assumption.
Qed.

(** X22: After any sequence of completed [start] and [stop] calls on a fresh
    scheduler there is at most one interval timer: it exists exactly when the
    scheduler is running, and it is the one whose handle the scheduler holds. *)
Theorem scheduler_runs_hold_one_timer :
  forall calls : list Call,
    timers (run calls initial)
    = match healthCheckInterval (run calls initial) with
      | Some id => [id]
      | None => []
      end
    /\ (isRunning (run calls initial) = true
        <-> healthCheckInterval (run calls initial) <> None)
    /\ (isRunning (run calls initial) = true <-> timers (run calls initial) <> [])
    /\ (List.length (timers (run calls initial)) <= 1)%nat.
Proof.
  intro calls.
  destruct (run_keeps_single_timer calls initial) as [Ht Hr].
  { reflexivity. }
  { simpl. split; [discriminate | intro H; contradiction]. }
  split; [exact Ht | ]. split; [exact Hr | ].
  rewrite Ht. destruct (healthCheckInterval (run calls initial)) as [id | ]; simpl.
  - split; [ | lia]. rewrite Hr. split; intros _; discriminate.
  - split; [ | lia]. rewrite Hr. split; intro H; contradiction.
Qed.

(** X23: A [stop] that arrives while [start] is still awaiting its first cycle
    does not keep the timer from being created: when [start] resumes the
    scheduler is marked stopped but holds a live timer; the next [start]
    creates a second one, and the [stop] after it clears only that second
    one. *)
Theorem stop_during_first_cycle_leaves_timer :
  forall st : State,
    isRunning st = false -> healthCheckInterval st = None -> timers st = [] ->
    isRunning (startResume (stopHealthChecks (snd (startEnter st)))) = false
    /\ timers (startResume (stopHealthChecks (snd (startEnter st)))) = [nextTimer st]
    /\ timers (startHealthChecks
                 (startResume (stopHealthChecks (snd (startEnter st)))))
       = [S (nextTimer st); nextTimer st]
    /\ timers (stopHealthChecks
                 (startHealthChecks
                    (startResume (stopHealthChecks (snd (startEnter st))))))
       = [nextTimer st]
    /\ healthCheckInterval
         (stopHealthChecks
            (startHealthChecks
               (startResume (stopHealthChecks (snd (startEnter st))))))
       = None.
Proof.
  intros [r h t n c] Hr Hh Ht. simpl in Hr, Hh, Ht. subst.
  unfold startHealthChecks, startEnter, startResume, stopHealthChecks. cbn.
  assert (E1 : Nat.eqb n n = true) by apply Nat.eqb_refl.
  assert (E2 : Nat.eqb n (S n) = false) by (apply Nat.eqb_neq; lia).
  assert (E3 : match n with O => false | S m => Nat.eqb n m end = false).
  { destruct n as [ | m]; [reflexivity | ]. apply Nat.eqb_neq. lia. }
  rewrite ?E1, ?E2, ?E3. cbn. rewrite ?E1, ?E2, ?E3. repeat split.
Qed.

Lemma stop_during_first_cycle_leaves_timer_witness :
  isRunning initial = false
  /\ timers (startResume (stopHealthChecks (snd (startEnter initial)))) = [0%nat]
  /\ isRunning (startResume (stopHealthChecks (snd (startEnter initial)))) = false.
Proof.
  split; [reflexivity | ].
  destruct (stop_during_first_cycle_leaves_timer initial eq_refl eq_refl eq_refl)
    as (Hrun & Htimers & _).
  split; [exact Htimers | exact Hrun].
Defined.

End RunFacts.

(** ** The status summary *)

Section StatusFacts.

Import Model Eff Api.
Local Open Scope string_scope.

Lemma filter_disjoint_length {A : Type} (p q : A -> bool) (l : list A) :
  (forall a, p a && q a = false) ->
  (List.length (filter p l) + List.length (filter q l) <= List.length l)%nat.
Proof.
  intro H. induction l as [ | a l IH]; simpl; [lia | ].
  specialize (H a). destruct (p a), (q a); simpl in *; try discriminate; lia.
Qed.

Lemma healthy_not_unhealthy (s : DNSServer) :
  healthStatusIs "healthy" s && healthStatusIs "unhealthy" s = false.
Proof.
  unfold healthStatusIs. destruct (s_health s) as [h | ]; [ | reflexivity].
  destruct (String.eqb_spec (h_status h) "healthy") as [-> | _]; reflexivity.
Qed.

Lemma percentage_bounds (h t : nat) :
  (h <= t)%nat -> (0 < t)%nat ->
  (0 <= inject_Z (Z.of_nat h) / inject_Z (Z.of_nat t) * 100)%Q
  /\ (inject_Z (Z.of_nat h) / inject_Z (Z.of_nat t) * 100 <= 100)%Q
  /\ ((inject_Z (Z.of_nat h) / inject_Z (Z.of_nat t) * 100 == 100)%Q <-> h = t).
Proof.
  intros Hle Hpos. destruct t as [ | m]; [lia | ].
  rewrite (Nat2Z.inj_succ m), <- Zpos_P_of_succ_nat in *.
  assert (Ht : Z.of_nat (S m) = Z.pos (Pos.of_succ_nat m))
    by (rewrite Nat2Z.inj_succ, <- Zpos_P_of_succ_nat; reflexivity).
  assert (Hh : (0 <= Z.of_nat h <= Z.pos (Pos.of_succ_nat m))%Z) by lia.
  unfold Qle, Qeq, Qdiv, Qmult, Qinv, inject_Z. simpl.
  repeat split; nia.
Qed.

(** X24: The summary of a balancer: the healthy and the unhealthy servers are
    counted apart and together never exceed the total, one entry is listed per
    server, and the health percentage lies between 0 and 100; it is 0 for a
    balancer without servers and 100 exactly when every server is healthy. *)
Theorem status_counts_are_consistent :
  forall lb : LoadBalancer,
    totalServers (statusOf lb) = List.length (lb_servers lb)
    /\ List.length (ls_servers (statusOf lb)) = totalServers (statusOf lb)
    /\ (healthyServers (statusOf lb) + unhealthyServers (statusOf lb)
        <= totalServers (statusOf lb))%nat
    /\ (0 <= healthPercentage (statusOf lb))%Q
    /\ (healthPercentage (statusOf lb) <= 100)%Q
    /\ (lb_servers lb = [] -> healthPercentage (statusOf lb) = 0%Q)
    /\ (lb_servers lb <> [] ->
        ((healthPercentage (statusOf lb) == 100)%Q
         <-> healthyServers (statusOf lb) = totalServers (statusOf lb))).
Proof.
  intro lb. unfold statusOf.
  cbn [totalServers ls_servers healthyServers unhealthyServers healthPercentage].
  pose proof (filter_disjoint_length (healthStatusIs "healthy")
                (healthStatusIs "unhealthy") (lb_servers lb) healthy_not_unhealthy) as Hsum.
  assert (Hle : (List.length (filter (healthStatusIs "healthy") (lb_servers lb))
                 <= List.length (lb_servers lb))%nat) by lia.
  split; [reflexivity | ]. split; [apply length_map | ]. split; [exact Hsum | ].
  destruct (lb_servers lb) as [ | s ss] eqn:E.
  - cbn. split; [discriminate | ]. split; [discriminate | ].
    split; [reflexivity | ]. intro Hne. contradiction.
  - rewrite <- E in *.
    assert (Hpos : (0 < List.length (lb_servers lb))%nat) by (rewrite E; simpl; lia).
    assert (Hb : (0 <? List.length (lb_servers lb))%nat = true)
      by (apply Nat.ltb_lt; exact Hpos).
    rewrite Hb.
    destruct (percentage_bounds _ _ Hle Hpos) as (H0 & H100 & Hiff).
    split; [exact H0 | ]. split; [exact H100 | ].
    split; [intro H; rewrite H in E; discriminate | ].
    intros _. exact Hiff.
Qed.


End StatusFacts.

(** ** Weighted draws and score bounds *)

Section DrawFacts.

Import Model Eff Service.
Local Open Scope Q_scope.

Lemma totalWeight_nonneg (hs : list DNSServer) :
  (forall x, In x hs -> (0 <= s_weight x)%Z) -> (0 <= totalWeight hs)%Z.
Proof.
  induction hs as [ | x hs IH]; intro H.
  - unfold totalWeight. simpl. lia.
  - rewrite totalWeight_cons.
    assert ((0 <= s_weight x)%Z) by (apply H; left; reflexivity).
    assert ((0 <= totalWeight hs)%Z) by (apply IH; intros y Hy; apply H; right; exact Hy).
    lia.
Qed.

(** X26: With non-negative weights before it, a server is the one advertised for
    every draw above the total weight of the servers listed before it and up
    to that total plus its own weight: it owns an interval of draws whose
    length is its weight. *)
Theorem weighted_walk_interval :
  forall (before : list DNSServer) (server : DNSServer) (after : list DNSServer)
         (draw : Q),
    (forall x, In x before -> (0 <= s_weight x)%Z) ->
    inject_Z (totalWeight before) < draw ->
    draw <= inject_Z (totalWeight before) + inject_Z (s_weight server) ->
    weightedWalk draw (before ++ server :: after) = Some server.
Proof.
  induction before as [ | x before IH]; intros server after draw Hnn Hlo Hhi.
  - cbn [app weightedWalk].
    assert (E : Qle_bool (draw - inject_Z (s_weight server)) 0 = true).
    { apply Qle_bool_iff. change (inject_Z (totalWeight [])) with 0 in Hhi. lra. }
    rewrite E. reflexivity.
  - rewrite totalWeight_cons, inject_Z_plus in Hlo, Hhi.
    assert (Hx : (0 <= s_weight x)%Z) by (apply Hnn; left; reflexivity).
    assert (Hrest : (0 <= totalWeight before)%Z).
    { apply totalWeight_nonneg. intros y Hy. apply Hnn. right. exact Hy. }
    assert (Hx' : 0 <= inject_Z (s_weight x)) by (rewrite <- (Zle_Qle 0); exact Hx).
    assert (Hrest' : 0 <= inject_Z (totalWeight before))
      by (rewrite <- (Zle_Qle 0); exact Hrest).
    change ((x :: before) ++ server :: after) with (x :: (before ++ server :: after)).
    cbn [weightedWalk].
    assert (E : Qle_bool (draw - inject_Z (s_weight x)) 0 = false).
    { destruct (Qle_bool (draw - inject_Z (s_weight x)) 0) eqn:E; [ | reflexivity].
      apply Qle_bool_iff in E. lra. }
    rewrite E. apply IH.
    + intros y Hy. apply Hnn. right. exact Hy.
    + lra.
    + lra.
Qed.

Lemma weighted_walk_interval_witness :
  inject_Z (totalWeight [Scenario.server "s1" "10.0.0.1" 100 None]) < 120
  /\ option_map s_ip
       (weightedWalk 120
          ([Scenario.server "s1" "10.0.0.1" 100 None]
           ++ Scenario.server "s2" "10.0.0.2" 50 None :: []))
     = Some "10.0.0.2"%string.
Proof.
  assert (Hlo : inject_Z (totalWeight [Scenario.server "s1" "10.0.0.1" 100 None]) < 120)
    by reflexivity.
  split; [exact Hlo | ].
  rewrite (weighted_walk_interval [Scenario.server "s1" "10.0.0.1" 100 None]
             (Scenario.server "s2" "10.0.0.2" 50 None) [] 120).
  - reflexivity.
  - intros x [<- | []]. discriminate.
  - exact Hlo.
  - discriminate.
Defined.

(** X27: For a server whose health row has non-negative uptime, load, memory and
    disk figures, the health score lies between 0 and 499; a server without a
    health row scores 0. *)
Theorem health_score_bounds :
  forall (server : DNSServer) (h : ServerHealth),
    s_health server = Some h ->
    0 <= h_uptime h -> 0 <= h_load h ->
    0 <= h_memoryUsage h -> 0 <= h_diskUsage h ->
    0 <= calculateHealthScore server
    /\ calculateHealthScore server <= 499
    /\ (forall other : DNSServer,
           s_health other = None -> calculateHealthScore other = 0).
Proof.
  intros server h Hh Hup Hload Hmem Hdisk.
  assert (Hnone : forall other : DNSServer,
             s_health other = None -> calculateHealthScore other = 0).
  { intros other Ho. unfold calculateHealthScore. rewrite Ho. reflexivity. }
  unfold calculateHealthScore. rewrite Hh.
  assert (Hu0 : 0 <= Qmin 100 (h_uptime h / 3600)).
  { apply Q.min_glb; [discriminate | ]. apply Qle_shift_div_l; [reflexivity | lra]. }
  assert (Hu1 : Qmin 100 (h_uptime h / 3600) <= 100) by apply Q.le_min_l.
  assert (Hl0 : 0 <= Qmax 0 (100 - h_load h * 20)) by apply Q.le_max_l.
  assert (Hl1 : Qmax 0 (100 - h_load h * 20) <= 100)
    by (apply Q.max_lub; [discriminate | lra]).
  assert (Hm0 : 0 <= Qmax 0 (100 - h_memoryUsage h)) by apply Q.le_max_l.
  assert (Hm1 : Qmax 0 (100 - h_memoryUsage h) <= 100)
    by (apply Q.max_lub; [discriminate | lra]).
  assert (Hd0 : 0 <= Qmax 0 (100 - h_diskUsage h)) by apply Q.le_max_l.
  assert (Hd1 : Qmax 0 (100 - h_diskUsage h) <= 100)
    by (apply Q.max_lub; [discriminate | lra]).
  destruct (Z.gtb_spec (h_responseTime h) 0) as [Hrt | Hrt].
  - assert (Hr0 : 0 <= Qmax 0 (100 - inject_Z (h_responseTime h))) by apply Q.le_max_l.
    assert (Hr1 : Qmax 0 (100 - inject_Z (h_responseTime h)) <= 99).
    { apply Q.max_lub; [discriminate | ].
      assert (H1 : inject_Z 1 <= inject_Z (h_responseTime h))
        by (rewrite <- Zle_Qle; lia).
      change (inject_Z 1) with 1 in H1. lra. }
    repeat split; [lra | lra | exact Hnone].
  - repeat split; [lra | lra | exact Hnone].
Qed.

Lemma health_score_bounds_witness :
  s_health (Scenario.server "s1" "10.0.0.1" 100 (Some (Scenario.healthRow "healthy" 40)))
  = Some (Scenario.healthRow "healthy" 40)
  /\ calculateHealthScore
       (Scenario.server "s1" "10.0.0.1" 100 (Some (Scenario.healthRow "healthy" 40)))
     <= 499.
Proof.
  split; [reflexivity | ].
  assert (H0 : 0 <= 0) by discriminate.
  exact (proj1 (proj2 (health_score_bounds
                        (Scenario.server "s1" "10.0.0.1" 100
                           (Some (Scenario.healthRow "healthy" 40)))
                        (Scenario.healthRow "healthy" 40) eq_refl H0 H0 H0 H0))).
Defined.

End DrawFacts.

(** ** The resolver configuration *)

Section ConfFacts.

Import Model Eff Sync Conf.
Local Open Scope string_scope.

Lemma includes_unfold (s p : string) :
  Js.includes s p =
    if Js.startsWith s p then true
    else match s with
         | EmptyString => false
         | String _ s' => Js.includes s' p
         end.
Proof. destruct s; reflexivity. Qed.

Lemma includes_prefix (p b : string) : Js.includes (p ++ b) p = true.
Proof. rewrite includes_unfold, startsWith_append. reflexivity. Qed.

Lemma includes_append_r (a b p : string) :
  Js.includes b p = true -> Js.includes (a ++ b) p = true.
Proof.
  intro H. induction a as [ | c a IH]; [exact H | ].
  change (String c a ++ b) with (String c (a ++ b)).
  rewrite includes_unfold, IH. destruct (Js.startsWith _ _); reflexivity.
Qed.

Lemma namedConf_stanzas (domains : list Domain) :
  exists header,
    namedConf domains
    = header ++ fold_right (fun d acc => stanza (d_name d) ++ acc) "" domains.
Proof.
  eexists. unfold namedConf. rewrite <- !append_assoc.
  f_equal. induction domains as [ | d domains IH]; [reflexivity | ].
  cbn [fold_right]. rewrite IH. unfold stanza, quote, Runs.zoneFilePath, ZONE_DIR.
  rewrite !append_assoc. reflexivity.
Qed.

(** X28: The configuration written by [updateNamedConfLocal] has, for every
    domain, a master zone stanza that refuses updates and whose [file] is the
    very path [createZoneFile] writes the zone of that domain to. *)
Theorem named_conf_points_to_zone_files :
  forall (e : Env) (domains : list Domain) (lbs : list LoadBalancer)
         (d : Domain) (w : World),
    In d domains ->
    write_ok e (Runs.zoneFilePath (d_name d)) = true ->
    Js.includes (namedConf domains) (stanza (d_name d)) = true
    /\ Js.includes (stanza (d_name d)) (Runs.zoneFilePath (d_name d)) = true
    /\ Js.includes (stanza (d_name d)) "    allow-update { none; };" = true
    /\ map fst (files (snd (createZoneFile e d lbs w)))
       = (map fst (files w) ++ [Runs.zoneFilePath (d_name d)])%list.
Proof.
  intros e domains lbs d w Hin Hok.
  split.
  { destruct (namedConf_stanzas domains) as (header & ->).
    apply includes_append_r.
    induction domains as [ | d0 domains IH]; [destruct Hin | ].
    cbn [fold_right]. destruct Hin as [-> | Hin].
    - apply includes_prefix.
    - apply includes_append_r. apply IH. exact Hin. }
  split.
  { unfold stanza.
    do 10 (apply includes_append_r). apply includes_prefix. }
  split.
  { unfold stanza.
    do 14 (apply includes_append_r). apply includes_prefix. }
  rewrite createZoneFile_run, Hok. cbn [snd files].
  rewrite map_app. reflexivity.
Qed.

Lemma named_conf_points_to_zone_files_witness :
  In (Scenario.exampleCom []) [Scenario.exampleCom []]
  /\ write_ok Scenario.allFine (Runs.zoneFilePath "example.com") = true
  /\ Js.includes (namedConf [Scenario.exampleCom []]) (stanza "example.com") = true
  /\ Js.includes (stanza "example.com") "/etc/bind/zones/example.com.zone" = true.
Proof.
  assert (Hin : In (Scenario.exampleCom []) [Scenario.exampleCom []])
    by (left; reflexivity).
  split; [exact Hin | ]. split; [reflexivity | ].
  destruct (named_conf_points_to_zone_files Scenario.allFine [Scenario.exampleCom []]
              [] (Scenario.exampleCom []) Scenario.emptyWorld Hin eq_refl)
    as (Hconf & Hfile & _).
  split; [exact Hconf | exact Hfile].
Defined.

End ConfFacts.

(** ** The text of a zone file *)

Section ZoneTextFacts.

Import Model Eff Zone.
Local Open Scope string_scope.

Lemma textOf_app {A : Type} (text : A -> string) (xs ys : list A) :
  textOf text (xs ++ ys)%list = textOf text xs ++ textOf text ys.
Proof.
  induction xs as [ | x xs IH]; [reflexivity | ].
  cbn [app textOf fold_right]. fold (textOf text (xs ++ ys)%list). rewrite IH.
  fold (textOf text xs). rewrite append_assoc. reflexivity.
Qed.

Lemma textOf_map {A B : Type} (text : B -> string) (g : A -> B) (xs : list A) :
  textOf text (map g xs) = textOf (fun x => text (g x)) xs.
Proof.
  induction xs as [ | x xs IH]; [reflexivity | ].
  cbn [map textOf fold_right]. f_equal. exact IH.
Qed.

Lemma textOf_ext {A : Type} (f g : A -> string) (xs : list A) :
  (forall x, f x = g x) -> textOf f xs = textOf g xs.
Proof.
  intro H. induction xs as [ | x xs IH]; [reflexivity | ].
  cbn [textOf fold_right]. rewrite H. f_equal. exact IH.
Qed.

Lemma append_nil_r (s : string) : s ++ "" = s.
Proof. induction s as [ | c s IH]; [reflexivity | ]. cbn. rewrite IH. reflexivity. Qed.

(** The zone file: the preamble, the static lines, the lines of the balancers. *)
Lemma zoneContent_text (domain : Domain) (loadBalancers : list LoadBalancer) :
  zoneContent domain loadBalancers
  = preamble (d_name domain) ++ textOf render (staticLines domain)
    ++ textOf render (flat_map (balancerLines domain) loadBalancers).
Proof.
  change (zoneContent domain loadBalancers)
    with (preamble (d_name domain) ++ textOf render (zoneLines domain loadBalancers)).
  unfold zoneLines. rewrite textOf_app. reflexivity.
Qed.

Lemma zoneContent_balancer_split (domain : Domain) (before : list LoadBalancer)
  (lb : LoadBalancer) (after : list LoadBalancer) :
  zoneContent domain (before ++ lb :: after)
  = zoneContent domain before
    ++ textOf render (balancerLines domain lb)
    ++ textOf render (flat_map (balancerLines domain) after).
Proof.
  rewrite !zoneContent_text, flat_map_app. cbn [flat_map].
  rewrite !textOf_app, !append_assoc. reflexivity.
Qed.

Lemma staticLines_split (id name : string) (before : list DNSRecord) (record : DNSRecord)
  (after : list DNSRecord) :
  staticLines (mkDomain id name (before ++ record :: after))
  = (staticLines (mkDomain id name before)
     ++ match staticLine name record with
        | Some l => [l]
        | None => []
        end
     ++ staticLines (mkDomain id name after))%list.
Proof.
  unfold staticLines. cbn [d_records d_name]. rewrite flat_map_app. reflexivity.
Qed.

Lemma zoneContent_line (domain : Domain) (loadBalancers : list LoadBalancer) (l : zline) :
  In l (zoneLines domain loadBalancers) ->
  exists before after : string,
    zoneContent domain loadBalancers = before ++ render l ++ after.
Proof.
  intro H. apply in_split in H. destruct H as (l1 & l2 & E).
  exists (preamble (d_name domain) ++ textOf render l1), (textOf render l2).
  change (zoneContent domain loadBalancers)
    with (preamble (d_name domain) ++ textOf render (zoneLines domain loadBalancers)).
  rewrite E, textOf_app.
  cbn [textOf fold_right]. rewrite !append_assoc. reflexivity.
Qed.

Lemma includes_middle (before text after : string) :
  Js.includes (before ++ text ++ after) text = true.
Proof. apply includes_append_r, includes_prefix. Qed.

(** The SRV template. *)
Lemma render_srv (name domainName : string) (weight port : Z) (ip : string) :
  render (LSrv ("_" ++ name ++ "._tcp." ++ domainName ++ ".") 0 weight port ip)
  = "_" ++ name ++ "._tcp." ++ domainName ++ ".       IN      SRV     0 "
    ++ Js.numToString weight ++ " " ++ Js.numToString port ++ " " ++ ip ++ nl.
Proof.
  unfold render. change (Js.numToString 0) with "0".
  rewrite !append_assoc. reflexivity.
Qed.

Lemma srvLines_text (lb : LoadBalancer) (domainName : string) (hs : list DNSServer) :
  textOf render (srvLines lb domainName hs)
  = if (1 <? List.length hs)%nat
    then textOf (fun s => "_" ++ lb_name lb ++ "._tcp." ++ domainName
                          ++ ".       IN      SRV     0 "
                          ++ Js.numToString (srvWeight (List.length hs)) ++ " "
                          ++ Js.numToString (s_port s) ++ " " ++ s_ip s ++ nl) hs
    else "".
Proof.
  unfold srvLines. destruct (1 <? List.length hs)%nat; [ | reflexivity].
  rewrite textOf_map. apply textOf_ext. intro s. apply render_srv.
Qed.

(** The servers whose A lines the [switch] appends. *)
Lemma algorithmLines_listed (lb : LoadBalancer) (hs : list DNSServer) :
  exists listed : list DNSServer,
    (forall s, In s listed -> In s hs)
    /\ fst (algorithmLines lb hs)
       = map (fun s => LBalancedA (lb_name lb) (s_ip s)) listed.
Proof.
  unfold algorithmLines.
  destruct (lb_algorithm lb =? "round-robin"); cbn [fst].
  { exists hs. split; [auto | reflexivity]. }
  destruct (lb_algorithm lb =? "weighted"); cbn [fst].
  { exists (flat_map (fun s => repeat s (Z.to_nat (s_weight s / 10))) hs). split.
    - intros s Hs. apply in_flat_map in Hs. destruct Hs as (x & Hx & Hs).
      apply repeat_spec in Hs. subst. exact Hx.
    - induction hs as [ | x hs IH]; [reflexivity | ].
      cbn [flat_map]. rewrite map_app, IH. f_equal.
      unfold weightedCopies. cbv zeta.
      induction (Z.to_nat (s_weight x / 10)) as [ | n IHn]; [reflexivity | ].
      cbn [repeat map]. rewrite IHn. reflexivity. }
  destruct (lb_algorithm lb =? "health-based"); cbn [fst].
  - exists (firstn 3 (sortByResponseTime hs)). split; [ | reflexivity].
    intros s Hs. apply (Permutation_in _ (sortByResponseTime_perm hs)).
    rewrite <- (firstn_skipn 3 (sortByResponseTime hs)).
    apply in_or_app. left. exact Hs.
  - exists []. split; [intros s [] | reflexivity].
Qed.

Lemma algorithmLines_nil (lb : LoadBalancer) : algorithmLines lb [] = ([], []).
Proof.
  unfold algorithmLines.
  destruct (lb_algorithm lb =? "round-robin"); [reflexivity | ].
  destruct (lb_algorithm lb =? "weighted"); [reflexivity | ].
  destruct (lb_algorithm lb =? "health-based"); reflexivity.
Qed.

(** What an active balancer of the domain appends, whether or not it has a
    healthy server. *)
Lemma balancerLines_active_all (domain : Domain) (lb : LoadBalancer) :
  lb_isActive lb = true -> lb_domainName lb = d_name domain ->
  balancerLines domain lb
  = (fst (algorithmLines lb (healthyOf lb))
     ++ srvLines lb (d_name domain) (snd (algorithmLines lb (healthyOf lb))))%list.
Proof.
  intros Ha Hd. rewrite (balancerLines_active domain lb Ha Hd).
  destruct (healthyOf lb) as [ | h hs'] eqn:E; [ | reflexivity].
  rewrite algorithmLines_nil. reflexivity.
Qed.

(** C6: CNAME targets for the domain [example.com]: [foo] and
    [foo.example.com] both give [foo.example.com.], [bar.example.com.] is
    left as it is; the zone file of a domain with that one CNAME record is
    the preamble followed by the line [www  IN  CNAME  <target>]; in every
    zone file a CNAME record that is not flagged as load balanced and whose
    name the domain accepts appears, at its place among the records, as the
    line [<owner>  IN  CNAME  <target>], and for every value and domain the
    target ends in a dot. *)
Theorem cname_target_normalized :
  cnameTarget "foo" "example.com" = "foo.example.com."
  /\ cnameTarget "foo.example.com" "example.com" = "foo.example.com."
  /\ cnameTarget "bar.example.com." "example.com" = "bar.example.com."
  /\ staticLine "example.com" (Scenario.cnameRecord "foo")
     = Some (LCname "www" "foo.example.com.")
  /\ staticLine "example.com" (Scenario.cnameRecord "foo.example.com")
     = Some (LCname "www" "foo.example.com.")
  /\ staticLine "example.com" (Scenario.cnameRecord "bar.example.com.")
     = Some (LCname "www" "bar.example.com.")
  /\ (forall value domainName : string,
         Js.endsWith (cnameTarget value domainName) "." = true)
  /\ zoneContent (Scenario.exampleCom [Scenario.cnameRecord "foo"]) []
     = preamble "example.com" ++ "www       IN      CNAME     foo.example.com." ++ nl
  /\ zoneContent (Scenario.exampleCom [Scenario.cnameRecord "foo.example.com"]) []
     = preamble "example.com" ++ "www       IN      CNAME     foo.example.com." ++ nl
  /\ zoneContent (Scenario.exampleCom [Scenario.cnameRecord "bar.example.com."]) []
     = preamble "example.com" ++ "www       IN      CNAME     bar.example.com." ++ nl
  /\ (forall (id name : string) (before : list DNSRecord) (record : DNSRecord)
             (after : list DNSRecord) (loadBalancers : list LoadBalancer)
             (owner : string),
         r_isLoadBalanced record = false ->
         r_type record = "CNAME" ->
         zoneRecordName (r_name record) name = Some owner ->
         zoneContent (mkDomain id name (before ++ record :: after)) loadBalancers
         = zoneContent (mkDomain id name before) []
           ++ (owner ++ "       IN      CNAME     " ++ cnameTarget (r_value record) name
                 ++ nl)
           ++ textOf render (zoneLines (mkDomain id name after) loadBalancers)
         /\ Js.endsWith (cnameTarget (r_value record) name) "." = true).
Proof.
  assert (Hdot : forall value domainName : string,
             Js.endsWith (cnameTarget value domainName) "." = true).
  { intros value domainName. unfold cnameTarget.
    set (target := if Js.endsWith value ("." ++ domainName)
                   then Js.replace value ("." ++ domainName) "" else value).
    destruct (Js.endsWith target ".") eqn:Hd; simpl.
    - exact Hd.
    - assert (E : target ++ "." ++ domainName ++ "."
                  = (target ++ "." ++ domainName) ++ ".")
        by (rewrite append_assoc; reflexivity).
      change (Js.endsWith (target ++ "." ++ domainName ++ ".") "." = true).
      rewrite E. apply endsWith_append. }
  do 6 (split; [reflexivity | ]).
  split; [exact Hdot | ].
  do 3 (split; [vm_compute; reflexivity | ]).
  intros id name before record after lbs owner Hflag Hty Hname.
  split; [ | apply Hdot].
  rewrite !zoneContent_text, staticLines_split. cbn [d_name flat_map].
  unfold staticLine. rewrite Hflag, Hname, Hty.
  cbn [String.eqb Ascii.eqb Bool.eqb].
  unfold zoneLines. rewrite !textOf_app. cbn [textOf fold_right render].
  rewrite !append_assoc. reflexivity.
Qed.


(** The A template over a list of servers. *)
Lemma balancedA_text (owner : string) (listed : list DNSServer) :
  textOf render (map (fun s => LBalancedA owner (s_ip s)) listed)
  = textOf (fun s => owner ++ "       IN      A       " ++ s_ip s ++ nl) listed.
Proof. rewrite textOf_map. reflexivity. Qed.

(** The text an active balancer of the domain appends: its A lines, then its
    SRV lines. *)
Lemma balancer_block_text (domain : Domain) (lb : LoadBalancer) :
  lb_isActive lb = true -> lb_domainName lb = d_name domain ->
  textOf render (balancerLines domain lb)
  = textOf render (fst (algorithmLines lb (healthyOf lb)))
    ++ (if (1 <? List.length (healthyOf lb))%nat
        then textOf (fun s => "_" ++ lb_name lb ++ "._tcp." ++ d_name domain
                              ++ ".       IN      SRV     0 "
                              ++ Js.numToString (100 / Z.of_nat (List.length (healthyOf lb)))
                              ++ " " ++ Js.numToString (s_port s) ++ " " ++ s_ip s ++ nl)
               (snd (algorithmLines lb (healthyOf lb)))
        else "").
Proof.
  intros Ha Hd. rewrite (balancerLines_active_all domain lb Ha Hd), textOf_app.
  f_equal. rewrite srvLines_text.
  rewrite (Permutation_length (algorithmLines_perm lb (healthyOf lb))).
  destruct (1 <? List.length (healthyOf lb))%nat eqn:E; [ | reflexivity].
  apply Nat.ltb_lt in E. rewrite srvWeight_div by lia. reflexivity.
Qed.

(** C7: for an active balancer whose domain is the zone's domain, with [N]
    healthy servers: the zone file is what the earlier balancers give,
    followed by the balancer's A lines, followed, when [N > 1], by one line
    [_<balancer>._tcp.<domain>.  IN  SRV  0 floor(100/N) <port> <ip>] per
    healthy server (in the order the algorithm branch left the array) and by
    nothing when [N <= 1], followed by what the later balancers append.  The
    weight the code computes, [floor((1 / N) * 100)], is [floor(100 / N)] for
    every [N >= 2]. *)
Theorem srv_one_per_healthy_server :
  forall (domain : Domain) (lb : LoadBalancer),
    lb_isActive lb = true ->
    lb_domainName lb = d_name domain ->
    (exists emitted : list DNSServer,
        Permutation emitted (healthyOf lb)
        /\ filter isSrv (balancerLines domain lb) =
             (if (1 <? List.length (healthyOf lb))%nat
              then map (fun s =>
                          LSrv ("_" ++ lb_name lb ++ "._tcp." ++ d_name domain ++ ".")
                               0 (100 / Z.of_nat (List.length (healthyOf lb)))
                               (s_port s) (s_ip s))
                       emitted
              else [])
        /\ (forall before after : list LoadBalancer,
               filter isSrv (zoneLines domain (before ++ lb :: after)) =
                 (filter isSrv (staticLines domain)
                  ++ filter isSrv (flat_map (balancerLines domain) before)
                  ++ (if (1 <? List.length (healthyOf lb))%nat
                      then map (fun s =>
                                  LSrv ("_" ++ lb_name lb ++ "._tcp." ++ d_name domain ++ ".")
                                       0 (100 / Z.of_nat (List.length (healthyOf lb)))
                                       (s_port s) (s_ip s))
                               emitted
                      else [])
                  ++ filter isSrv (flat_map (balancerLines domain) after))%list)
        /\ exists listed : list DNSServer,
            (forall s : DNSServer, In s listed -> In s (healthyOf lb))
            /\ forall before after : list LoadBalancer,
                zoneContent domain (before ++ lb :: after)
                = zoneContent domain before
                  ++ textOf (fun s => lb_name lb ++ "       IN      A       " ++ s_ip s ++ nl)
                       listed
                  ++ (if (1 <? List.length (healthyOf lb))%nat
                      then textOf
                             (fun s => "_" ++ lb_name lb ++ "._tcp." ++ d_name domain
                                       ++ ".       IN      SRV     0 "
                                       ++ Js.numToString
                                            (100 / Z.of_nat (List.length (healthyOf lb)))
                                       ++ " " ++ Js.numToString (s_port s)
                                       ++ " " ++ s_ip s ++ nl)
                             emitted
                      else "")
                  ++ textOf render (flat_map (balancerLines domain) after))
    /\ (forall n : nat, (2 <= n)%nat -> srvWeight n = (100 / Z.of_nat n)%Z).
Proof.
  intros domain lb Ha Hd. split.
  2: { intros n Hn. apply srvWeight_div. lia. }
  exists (snd (algorithmLines lb (healthyOf lb))).
  pose proof (algorithmLines_perm lb (healthyOf lb)) as Hperm.
  split; [exact Hperm | ].
  assert (Hsrv : filter isSrv (balancerLines domain lb) =
                 (if (1 <? List.length (healthyOf lb))%nat
                  then map (fun s =>
                              LSrv ("_" ++ lb_name lb ++ "._tcp." ++ d_name domain ++ ".")
                                   0 (100 / Z.of_nat (List.length (healthyOf lb)))
                                   (s_port s) (s_ip s))
                           (snd (algorithmLines lb (healthyOf lb)))
                  else [])).
  { rewrite (balancerLines_active domain lb Ha Hd).
    destruct (healthyOf lb) as [ | h hs'] eqn:Eh; [reflexivity | ].
    rewrite filter_app, algorithmLines_no_srv. simpl app.
    rewrite (proj1 (srvLines_all_srv _ _ _)).
    unfold srvLines. rewrite (Permutation_length Hperm).
    destruct (1 <? List.length (h :: hs'))%nat eqn:E1; [ | reflexivity].
    apply Nat.ltb_lt in E1.
    rewrite srvWeight_div by lia. reflexivity. }
  split; [exact Hsrv | ].
  split; [intros before after; rewrite zoneLines_srv_split, Hsrv; reflexivity | ].
  destruct (algorithmLines_listed lb (healthyOf lb)) as (listed & Hin & Hlisted).
  exists listed. split; [exact Hin | ].
  intros before after.
  rewrite zoneContent_balancer_split, (balancer_block_text domain lb Ha Hd).
  rewrite Hlisted, balancedA_text, !append_assoc. reflexivity.
Qed.

Lemma srv_one_per_healthy_server_witness :
  lb_isActive Scenario.threeServers = true
  /\ lb_domainName Scenario.threeServers = d_name (Scenario.exampleCom [])
  /\ List.length (healthyOf Scenario.threeServers) = 2%nat
  /\ exists emitted : list DNSServer,
      Permutation emitted (healthyOf Scenario.threeServers)
      /\ filter isSrv (balancerLines (Scenario.exampleCom []) Scenario.threeServers) =
           map (fun s => LSrv "_web._tcp.example.com." 0 50 (s_port s) (s_ip s)) emitted.
Proof.
  split; [reflexivity | ]. split; [reflexivity | ]. split; [reflexivity | ].
  destruct (proj1 (srv_one_per_healthy_server (Scenario.exampleCom [])
                     Scenario.threeServers eq_refl eq_refl))
    as (emitted & Hperm & Hsrv & _).
  exists emitted. split; [exact Hperm | exact Hsrv].
Defined.

(** The zone file of [example.com] with the health-based balancer [web] of
    three servers, two of them healthy. *)
Example zone_text_health_based_three_servers :
  zoneContent (Scenario.exampleCom []) [Scenario.threeServers]
  = preamble "example.com"
    ++ "web       IN      A       10.0.0.3" ++ nl
    ++ "web       IN      A       10.0.0.1" ++ nl
    ++ "_web._tcp.example.com.       IN      SRV     0 50 80 10.0.0.3" ++ nl
    ++ "_web._tcp.example.com.       IN      SRV     0 50 80 10.0.0.1" ++ nl.
Proof. vm_compute. reflexivity. Qed.

(** X14: The A record a selection pass writes for a balancer whose name has no
    dot reaches the zone file of the balancer's domain: when the Prisma calls
    of the pass resolve and the row it updates (if any) is not flagged as
    load balanced, the zone file synthesized from the record table has the
    line [<balancer>  IN  A<fields>  <ip>] with the selected server's IP,
    where [<fields>] is empty when the pass created the row. *)
Theorem selected_server_reaches_zone :
  forall (e : Env) (lb : LoadBalancer) (server : DNSServer) (w : World)
         (loadBalancers : list LoadBalancer),
    Js.includes (lb_name lb) "." = false ->
    Service.canWrite e lb (records w) = true ->
    (forall ex : DNSRecord,
        Service.findFirstA (records w) (lb_domainId lb)
          (lb_name lb ++ "." ++ lb_domainName lb) = Some ex ->
        r_isLoadBalanced ex = false) ->
    exists fields before after : string,
      zoneContent
        (Sync.withRecords
           (records (snd (Service.createOrUpdateDNSRecord e lb server w)))
           (lb_domainId lb, lb_domainName lb))
        loadBalancers
      = before
        ++ (lb_name lb ++ "       IN      A" ++ fields ++ "     " ++ s_ip server ++ nl)
        ++ after
      /\ (Service.findFirstA (records w) (lb_domainId lb)
            (lb_name lb ++ "." ++ lb_domainName lb) = None ->
          fields = "").
Proof.
  intros e lb server w lbs Hdot Hcan Hflag.
  rewrite createOrUpdateDNSRecord_run, Hcan. cbn [snd records].
  set (name := lb_name lb ++ "." ++ lb_domainName lb) in *.
  destruct (written_record_found lb server (records w))
    as (r & Hfind & Hval & _ & Hty & Hname & Hfl).
  fold name in Hfind, Hname, Hfl.
  set (rs' := match Service.findFirstA (records w) (lb_domainId lb) name with
              | Some ex => Service.updateValue (records w) (r_id ex) (s_ip server) 60
              | None => Service.createA (records w) (lb_domainId lb) name (s_ip server) 60
              end) in *.
  assert (Hunflagged : r_isLoadBalanced r = false).
  { rewrite Hfl. destruct (Service.findFirstA (records w) (lb_domainId lb) name) eqn:E;
      [apply Hflag; reflexivity | reflexivity]. }
  assert (Hfields : Service.findFirstA (records w) (lb_domainId lb) name = None ->
                    optField (keepTruthy (r_priority r))
                    ++ optField (keepTruthy (r_weight r))
                    ++ optField (keepTruthy (r_port r)) = "").
  { intro E. subst rs'. rewrite E in Hfind.
    rewrite (findFirstA_createA _ _ _ _ _ E) in Hfind. injection Hfind as <-.
    reflexivity. }
  unfold Service.findFirstA in Hfind. apply find_some in Hfind.
  destruct Hfind as [Hin Hkey].
  apply andb_prop in Hkey. destruct Hkey as [Hkey _].
  apply andb_prop in Hkey. destruct Hkey as [Hdom _].
  apply String.eqb_eq in Hdom.
  destruct (zoneContent_line (Sync.withRecords rs' (lb_domainId lb, lb_domainName lb)) lbs
              (LGeneric (lb_name lb) "A" (keepTruthy (r_priority r))
                 (keepTruthy (r_weight r)) (keepTruthy (r_port r)) (s_ip server)))
    as (before & after & Hzone).
  { unfold zoneLines. apply in_or_app. left.
    apply staticLines_in. exists r. split.
    - unfold Sync.withRecords. cbn [d_records fst]. apply filter_In.
      split; [exact Hin | apply String.eqb_eq; exact Hdom].
    - unfold Sync.withRecords. cbn [d_name snd]. unfold staticLine.
      rewrite Hunflagged, Hname. unfold name.
      rewrite (proj1 (subdomain_owner_lemma (lb_name lb) (lb_domainName lb) Hdot)).
      rewrite Hty, Hval. reflexivity. }
  exists (optField (keepTruthy (r_priority r)) ++ optField (keepTruthy (r_weight r))
          ++ optField (keepTruthy (r_port r))), before, after.
  split; [ | exact Hfields].
  rewrite Hzone. unfold render. rewrite !append_assoc. reflexivity.
Qed.

Lemma selected_server_reaches_zone_witness :
  Js.includes (lb_name Scenario.oneHealthy) "." = false
  /\ Service.canWrite Scenario.allFine Scenario.oneHealthy (records Scenario.emptyWorld)
     = true
  /\ exists before after : string,
      zoneContent
        (Sync.withRecords
           (records (snd (Service.createOrUpdateDNSRecord Scenario.allFine
                            Scenario.oneHealthy
                            (Scenario.server "s1" "10.0.0.1" 100 None)
                            Scenario.emptyWorld)))
           ("d1", "example.com"))
        []
      = before ++ ("web       IN      A     10.0.0.1" ++ nl) ++ after.
Proof.
  split; [reflexivity | ]. split; [reflexivity | ].
  destruct (selected_server_reaches_zone Scenario.allFine Scenario.oneHealthy
              (Scenario.server "s1" "10.0.0.1" 100 None) Scenario.emptyWorld []
              eq_refl eq_refl)
    as (fields & before & after & Hzone & Hfields).
  { intros ex H. discriminate H. }
  exists before, after.
  etransitivity; [exact Hzone | rewrite (Hfields eq_refl); reflexivity].
Defined.

(** X17: A health-based balancer active on the domain gets one A line for each of
    the first three healthy servers in ascending order of response time (all
    of them when there are fewer): no server left out answers faster than a
    server listed.  In the zone file these lines [<balancer>  IN  A  <ip>]
    come right after what the earlier balancers gave and right before the
    SRV lines of the balancer, which follow the same order. *)
Theorem health_based_lists_fastest_three :
  forall (domain : Domain) (lb : LoadBalancer),
    lb_isActive lb = true ->
    lb_domainName lb = d_name domain ->
    lb_algorithm lb = "health-based" ->
    Permutation (sortByResponseTime (healthyOf lb)) (healthyOf lb)
    /\ StronglySorted (fun a b => (sortKey a <= sortKey b)%Z)
         (sortByResponseTime (healthyOf lb))
    /\ filter isA (balancerLines domain lb)
       = map (fun s => LBalancedA (lb_name lb) (s_ip s))
             (firstn 3 (sortByResponseTime (healthyOf lb)))
    /\ List.length (filter isA (balancerLines domain lb))
       = Nat.min 3 (List.length (healthyOf lb))
    /\ (forall listed other : DNSServer,
           In listed (firstn 3 (sortByResponseTime (healthyOf lb))) ->
           In other (skipn 3 (sortByResponseTime (healthyOf lb))) ->
           (sortKey listed <= sortKey other)%Z)
    /\ (forall before after : list LoadBalancer,
           zoneContent domain (before ++ lb :: after)
           = zoneContent domain before
             ++ textOf (fun s => lb_name lb ++ "       IN      A       " ++ s_ip s ++ nl)
                  (firstn 3 (sortByResponseTime (healthyOf lb)))
             ++ (if (1 <? List.length (healthyOf lb))%nat
                 then textOf
                        (fun s => "_" ++ lb_name lb ++ "._tcp." ++ d_name domain
                                  ++ ".       IN      SRV     0 "
                                  ++ Js.numToString
                                       (100 / Z.of_nat (List.length (healthyOf lb)))
                                  ++ " " ++ Js.numToString (s_port s)
                                  ++ " " ++ s_ip s ++ nl)
                        (sortByResponseTime (healthyOf lb))
                 else "")
             ++ textOf render (flat_map (balancerLines domain) after)).
Proof.
  intros domain lb Ha Hd Halg.
  pose proof (sortByResponseTime_perm (healthyOf lb)) as Hperm.
  pose proof (sortByResponseTime_sorted (healthyOf lb)) as Hsorted.
  assert (Halgo : algorithmLines lb (healthyOf lb)
                  = (map (fun s => LBalancedA (lb_name lb) (s_ip s))
                         (firstn 3 (sortByResponseTime (healthyOf lb))),
                     sortByResponseTime (healthyOf lb))).
  { unfold algorithmLines. rewrite Halg. reflexivity. }
  assert (Hlines : filter isA (balancerLines domain lb)
                   = map (fun s => LBalancedA (lb_name lb) (s_ip s))
                         (firstn 3 (sortByResponseTime (healthyOf lb)))).
  { rewrite (balancerLines_active_all domain lb Ha Hd), Halgo. cbn [fst snd].
    rewrite filter_app, (proj2 (srvLines_all_srv _ _ _)), app_nil_r.
    apply balancedA_all_A. }
  split; [exact Hperm | ]. split; [exact Hsorted | ]. split; [exact Hlines | ].
  split.
  { rewrite Hlines, length_map, length_firstn, (Permutation_length Hperm). reflexivity. }
  split.
  { intros listed other Hl Ho.
    apply (sorted_app_le (firstn 3 (sortByResponseTime (healthyOf lb)))
             (skipn 3 (sortByResponseTime (healthyOf lb)))); try assumption.
    rewrite firstn_skipn. exact Hsorted. }
  intros before after.
  rewrite zoneContent_balancer_split, (balancer_block_text domain lb Ha Hd), Halgo.
  cbn [fst snd]. rewrite balancedA_text, !append_assoc. reflexivity.
Qed.

Lemma health_based_lists_fastest_three_witness :
  lb_isActive Scenario.threeServers = true
  /\ lb_domainName Scenario.threeServers = d_name (Scenario.exampleCom [])
  /\ lb_algorithm Scenario.threeServers = "health-based"
  /\ filter isA (balancerLines (Scenario.exampleCom []) Scenario.threeServers)
     = [LBalancedA "web" "10.0.0.3"; LBalancedA "web" "10.0.0.1"].
Proof.
  repeat (split; [reflexivity | ]).
  destruct (health_based_lists_fastest_three (Scenario.exampleCom [])
              Scenario.threeServers eq_refl eq_refl eq_refl) as (_ & _ & Hlines & _).
  rewrite Hlines. reflexivity.
Defined.

(** X29: A round-robin balancer active on the domain gets one A line per healthy
    server, in the order of the server list, followed by the SRV lines when
    there are at least two healthy servers: the zone file is what the earlier
    balancers gave, then one line [<balancer>  IN  A  <ip>] per healthy
    server, then (with at least two of them) one SRV line per healthy server,
    then what the later balancers append. *)
Theorem round_robin_lists_every_healthy_server :
  forall (domain : Domain) (lb : LoadBalancer),
    lb_isActive lb = true ->
    lb_domainName lb = d_name domain ->
    lb_algorithm lb = "round-robin" ->
    filter isA (balancerLines domain lb)
    = map (fun s => LBalancedA (lb_name lb) (s_ip s)) (healthyOf lb)
    /\ (forall before after : list LoadBalancer,
           zoneContent domain (before ++ lb :: after)
           = zoneContent domain before
             ++ textOf (fun s => lb_name lb ++ "       IN      A       " ++ s_ip s ++ nl)
                  (healthyOf lb)
             ++ (if (1 <? List.length (healthyOf lb))%nat
                 then textOf
                        (fun s => "_" ++ lb_name lb ++ "._tcp." ++ d_name domain
                                  ++ ".       IN      SRV     0 "
                                  ++ Js.numToString
                                       (100 / Z.of_nat (List.length (healthyOf lb)))
                                  ++ " " ++ Js.numToString (s_port s)
                                  ++ " " ++ s_ip s ++ nl)
                        (healthyOf lb)
                 else "")
             ++ textOf render (flat_map (balancerLines domain) after))
    /\ List.length (balancerLines domain lb)
       = (if (1 <? List.length (healthyOf lb))%nat
          then 2 * List.length (healthyOf lb)
          else List.length (healthyOf lb))%nat.
Proof.
  intros domain lb Ha Hd Halg.
  assert (Halgo : algorithmLines lb (healthyOf lb)
                  = (map (fun s => LBalancedA (lb_name lb) (s_ip s)) (healthyOf lb),
                     healthyOf lb)).
  { unfold algorithmLines. rewrite Halg. reflexivity. }
  assert (Hlines : balancerLines domain lb
                   = (map (fun s => LBalancedA (lb_name lb) (s_ip s)) (healthyOf lb)
                      ++ srvLines lb (d_name domain) (healthyOf lb))%list).
  { rewrite (balancerLines_active_all domain lb Ha Hd), Halgo. reflexivity. }
  split; [ | split].
  - rewrite Hlines, filter_app, (proj2 (srvLines_all_srv _ _ _)), app_nil_r.
    apply balancedA_all_A.
  - intros before after.
    rewrite zoneContent_balancer_split, (balancer_block_text domain lb Ha Hd), Halgo.
    cbn [fst snd]. rewrite balancedA_text, !append_assoc. reflexivity.
  - rewrite Hlines, length_app, length_map. unfold srvLines.
    destruct (1 <? List.length (healthyOf lb))%nat; [rewrite length_map | simpl]; lia.
Qed.

Lemma round_robin_lists_every_healthy_server_witness :
  lb_isActive (Scenario.twoServers "round-robin") = true
  /\ lb_algorithm (Scenario.twoServers "round-robin") = "round-robin"
  /\ zoneContent (Scenario.exampleCom []) [Scenario.twoServers "round-robin"]
     = preamble "example.com"
       ++ "web       IN      A       10.0.0.1" ++ nl
       ++ "web       IN      A       10.0.0.2" ++ nl
       ++ "_web._tcp.example.com.       IN      SRV     0 50 80 10.0.0.1" ++ nl
       ++ "_web._tcp.example.com.       IN      SRV     0 50 80 10.0.0.2" ++ nl.
Proof.
  split; [reflexivity | ]. split; [reflexivity | ].
  etransitivity.
  - exact (proj1 (proj2 (round_robin_lists_every_healthy_server (Scenario.exampleCom [])
                           (Scenario.twoServers "round-robin") eq_refl eq_refl eq_refl))
             [] []).
  - vm_compute. reflexivity.
Defined.

End ZoneTextFacts.
